(** * captools: CSV seed-data validation against a compiled CDS model

    A shallow embedding of [validate-csv.js].  The repository holds two
    copies of that module.  [getCsvHeaders], [validateHeaderRow] and
    [validateCsvHeaders] are the same in both; [validateCsvFilenames]
    differs: the documented copy walks the discovered files and looks the
    entity up, the copy under [tools/] walks the entities and looks for
    files.  The shared functions are embedded once, the two filename
    validators in the modules [ByFile] and [ByEntity].

    Conventions of the embedding
    - JavaScript strings are [string]s of ASCII text; [toLowerCase] and
      [trim] act on the ASCII letters and ASCII white space.
    - A JavaScript object used as a dictionary is an association list in
      the object's enumeration order; [get] reads an own property.  The
      lookup table that the file-walking validator builds from an object
      literal is read through [Object.prototype] as well.
    - [chalk] colouring is dropped; every block of [console] calls is one
      [Event] whose constructor names the block and carries the values
      that are interpolated in its text.
    - The model returned by [cds.load] and the file system are inputs. *)

From Stdlib Require Import List String Ascii Bool Arith NArith ZArith Lia Permutation Sorted.
Import ListNotations.
Local Open Scope string_scope.
Local Open Scope list_scope.

(** ** JavaScript strings *)

Module Js.

Definition LF : ascii := "010"%char.
Definition CR : ascii := "013"%char.
Definition QUOTE : ascii := "034"%char.

(** [String.prototype.toLowerCase] on ASCII text. *)
Definition lowerChar (c : ascii) : ascii :=
  let n := nat_of_ascii c in
  if ((65 <=? n) && (n <=? 90))%nat then ascii_of_nat (n + 32) else c.

Fixpoint toLowerCase (s : string) : string :=
  match s with
  | EmptyString => EmptyString
  | String c r => String (lowerChar c) (toLowerCase r)
  end.

(** [s.replace(/x/g, y)] for one-character [x] and [y]. *)
Fixpoint replaceChar (x y : ascii) (s : string) : string :=
  match s with
  | EmptyString => EmptyString
  | String c r => String (if Ascii.eqb c x then y else c) (replaceChar x y r)
  end.

Definition startsWith (s p : string) : bool := String.prefix p s.

Fixpoint endsWith (s p : string) : bool :=
  (s =? p) ||
  match s with
  | EmptyString => false
  | String _ r => endsWith r p
  end.

(** [s.includes(p)]. *)
Fixpoint includes (s p : string) : bool :=
  String.prefix p s ||
  match s with
  | EmptyString => false
  | String _ r => includes r p
  end.

(** [s.split(c)] for a one-character separator. *)
Fixpoint split (c : ascii) (s : string) : list string :=
  match s with
  | EmptyString => [EmptyString]
  | String a r =>
      if Ascii.eqb a c then EmptyString :: split c r
      else match split c r with
           | [] => [String a EmptyString]
           | h :: t => String a h :: t
           end
  end.

(** ASCII white space as [trim] sees it: TAB, LF, VT, FF, CR, space. *)
Definition isWhite (c : ascii) : bool :=
  let n := nat_of_ascii c in
  (((9 <=? n) && (n <=? 13)) || (n =? 32))%nat.

Fixpoint trimStart (s : string) : string :=
  match s with
  | EmptyString => EmptyString
  | String c r => if isWhite c then trimStart r else s
  end.

Fixpoint trimEnd (s : string) : string :=
  match s with
  | EmptyString => EmptyString
  | String c r =>
      match trimEnd r with
      | EmptyString => if isWhite c then EmptyString else String c EmptyString
      | r' => String c r'
      end
  end.

Definition trim (s : string) : string := trimEnd (trimStart s).

(** Removal of a double quote that ends the string (the second
    alternative of the pattern in [getCsvHeaders]). *)
Fixpoint dropLastQuote (s : string) : string :=
  match s with
  | EmptyString => EmptyString
  | String c EmptyString => if Ascii.eqb c QUOTE then EmptyString else s
  | String c r => String c (dropLastQuote r)
  end.

(** The quote stripping of [getCsvHeaders], a global replace of
    a quote at the start, or a quote at the end, by nothing: a quote
    at the first position goes, and then a quote at the last position
    of what is left. *)
Definition stripQuotes (s : string) : string :=
  match s with
  | String c r => if Ascii.eqb c QUOTE then dropLastQuote r else dropLastQuote s
  | EmptyString => EmptyString
  end.

(** [s.split(/\r?\n/)[0]]. *)
Fixpoint firstLine (s : string) : string :=
  match s with
  | EmptyString => EmptyString
  | String c r =>
      if Ascii.eqb c LF then EmptyString
      else if Ascii.eqb c CR && String.prefix (String LF EmptyString) r then EmptyString
      else String c (firstLine r)
  end.

(** Removal of a final [.csv], in any letter case (the pattern
    [/\.csv$/i] of the filename check). *)
Fixpoint stripCsvExt (s : string) : string :=
  if toLowerCase s =? ".csv" then EmptyString
  else match s with
       | EmptyString => EmptyString
       | String c r => String c (stripCsvExt r)
       end.

(** [s.split(dot).pop()]: the text after the last dot. *)
Definition afterLastDot (s : string) : string :=
  last (split "."%char s) EmptyString.

(** [Array.prototype.includes] on an array of strings. *)
Definition arrayIncludes (l : list string) (x : string) : bool :=
  existsb (String.eqb x) l.

(** [Array.prototype.sort] without comparator on an array of strings:
    ascending by code units.  Written as an insertion sort. *)
Fixpoint insert (x : string) (l : list string) : list string :=
  match l with
  | [] => [x]
  | y :: r => if (x <=? y)%string then x :: l else y :: insert x r
  end.

Fixpoint sort (l : list string) : list string :=
  match l with
  | [] => []
  | x :: r => insert x (sort r)
  end.

(** Objects used as dictionaries. *)
Definition Obj (A : Type) : Type := list (string * A).

Definition keys {A} (o : Obj A) : list string := map fst o.

Fixpoint get {A} (o : Obj A) (k : string) : option A :=
  match o with
  | [] => None
  | (k', v) :: r => if k' =? k then Some v else get r k
  end.

(** [o[k] = v]: an existing key keeps its place, a new one goes last. *)
Fixpoint set {A} (o : Obj A) (k : string) (v : A) : Obj A :=
  match o with
  | [] => [(k, v)]
  | (k', v') :: r => if k' =? k then (k', v) :: r else (k', v') :: set r k v
  end.

End Js.

(** ** The compiled model (CSN) *)

(** [cardinality.max] is the string of one star for a to-many element
    and a number otherwise. *)
Inductive CardinalityMax : Type :=
| MaxStar
| MaxNumber (n : nat)
| MaxAbsent.

Record Cardinality : Type := { max : CardinalityMax }.

Record Element : Type := {
  type : string;                      (* [element.type]; empty when absent *)
  key : bool;                         (* [element.key] is truthy *)
  virtual : bool;                     (* [element.virtual] is truthy *)
  elementSkip : bool;                 (* [element["@cds.persistence.skip"]] *)
  cardinality : option Cardinality;
  target : option string
}.

Record Definition_ : Type := {
  kind : string;
  definitionSkip : bool;              (* [def["@cds.persistence.skip"]] *)
  elements : Js.Obj Element
}.

Record Csn : Type := { definitions : Js.Obj Definition_ }.

(** ** The file system, as far as the module uses it *)

(** [None] stands for a thrown exception. *)
Record Fs : Type := {
  existsSync : string -> bool;
  readdirSync : string -> option (list string);
  readFileSync : string -> option string
}.

(** [path.join(folder, name)] for a folder of [dataFolders] and an entry
    of its listing: nothing to normalise. *)
Definition pathJoin (folder name : string) : string :=
  (folder ++ "/" ++ name)%string.

(** ** Console output *)

(** The two validators word their opening and closing lines differently. *)
Inductive Phase : Type := Filenames | Headers.

Inductive Event : Type :=
(* validateHeaderRow *)
| HeaderErrorExtra (entityName filePath : string) (extra : list string)
| HeaderErrorMissingKeys (entityName filePath : string) (missingKeys : list string)
| HeaderWarning (entityName filePath : string) (missingNonKeys : list string)
| HeaderOk (entityName filePath : string)
(* both validators *)
| LoadingModel (ph : Phase)
| NoCsvFilesFound
| FoundCsvFiles (ph : Phase) (count : nat)
| Separator
| Findings (ph : Phase) (errors warnings : nat)
| Perfect (ph : Phase)
(* validateCsvFilenames *)
| FunctionActionCsv (actualName fileBaseName : string)
| EntityNotFound (actualName entityNameFromFile : string)
| FilenameOk (entityName actualName : string)
| EntityCaseError (actualName entityNameFromFile correctEntityName strictName : string)
| CaseMismatch (entityName strictName actualName : string)
| NamespaceError (entityName strictName actualName : string)
| NoCsv (entityName strictName : string)
| BlankLine.
(* The header blocks print [path.basename(filePath)]; the event keeps the
   whole path. *)

Inductive Stream : Type := ConsoleError | ConsoleWarn | ConsoleLog.

(** The [console] method each block is written with. *)
Definition stream (e : Event) : Stream :=
  match e with
  | HeaderErrorExtra _ _ _ | HeaderErrorMissingKeys _ _ _
  | NoCsvFilesFound | EntityNotFound _ _ | EntityCaseError _ _ _ _
  | NamespaceError _ _ _ => ConsoleError
  | HeaderWarning _ _ _ | FunctionActionCsv _ _ | CaseMismatch _ _ _ => ConsoleWarn
  | _ => ConsoleLog
  end.

(** ** getCsvHeaders *)

Definition splitHeaderLine (sep : ascii) (firstLine : string) : list string :=
  map (fun h => Js.stripQuotes (Js.trim h)) (Js.split sep firstLine).

Definition getCsvHeaders (fs : Fs) (filePath : string) : list string :=
  match readFileSync fs filePath with
  | Some content =>
      let firstLine := Js.firstLine content in
      if firstLine =? EmptyString then []
      else if Js.includes firstLine ";" then splitHeaderLine ";"%char firstLine
      else splitHeaderLine ","%char firstLine
  | None => []                                         (* catch (e) *)
  end.

(** ** validateHeaderRow *)

Definition managedFields : list string :=
  ["createdAt"; "createdBy"; "modifiedAt"; "modifiedBy"].

Definition isAssociation (el : Element) : bool := type el =? "cds.Association".
Definition isComposition (el : Element) : bool := type el =? "cds.Composition".

(** [element.cardinality && element.cardinality.max === "*"]. *)
Definition toMany (el : Element) : bool :=
  match cardinality el with
  | Some {| max := MaxStar |} => true
  | _ => false
  end.

(** [csn.definitions[element.target]]; an absent target is the property
    name [undefined]. *)
Definition targetOf (csn : Csn) (el : Element) : option Definition_ :=
  Js.get (definitions csn)
         (match target el with Some t => t | None => "undefined" end).

(** [Object.keys(target.elements).filter((k) => target.elements[k].key)]. *)
Definition keysOf (d : Definition_) : list string :=
  filter (fun k => match Js.get (elements d) k with
                   | Some el => key el
                   | None => false
                   end)
         (Js.keys (elements d)).

(** The columns that one turn of the loop over [def.elements] pushes. *)
Definition expectedFor (csn : Csn) (def : Definition_) (name : string) : list string :=
  match Js.get (elements def) name with
  | None => []
  | Some element =>
      if virtual element || elementSkip element then []
      else if Js.arrayIncludes managedFields name then []
      else if isAssociation element || isComposition element then
        if toMany element then []
        else if isComposition element then []
        else if isAssociation element then
          match targetOf csn element with
          | Some tgt => map (fun k => (name ++ "_" ++ k)%string) (keysOf tgt)
          | None => []
          end
        else []
      else [name]
  end.

Definition expectedColumns (csn : Csn) (def : Definition_) : list string :=
  flat_map (expectedFor csn def) (Js.keys (elements def)).

Definition missingColumns (expected headers : list string) : list string :=
  filter (fun e => negb (Js.arrayIncludes headers e)) expected.

Definition isMissingKey (def : Definition_) (e : string) : bool :=
  if Js.includes e "_" then false
  else match Js.get (elements def) e with
       | Some el => key el
       | None => false
       end.

Definition missingKeyColumns (def : Definition_) (missing : list string) : list string :=
  filter (isMissingKey def) missing.

Definition missingNonKeyColumns (missing missingKeys : list string) : list string :=
  filter (fun e => negb (Js.arrayIncludes missingKeys e)) missing.

(** [h.split("_")[0]]. *)
Definition baseNameOf (h : string) : string :=
  hd EmptyString (Js.split "_"%char h).

Definition isForeignKeyPattern (def : Definition_) (h : string) : bool :=
  Js.includes h "_" &&
  match Js.get (elements def) (baseNameOf h) with
  | Some element =>
      (isAssociation element || isComposition element) &&
      match cardinality element with
      | None => true
      | Some c => match max c with MaxStar => false | _ => true end
      end
  | None => false
  end.

Definition isCaseMismatch (def : Definition_) (h : string) : bool :=
  existsb (fun name => Js.toLowerCase name =? Js.toLowerCase h)
          (Js.keys (elements def)).

Definition isExtra (def : Definition_) (expected : list string) (h : string) : bool :=
  if Js.arrayIncludes managedFields h then false
  else if Js.arrayIncludes expected h then false
  else if isForeignKeyPattern def h then false
  else if isCaseMismatch def h then false
  else true.

Definition extraColumns (def : Definition_) (expected headers : list string) : list string :=
  filter (isExtra def expected) headers.

Record HeaderResult : Type := { hasErrors : bool; hasWarnings : bool }.

(** The part of [validateHeaderRow] after the header row is read. *)
Definition reconcile (csn : Csn) (def : Definition_) (entityName filePath : string)
    (headers : list string) (traceLevel : nat) : list Event * HeaderResult :=
  let expected := expectedColumns csn def in
  let missing := missingColumns expected headers in
  let missingKeys := missingKeyColumns def missing in
  let missingNonKeys := missingNonKeyColumns missing missingKeys in
  let extra := extraColumns def expected headers in
  let '(out1, hasErrors1) :=
    match extra with
    | [] => ([], false)
    | _ => ([HeaderErrorExtra entityName filePath extra], true)
    end in
  let '(out2, hasErrors2) :=
    match missingKeys with
    | [] => (out1, hasErrors1)
    | _ => (out1 ++ [HeaderErrorMissingKeys entityName filePath missingKeys], true)
    end in
  let '(out3, hasWarnings3) :=
    match missingNonKeys with
    | [] => (out2, false)
    | _ => if (1 <=? traceLevel)%nat
           then (out2 ++ [HeaderWarning entityName filePath missingNonKeys], true)
           else (out2, false)
    end in
  let out4 :=
    if negb hasErrors2 && negb hasWarnings3 && (2 <=? traceLevel)%nat
    then out3 ++ [HeaderOk entityName filePath]
    else out3 in
  (out4, {| hasErrors := hasErrors2; hasWarnings := hasWarnings3 |}).

(** [None] is the [return false] taken when the entity is unknown. *)
Definition validateHeaderRow (fs : Fs) (filePath entityName : string) (csn : Csn)
    (traceLevel : nat) : list Event * option HeaderResult :=
  match Js.get (definitions csn) entityName with
  | None => ([], None)
  | Some def =>
      let headers := getCsvHeaders fs filePath in
      let '(out, r) := reconcile csn def entityName filePath headers traceLevel in
      (out, Some r)
  end.

(** ** Console output and exceptions as a monad

    A computation yields what it wrote to the console and either a value
    or nothing, when an exception escaped. *)

Definition Run (A : Type) : Type := (list Event * option A)%type.

Definition ret {A} (a : A) : Run A := ([], Some a).

Definition bind {A B} (m : Run A) (k : A -> Run B) : Run B :=
  match m with
  | (out, None) => (out, None)
  | (out, Some a) => let '(out', b) := k a in (out ++ out', b)
  end.

Definition log (e : Event) : Run unit := ([e], Some tt).
Definition throw {A} : Run A := ([], None).

Notation "x <- m ;; k" := (bind m (fun x => k))
  (at level 61, m at next level, right associativity).
Notation "m ;;; k" := (bind m (fun _ => k))
  (at level 61, right associativity).

(** ** Discovery of the CSV files *)

Record DiskFile : Type := {
  actualName : string;
  lowerName : string;
  folder : string
}.

Definition dataFolders : list string := ["db/data"; "db/csv"; "db/src/csv"].

Definition isCsvName (f : string) : bool :=
  Js.endsWith (Js.toLowerCase f) ".csv".

Definition diskFileOf (folder f : string) : DiskFile :=
  {| actualName := f; lowerName := Js.toLowerCase f; folder := folder |}.

(** The [dataFolders.forEach] that fills [diskFiles]; [None] when
    [readdirSync] throws. *)
Fixpoint gatherDiskFiles (fs : Fs) (folders : list string) (diskFiles : list DiskFile)
    : option (list DiskFile) :=
  match folders with
  | [] => Some diskFiles
  | folder :: rest =>
      if existsSync fs folder then
        match readdirSync fs folder with
        | None => None
        | Some entries =>
            gatherDiskFiles fs rest
              (diskFiles ++ map (diskFileOf folder) (filter isCsvName entries))
        end
      else gatherDiskFiles fs rest diskFiles
  end.

Definition gather (fs : Fs) : Run (list DiskFile) :=
  match gatherDiskFiles fs dataFolders [] with
  | Some diskFiles => ret diskFiles
  | None => throw
  end.

(** ** The entities of the model *)

Definition isValidatedEntity (csn : Csn) (name : string) : bool :=
  match Js.get (definitions csn) name with
  | Some def =>
      (kind def =? "entity") && negb (Js.startsWith name "sap.common")
      && negb (definitionSkip def)
  | None => false
  end.

Definition entitiesOf (csn : Csn) : list string :=
  Js.sort (filter (isValidatedEntity csn) (Js.keys (definitions csn))).

(** [name.replace(/\./g, "-") + ".csv"]. *)
Definition strictNameOf (name : string) : string :=
  (Js.replaceChar "."%char "-"%char name ++ ".csv")%string.

Definition findActual (diskFiles : list DiskFile) (n : string) : option DiskFile :=
  find (fun f => actualName f =? n) diskFiles.

Definition findLower (diskFiles : list DiskFile) (n : string) : option DiskFile :=
  find (fun f => lowerName f =? n) diskFiles.

(** The local variables of a validator that the loops update. *)
Record Counters : Type := {
  console : list Event;
  errors : nat;
  warnings : nat
}.

Definition start : Counters := {| console := []; errors := 0; warnings := 0 |}.

Definition say (st : Counters) (out : list Event) : Counters :=
  {| console := console st ++ out; errors := errors st; warnings := warnings st |}.

Definition addError (st : Counters) : Counters :=
  {| console := console st; errors := S (errors st); warnings := warnings st |}.

Definition addWarning (st : Counters) : Counters :=
  {| console := console st; errors := errors st; warnings := S (warnings st) |}.

Definition when (b : bool) (out : list Event) : list Event :=
  if b then out else [].

(** The closing lines: the separator and the summary. *)
Definition summary (ph : Phase) (st : Counters) : list Event :=
  [Separator;
   if (0 <? errors st)%nat || (0 <? warnings st)%nat
   then Findings ph (errors st) (warnings st)
   else Perfect ph].

(** ** validateCsvHeaders *)

(** [result.hasErrors] and [result.hasWarnings] of what [validateHeaderRow]
    returned; both are falsy on [false]. *)
Definition resultHasErrors (r : option HeaderResult) : bool :=
  match r with Some r => hasErrors r | None => false end.

Definition resultHasWarnings (r : option HeaderResult) : bool :=
  match r with Some r => hasWarnings r | None => false end.

(** One turn of the loop over the entities. *)
Definition headersStep (fs : Fs) (csn : Csn) (traceLevel : nat)
    (diskFiles : list DiskFile) (st : Counters) (name : string) : Counters :=
  let strictName := strictNameOf name in
  match findActual diskFiles strictName with
  | Some exactMatch =>
      let '(out, result) :=
        validateHeaderRow fs (pathJoin (folder exactMatch) (actualName exactMatch))
                          name csn traceLevel in
      let st1 := say st out in
      let st2 := if resultHasErrors result then addError st1 else st1 in
      if resultHasWarnings result then addWarning st2 else st2
  | None => st
  end.

Definition headersLoop (fs : Fs) (csn : Csn) (traceLevel : nat)
    (diskFiles : list DiskFile) (entities : list string) (st : Counters) : Counters :=
  fold_left (headersStep fs csn traceLevel diskFiles) entities st.

(** The value is the pair of the counters [errors] and [warnings] when the
    loop was reached, and nothing after the early [return]; the function
    of the source returns no value and shows the counters in its summary. *)
Definition validateCsvHeaders (traceLevel : nat) (csn : Csn) (fs : Fs)
    : Run (option (nat * nat)) :=
  log (LoadingModel Headers) ;;;
  diskFiles <- gather fs ;;
  match diskFiles with
  | [] => log NoCsvFilesFound ;;; ret None
  | _ =>
      log (FoundCsvFiles Headers (List.length diskFiles)) ;;;
      let st := headersLoop fs csn traceLevel diskFiles (entitiesOf csn) start in
      (console st ++ summary Headers st, Some (Some (errors st, warnings st)))
  end.

(** ** validateCsvFilenames, walking the discovered files *)

Module ByFile.

(** [entityLookup] is an object literal, so its prototype is
    [Object.prototype].  These are the names it inherits; each of them is
    bound to a function or to an object, never to a string. *)
Definition objectPrototypeKeys : list string :=
  ["constructor"; "__proto__"; "hasOwnProperty"; "isPrototypeOf";
   "propertyIsEnumerable"; "toLocaleString"; "toString"; "valueOf";
   "__defineGetter__"; "__defineSetter__"; "__lookupGetter__";
   "__lookupSetter__"].

(** [entityLookup[key] = name]: the key becomes an own property, but for
    [__proto__], whose inherited setter ignores a string. *)
Definition assign (o : Js.Obj string) (key name : string) : Js.Obj string :=
  if key =? "__proto__" then o else Js.set o key name.

(** [entityLookup[name.toLowerCase()] = name] for each entity in turn. *)
Definition entityLookupOf (entities : list string) : Js.Obj string :=
  fold_left (fun o name => assign o (Js.toLowerCase name) name) entities [].

(** What [entityLookup[entityNameLower]] is to the code that follows: a
    name of an entity, something falsy (no such property, or the empty
    name), or an inherited member, which is truthy and no string. *)
Inductive Found : Type :=
| EntityName (name : string)
| NotFound
| NotAString.

Definition correctEntityNameOf (entityLookup : Js.Obj string)
    (entityNameLower : string) : Found :=
  match Js.get entityLookup entityNameLower with
  | Some n => if n =? EmptyString then NotFound else EntityName n
  | None =>
      if Js.arrayIncludes objectPrototypeKeys entityNameLower
      then NotAString else NotFound
  end.

(** One turn of the loop over [diskFiles]; [None] is the [TypeError] of
    [correctEntityName.replace] on an inherited member, thrown before the
    turn writes anything. *)
Definition fileStep (traceLevel : nat) (entityLookup : Js.Obj string)
    (st : Counters) (diskFile : DiskFile) : option Counters :=
  let fileBaseName := Js.stripCsvExt (actualName diskFile) in
  if Js.includes fileBaseName "." then
    Some (addWarning
            (say st (when (1 <=? traceLevel)%nat
                          [FunctionActionCsv (actualName diskFile) fileBaseName])))
  else
    let entityNameFromFile := Js.replaceChar "-"%char "."%char fileBaseName in
    let entityNameLower := Js.toLowerCase entityNameFromFile in
    match correctEntityNameOf entityLookup entityNameLower with
    | NotFound =>
        Some (addError
                (say st [EntityNotFound (actualName diskFile) entityNameFromFile]))
    | NotAString => None
    | EntityName correctEntityName =>
        let strictName := strictNameOf correctEntityName in
        if actualName diskFile =? strictName then
          Some (say st (when (2 <=? traceLevel)%nat
                             [FilenameOk correctEntityName (actualName diskFile)]))
        else if negb (entityNameFromFile =? correctEntityName) then
          Some (addError
                  (say st [EntityCaseError (actualName diskFile) entityNameFromFile
                                           correctEntityName strictName]))
        else
          Some (addWarning
                  (say st (when (1 <=? traceLevel)%nat
                                [CaseMismatch correctEntityName strictName
                                              (actualName diskFile)])))
    end.

(** How the loop over [diskFiles] ends: after the last file, or in the
    [TypeError] of a turn, with the console and counters of that moment. *)
Inductive LoopEnd : Type :=
| Completed (st : Counters)
| TypeError (st : Counters).

Fixpoint fileLoop (traceLevel : nat) (entityLookup : Js.Obj string)
    (diskFiles : list DiskFile) (st : Counters) : LoopEnd :=
  match diskFiles with
  | [] => Completed st
  | diskFile :: rest =>
      match fileStep traceLevel entityLookup st diskFile with
      | Some st' => fileLoop traceLevel entityLookup rest st'
      | None => TypeError st
      end
  end.

(** The console and the counters the loop had when it ended. *)
Definition stateOf (e : LoopEnd) : Counters :=
  match e with
  | Completed st => st
  | TypeError st => st
  end.

(** One turn of the loop that looks for entities without a file. *)
Definition missingStep (traceLevel : nat) (diskFiles : list DiskFile)
    (st : Counters) (entityName : string) : Counters :=
  let strictName := strictNameOf entityName in
  let hasFile := existsb (fun f => actualName f =? strictName) diskFiles in
  if negb hasFile && (2 <=? traceLevel)%nat
  then say st [NoCsv entityName strictName]
  else st.

Definition validateCsvFilenames (traceLevel : nat) (csn : Csn) (fs : Fs)
    : Run (option (nat * nat)) :=
  log (LoadingModel Filenames) ;;;
  diskFiles <- gather fs ;;
  match diskFiles with
  | [] => log NoCsvFilesFound ;;; ret None
  | _ =>
      log (FoundCsvFiles Filenames (List.length diskFiles)) ;;;
      let entities := entitiesOf csn in
      match fileLoop traceLevel (entityLookupOf entities) diskFiles start with
      | TypeError st1 => (console st1, None)
      | Completed st1 =>
          let st := fold_left (missingStep traceLevel diskFiles) entities st1 in
          (console st ++ summary Filenames st, Some (Some (errors st, warnings st)))
      end
  end.

Definition validateCsvs (traceLevel : nat) (csn : Csn) (fs : Fs)
    : Run (option (nat * nat) * option (nat * nat)) :=
  names <- validateCsvFilenames traceLevel csn fs ;;
  log BlankLine ;;;
  headers <- validateCsvHeaders traceLevel csn fs ;;
  ret (names, headers).

End ByFile.

(** ** validateCsvFilenames, walking the entities (the copy under tools/) *)

Module ByEntity.

Definition isSome {A} (o : option A) : bool :=
  match o with Some _ => true | None => false end.

(** One turn of the loop over [entities]. *)
Definition entityStep (traceLevel : nat) (diskFiles : list DiskFile)
    (st : Counters) (name : string) : Counters :=
  let strictName := strictNameOf name in
  let strictNameLower := Js.toLowerCase strictName in
  let exactMatch := findActual diskFiles strictName in
  let caseMatch := findLower diskFiles strictNameLower in
  let shortName := (Js.afterLastDot name ++ ".csv")%string in
  let lazyMatch := findLower diskFiles (Js.toLowerCase shortName) in
  match caseMatch, exactMatch, lazyMatch with
  | Some caseMatch, None, _ =>
      addWarning
        (say st (when (1 <=? traceLevel)%nat
                      [CaseMismatch name strictName (actualName caseMatch)]))
  | None, None, Some lazyMatch =>
      addError (say st [NamespaceError name strictName (actualName lazyMatch)])
  | _, Some exactMatch, _ =>
      say st (when (2 <=? traceLevel)%nat [FilenameOk name (actualName exactMatch)])
  | None, None, None => st
  end.

Definition validateCsvFilenames (traceLevel : nat) (csn : Csn) (fs : Fs)
    : Run (option (nat * nat)) :=
  log (LoadingModel Filenames) ;;;
  diskFiles <- gather fs ;;
  match diskFiles with
  | [] => log NoCsvFilesFound ;;; ret None
  | _ =>
      log (FoundCsvFiles Filenames (List.length diskFiles)) ;;;
      let st := fold_left (entityStep traceLevel diskFiles) (entitiesOf csn) start in
      (console st ++ summary Filenames st, Some (Some (errors st, warnings st)))
  end.

Definition validateCsvs (traceLevel : nat) (csn : Csn) (fs : Fs)
    : Run (option (nat * nat) * option (nat * nat)) :=
  names <- validateCsvFilenames traceLevel csn fs ;;
  log BlankLine ;;;
  headers <- validateCsvHeaders traceLevel csn fs ;;
  ret (names, headers).

End ByEntity.

(** ** Sample inputs *)

Module Sample.

Definition scalar (isKey : bool) : Element :=
  {| type := "cds.String"; key := isKey; virtual := false; elementSkip := false;
     cardinality := None; target := None |}.

Definition toOne (tgt : string) : Element :=
  {| type := "cds.Association"; key := false; virtual := false; elementSkip := false;
     cardinality := None; target := Some tgt |}.

Definition entity (els : Js.Obj Element) : Definition_ :=
  {| kind := "entity"; definitionSkip := false; elements := els |}.

(** [sales.Order] with the key [ID] and the scalar [status]. *)
Definition order : Definition_ :=
  entity [("ID", scalar true); ("status", scalar false)].

Definition salesModel : Csn :=
  {| definitions := [("sales.Order", order)] |}.

(** [sales.Invoice] with the key [ID], the key [line_no] and a to-one
    association [customer] to [sales.Customer], whose key is [ID]. *)
Definition customer : Definition_ :=
  entity [("ID", scalar true); ("name", scalar false)].

Definition invoice : Definition_ :=
  entity [("ID", scalar true); ("line_no", scalar true);
          ("customer", toOne "sales.Customer"); ("createdAt", scalar false)].

Definition billingModel : Csn :=
  {| definitions := [("sales.Invoice", invoice); ("sales.Customer", customer)] |}.

(** A file system with the one folder [db/data] and the listed files;
    a file listed with no content cannot be read. *)
Definition disk (files : list (string * option string)) : Fs :=
  {| existsSync := fun p => p =? "db/data";
     readdirSync := fun p => if p =? "db/data" then Some (map fst files) else None;
     readFileSync := fun p =>
       match find (fun f => pathJoin "db/data" (fst f) =? p) files with
       | Some (_, content) => content
       | None => None
       end |}.

(** A text file of the given lines. *)
Definition lines (l : list string) : string :=
  String.concat (String Js.LF EmptyString) l.

Definition orderPath : string := "db/data/sales-Order.csv".

(** [db/data/sales-Order.csv] with the given header row and one data row. *)
Definition orderDisk (header : string) : Fs :=
  disk [("sales-Order.csv", Some (lines [header; "1,open"]))].

(** The same folder with a [sales-Order.csv] that cannot be read. *)
Definition unreadableDisk : Fs := disk [("sales-Order.csv", None)].

Definition noDisk : Fs :=
  {| existsSync := fun _ => false;
     readdirSync := fun _ => None;
     readFileSync := fun _ => None |}.

End Sample.

(** ** Notions the properties are stated with *)

(** The two flags [validateHeaderRow] returns, read off the column lists. *)
Definition reconcileErrors (csn : Csn) (def : Definition_) (headers : list string) : bool :=
  let expected := expectedColumns csn def in
  match extraColumns def expected headers,
        missingKeyColumns def (missingColumns expected headers) with
  | [], [] => false
  | _, _ => true
  end.

Definition reconcileWarnings (csn : Csn) (def : Definition_) (headers : list string)
    (traceLevel : nat) : bool :=
  let expected := expectedColumns csn def in
  let missing := missingColumns expected headers in
  match missingNonKeyColumns missing (missingKeyColumns def missing) with
  | [] => false
  | _ => (1 <=? traceLevel)%nat
  end.

(** The record the header validator writes about an entity, if any. *)
Definition headerEventOf (e : Event) : option (string * string) :=
  match e with
  | HeaderErrorExtra n p _ | HeaderErrorMissingKeys n p _
  | HeaderWarning n p _ | HeaderOk n p => Some (n, p)
  | _ => None
  end.

(** The column names a record lists. *)
Definition columnsOf (e : Event) : list string :=
  match e with
  | HeaderErrorExtra _ _ l | HeaderErrorMissingKeys _ _ l | HeaderWarning _ _ l => l
  | _ => []
  end.

(** Whether an event is the note that entity [n] has no CSV file. *)
Definition isNoCsvFor (n : string) (e : Event) : bool :=
  match e with
  | NoCsv n' _ => n' =? n
  | _ => false
  end.

(** A run in its surroundings: the model and the file system it reads and
    the screen it writes to. *)
Record World : Type := {
  model : Csn;
  disk : Fs;
  screen : list Event
}.

Definition exec {A} (m : Csn -> Fs -> Run A) (w : World) : World * option A :=
  let '(out, r) := m (model w) (disk w) in
  ({| model := model w; disk := disk w; screen := screen w ++ out |}, r).

(** ** The command line (index.js)

    The script reads its arguments, then runs one tool.  It imports the
    validators from [tools/validate-csv.js], the copy that walks the
    entities.  The two other tools and the answers to the prompts of the
    interactive mode are inputs. *)

Module Cli.

Definition isDigit (c : ascii) : bool :=
  let n := nat_of_ascii c in ((48 <=? n) && (n <=? 57))%nat.

(** The value of the decimal digits [s] starts with, after the digits that
    gave [acc]; nothing when there is no digit at all. *)
Fixpoint digits (acc : option N) (s : string) : option N :=
  match s with
  | String c r =>
      if isDigit c
      then digits (Some (10 * match acc with Some a => a | None => 0 end
                         + N.of_nat (nat_of_ascii c - 48))%N) r
      else acc
  | EmptyString => acc
  end.

(** [parseInt(s, 10)]: white space is skipped, a sign is read, then the
    digits up to the first other character; [None] is [NaN].  A minus
    sign before zero gives the negative zero, which every later test of
    the script treats as zero. *)
Definition parseInt (s : string) : option Z :=
  let s1 := Js.trimStart s in
  let '(negative, s2) :=
    match s1 with
    | String c r =>
        if Ascii.eqb c "-"%char then (true, r)
        else if Ascii.eqb c "+"%char then (false, r)
        else (false, s1)
    | EmptyString => (false, s1)
    end in
  match digits None s2 with
  | Some n => Some (if negative then (- Z.of_N n)%Z else Z.of_N n)
  | None => None
  end.

Record Options : Type := {
  traceLevel : nat;
  command : option string;               (* [null] at the start *)
  showHelp : bool
}.

Definition defaults : Options :=
  {| traceLevel := 1; command := None; showHelp := false |}.

Inductive Message : Type :=
| InvalidTraceLevel
| MissingValue
| Usage
| UnknownCommand (command : string)
| UseHelp
| Caught.

(** The loop over [args] either ends with the options or leaves the
    process with exit code 1 after a message. *)
Inductive Parsed : Type :=
| Options_ (o : Options)
| Exit1 (m : Message).

(** [!isNaN(level) && [0, 1, 2].includes(level)]. *)
Definition validLevel (level : option Z) : option nat :=
  match level with
  | Some z => if ((z =? 0) || (z =? 1) || (z =? 2))%Z then Some (Z.to_nat z) else None
  | None => None
  end.

Fixpoint parseArgs (args : list string) (o : Options) : Parsed :=
  match args with
  | [] => Options_ o
  | arg :: rest =>
      if arg =? "--tracelevel" then
        match rest with
        | value :: rest' =>
            match validLevel (parseInt value) with
            | Some level =>
                parseArgs rest' {| traceLevel := level; command := command o;
                                   showHelp := showHelp o |}
            | None => Exit1 InvalidTraceLevel
            end
        | [] => Exit1 MissingValue
        end
      else if arg =? "--help" then
        parseArgs rest {| traceLevel := traceLevel o; command := command o;
                          showHelp := true |}
      else if negb (Js.startsWith arg "-") then
        parseArgs rest {| traceLevel := traceLevel o; command := Some arg;
                          showHelp := showHelp o |}
      else parseArgs rest o
  end.

Inductive Tool : Type :=
| ValidateFilenames
| ValidateHeaders
| ValidateBoth
| GenerateInserts (targetDb : string)
| CheckDeployConfig.

(** The [switch] over the command. *)
Definition toolOf (command : string) : option Tool :=
  if command =? "validatecsv-filenames" then Some ValidateFilenames
  else if command =? "validatecsv-headers" then Some ValidateHeaders
  else if command =? "validatecsv" then Some ValidateBoth
  else if command =? "generate-inserts-postgres" then Some (GenerateInserts "postgres")
  else if command =? "generate-inserts-hana" then Some (GenerateInserts "hana")
  else if command =? "check-deploy-config" then Some CheckDeployConfig
  else None.

(** The answers to the prompts of the interactive mode; the second and
    third are asked for after the first only. *)
Inductive ToolAnswer : Type := AnswerValidate | AnswerGenerate | AnswerCheck.
Inductive CsvAnswer : Type := AnswerFilenames | AnswerHeaders | AnswerBoth.
Inductive DbAnswer : Type := AnswerPostgres | AnswerHana.

Record Answers : Type := {
  toolAnswer : ToolAnswer;
  csvAnswer : CsvAnswer;
  dbAnswer : DbAnswer
}.

Definition toolOfAnswers (a : Answers) : Tool :=
  match toolAnswer a with
  | AnswerValidate =>
      match csvAnswer a with
      | AnswerFilenames => ValidateFilenames
      | AnswerHeaders => ValidateHeaders
      | AnswerBoth => ValidateBoth
      end
  | AnswerGenerate =>
      match dbAnswer a with
      | AnswerPostgres => GenerateInserts "postgres"
      | AnswerHana => GenerateInserts "hana"
      end
  | AnswerCheck => CheckDeployConfig
  end.

(** How the process ends: with an explicit exit code, or by running to
    the end of the script. *)
Inductive Ending : Type :=
| Exit (code : nat)
| EndOfScript.

Section Main.

(** What the other two tools write, and the tools themselves. *)
Variable OtherOutput : Type.
Variable generateInserts : string -> nat -> list OtherOutput * option unit.
Variable checkDeployConfig : nat -> list OtherOutput * option unit.

Inductive Output : Type :=
| Said (m : Message)
| Validator (e : Event)
| Other (o : OtherOutput).

(** A tool run: what it wrote, and whether it returned. *)
Definition runTool (tool : Tool) (traceLevel : nat) (csn : Csn) (fs : Fs)
    : list Output * bool :=
  match tool with
  | ValidateFilenames =>
      let '(out, r) := ByEntity.validateCsvFilenames traceLevel csn fs in
      (map Validator out, match r with Some _ => true | None => false end)
  | ValidateHeaders =>
      let '(out, r) := validateCsvHeaders traceLevel csn fs in
      (map Validator out, match r with Some _ => true | None => false end)
  | ValidateBoth =>
      let '(out, r) := ByEntity.validateCsvs traceLevel csn fs in
      (map Validator out, match r with Some _ => true | None => false end)
  | GenerateInserts targetDb =>
      let '(out, r) := generateInserts targetDb traceLevel in
      (map Other out, match r with Some _ => true | None => false end)
  | CheckDeployConfig =>
      let '(out, r) := checkDeployConfig traceLevel in
      (map Other out, match r with Some _ => true | None => false end)
  end.

(** The script: arguments, then help, a command or the prompts. *)
Definition main (args : list string) (answers : Answers) (csn : Csn) (fs : Fs)
    : list Output * Ending :=
  match parseArgs args defaults with
  | Exit1 m => ([Said m], Exit 1)
  | Options_ o =>
      if showHelp o then ([Said Usage], Exit 0)
      else
        match command o with
        | Some c =>
            if c =? EmptyString then
              (* an empty command is falsy: interactive mode *)
              let '(out, returned) := runTool (toolOfAnswers answers) (traceLevel o) csn fs in
              if returned then (out, EndOfScript) else (out ++ [Said Caught], EndOfScript)
            else
              match toolOf c with
              | Some tool =>
                  let '(out, returned) := runTool tool (traceLevel o) csn fs in
                  if returned then (out, EndOfScript) else (out ++ [Said Caught], Exit 1)
              | None => ([Said (UnknownCommand c); Said UseHelp], Exit 1)
              end
        | None =>
            let '(out, returned) := runTool (toolOfAnswers answers) (traceLevel o) csn fs in
            if returned then (out, EndOfScript) else (out ++ [Said Caught], EndOfScript)
        end
  end.

End Main.

End Cli.

(** ** Further notions the properties are stated with *)

(** Whether character [c] occurs in [s]. *)
Fixpoint hasChar (c : ascii) (s : string) : bool :=
  match s with
  | EmptyString => false
  | String a r => Ascii.eqb a c || hasChar c r
  end.

(** [names.join(sep)]. *)
Definition joinWith (sep : ascii) (names : list string) : string :=
  String.concat (String sep EmptyString) names.

(** A name between double quotes. *)
Definition quoted (n : string) : string :=
  String Js.QUOTE (n ++ String Js.QUOTE EmptyString).

(** A column name as a header row can carry it: not empty, free of
    separators, quotes at its ends and line breaks, and without blanks
    around it. *)
Definition isColumnName (n : string) : bool :=
  negb (n =? EmptyString)
  && negb (hasChar ","%char n) && negb (hasChar ";"%char n)
  && negb (hasChar Js.LF n) && negb (hasChar Js.CR n)
  && (Js.trim n =? n) && (Js.stripQuotes n =? n).

(** Whether a record is written with [console.error]. *)
Definition isErrorEvent (e : Event) : bool :=
  match stream e with ConsoleError => true | _ => false end.

(** Two states of a validator that agree on the error counter and on the
    error records. *)
Definition sameErrors (st st' : Counters) : Prop :=
  errors st = errors st'
  /\ filter isErrorEvent (console st) = filter isErrorEvent (console st').

(** Two states that agree on both counters and on the error records. *)
Definition sameFindings (st st' : Counters) : Prop :=
  sameErrors st st' /\ warnings st = warnings st'.

(** The error counter of a run, if the run got to count. *)
Definition errorCount (r : option (option (nat * nat))) : option nat :=
  match r with
  | Some (Some (e, _)) => Some e
  | _ => None
  end.

(** Whether a record is written with [console.warn]. *)
Definition isWarningEvent (e : Event) : bool :=
  match stream e with ConsoleWarn => true | _ => false end.

(** Whether a record is about one discovered file. *)
Definition isFileRecord (e : Event) : bool :=
  match e with
  | FunctionActionCsv _ _ | EntityNotFound _ _ | FilenameOk _ _
  | EntityCaseError _ _ _ _ | CaseMismatch _ _ _ => true
  | _ => false
  end.

(** The file a record of the filename validator is about. *)
Definition fileOfRecord (e : Event) : option string :=
  match e with
  | FunctionActionCsv a _ | EntityNotFound a _ | EntityCaseError a _ _ _ => Some a
  | FilenameOk _ a | CaseMismatch _ _ a => Some a
  | _ => None
  end.

(** The files the records of a console are about, record by record. *)
Definition recordedFiles (out : list Event) : list string :=
  flat_map (fun e => match fileOfRecord e with Some a => [a] | None => [] end) out.

(** The counters count the records: the error counter the error records
    and, from trace level 1 on, the warning counter the warning records. *)
Definition countsRecords (traceLevel : nat) (st : Counters) : Prop :=
  errors st = List.length (filter isErrorEvent (console st))
  /\ (1 <= traceLevel ->
      warnings st = List.length (filter isWarningEvent (console st))).

(** The header validator counts entities, not records: a counted entity
    has one or two error records, and every warning record is counted. *)
Definition countsEntities (st : Counters) : Prop :=
  errors st <= List.length (filter isErrorEvent (console st))
  /\ List.length (filter isErrorEvent (console st)) <= 2 * errors st
  /\ warnings st = List.length (filter isWarningEvent (console st)).

(** The CSV files of one folder, in the order of its listing; none when
    the folder does not exist. *)
Definition listingOf (fs : Fs) (folder : string) : list DiskFile :=
  if existsSync fs folder then
    match readdirSync fs folder with
    | Some entries => map (diskFileOf folder) (filter isCsvName entries)
    | None => []
    end
  else [].

(** Ascending order of strings by code units. *)
Definition stringLe (a b : string) : Prop := (a <=? b)%string = true.

(** Whether a file bears the strict name of one of the entities. *)
Definition bearsStrictName (entities : list string) (f : DiskFile) : bool :=
  existsb (fun n => actualName f =? strictNameOf n) entities.

(** * Properties *)

(** ** Strings and arrays *)

Lemma arrayIncludes_In (l : list string) (x : string) :
  Js.arrayIncludes l x = true <-> In x l.
Proof.
  unfold Js.arrayIncludes. rewrite existsb_exists. split.
  - intros [y [Hy Heq]]. apply String.eqb_eq in Heq. now subst.
  - intros H. exists x. split; [assumption | apply String.eqb_refl].
Qed.

Lemma arrayIncludes_not_In (l : list string) (x : string) :
  Js.arrayIncludes l x = false <-> ~ In x l.
Proof.
  rewrite <- arrayIncludes_In. destruct (Js.arrayIncludes l x); split; intros; congruence.
Qed.

Lemma prefix_app (p s : string) : String.prefix p (p ++ s) = true.
Proof.
  induction p as [|c p IH]; simpl.
  - now destruct s.
  - destruct (ascii_dec c c); [exact IH | congruence].
Qed.

Lemma includes_prefix (s p : string) :
  String.prefix p s = true -> Js.includes s p = true.
Proof. intros H. destruct s; simpl in *; rewrite H; reflexivity. Qed.

Lemma includes_app_l (a s p : string) :
  Js.includes s p = true -> Js.includes (a ++ s) p = true.
Proof.
  intros H. induction a as [|c a IH]; simpl; [exact H|].
  rewrite IH. apply orb_true_r.
Qed.

(** A column name built as [name_k] contains an underscore. *)
Lemma includes_underscore (name k : string) :
  Js.includes (name ++ "_" ++ k) "_" = true.
Proof. apply includes_app_l, includes_prefix, prefix_app. Qed.

Lemma managed_no_underscore (m : string) :
  In m managedFields -> Js.includes m "_" = false.
Proof.
  unfold managedFields. simpl.
  intros [H|[H|[H|[H|[]]]]]; subst; reflexivity.
Qed.

Lemma get_Some_In_keys {A} (o : Js.Obj A) (k : string) (v : A) :
  Js.get o k = Some v -> In k (Js.keys o).
Proof.
  induction o as [|[k' v'] o IH]; simpl; [discriminate|].
  destruct (k' =? k) eqn:E.
  - apply String.eqb_eq in E. now left.
  - intros H. right. now apply IH.
Qed.

Lemma In_keys_get {A} (o : Js.Obj A) (k : string) :
  In k (Js.keys o) -> exists v, Js.get o k = Some v.
Proof.
  induction o as [|[k' v'] o IH]; simpl; [tauto|].
  intros H. destruct (k' =? k) eqn:E; [now eexists|].
  destruct H as [H|H]; [subst; rewrite String.eqb_refl in E; discriminate|].
  now apply IH.
Qed.

(** ** The expected columns *)

(** What one field contributes: its own name when it is a plain property,
    names with an underscore when it is a to-one association. *)
Lemma expectedFor_cases (csn : Csn) (def : Definition_) (name e : string) :
  In e (expectedFor csn def name) ->
  (e = name /\ Js.arrayIncludes managedFields name = false)
  \/ Js.includes e "_" = true.
Proof.
  unfold expectedFor.
  destruct (Js.get (elements def) name) as [el|]; [|contradiction].
  destruct (virtual el || elementSkip el); [contradiction|].
  destruct (Js.arrayIncludes managedFields name) eqn:Hm; [contradiction|].
  destruct (isAssociation el || isComposition el).
  - destruct (toMany el); [contradiction|].
    destruct (isComposition el); [contradiction|].
    destruct (isAssociation el); [|contradiction].
    destruct (targetOf csn el) as [tgt|]; [|contradiction].
    rewrite in_map_iff. intros [k [<- _]]. right. apply includes_underscore.
  - simpl. intros [<-|[]]. now left.
Qed.

Lemma expectedColumns_cases (csn : Csn) (def : Definition_) (e : string) :
  In e (expectedColumns csn def) ->
  (In e (Js.keys (elements def)) /\ Js.arrayIncludes managedFields e = false)
  \/ Js.includes e "_" = true.
Proof.
  unfold expectedColumns. rewrite in_flat_map. intros [name [Hn He]].
  destruct (expectedFor_cases _ _ _ _ He) as [[-> Hm]|Hu]; [left|right]; auto.
Qed.

(** A plain property that is neither virtual, skipped nor managed is an
    expected column. *)
Lemma scalar_expected (csn : Csn) (def : Definition_) (name : string) (el : Element) :
  Js.get (elements def) name = Some el ->
  virtual el = false -> elementSkip el = false ->
  Js.arrayIncludes managedFields name = false ->
  isAssociation el = false -> isComposition el = false ->
  In name (expectedColumns csn def).
Proof.
  intros Hget Hv Hs Hm Ha Hc. unfold expectedColumns. apply in_flat_map.
  exists name. split; [eapply get_Some_In_keys; eassumption|].
  unfold expectedFor. rewrite Hget, Hv, Hs, Hm, Ha, Hc. simpl. now left.
Qed.

(** The columns of a to-one association with a known target. *)
Lemma association_expected (csn : Csn) (def tgt : Definition_) (name k : string)
    (el : Element) :
  Js.get (elements def) name = Some el ->
  virtual el = false -> elementSkip el = false ->
  Js.arrayIncludes managedFields name = false ->
  isAssociation el = true -> toMany el = false ->
  targetOf csn el = Some tgt -> In k (keysOf tgt) ->
  In (name ++ "_" ++ k)%string (expectedColumns csn def).
Proof.
  intros Hget Hv Hs Hm Ha Hmany Ht Hk. unfold expectedColumns. apply in_flat_map.
  exists name. split; [eapply get_Some_In_keys; eassumption|].
  unfold expectedFor. rewrite Hget, Hv, Hs, Hm, Ha, Hmany, Ht. simpl.
  assert (Hc : isComposition el = false).
  { unfold isAssociation, isComposition in *. apply String.eqb_eq in Ha.
    rewrite Ha. reflexivity. }
  rewrite Hc. apply in_map_iff. now exists k.
Qed.

(** ** Missing columns *)

Lemma missingColumns_In (expected headers : list string) (e : string) :
  In e (missingColumns expected headers) <-> In e expected /\ ~ In e headers.
Proof.
  unfold missingColumns. rewrite filter_In, negb_true_iff, arrayIncludes_not_In.
  tauto.
Qed.

Lemma underscore_not_missingKey (def : Definition_) (missing : list string) (e : string) :
  Js.includes e "_" = true -> ~ In e (missingKeyColumns def missing).
Proof.
  unfold missingKeyColumns, isMissingKey. rewrite filter_In. intros -> [_ H].
  discriminate.
Qed.

Lemma missingNonKey_In (missing missingKeys : list string) (e : string) :
  In e (missingNonKeyColumns missing missingKeys) <->
  In e missing /\ ~ In e missingKeys.
Proof.
  unfold missingNonKeyColumns.
  rewrite filter_In, negb_true_iff, arrayIncludes_not_In. tauto.
Qed.

(** A header that does not carry column [c] misses the columns that the
    header with [c] misses, and [c] when it is expected. *)
Lemma missingKeys_without_underscored (def : Definition_)
    (expected h1 h2 : list string) (c : string) :
  Js.includes c "_" = true ->
  missingKeyColumns def (missingColumns expected (h1 ++ h2)) =
  missingKeyColumns def (missingColumns expected (h1 ++ c :: h2)).
Proof.
  intros Hc. unfold missingKeyColumns, missingColumns.
  induction expected as [|e expected IH]; [reflexivity|].
  simpl. unfold Js.arrayIncludes in *.
  rewrite !existsb_app. simpl.
  destruct (e =? c) eqn:E.
  - apply String.eqb_eq in E. subst e.
    rewrite orb_true_l, orb_true_r. simpl.
    destruct (existsb (String.eqb c) h1 || existsb (String.eqb c) h2); simpl.
    + exact IH.
    + unfold isMissingKey at 1. rewrite Hc. exact IH.
  - simpl.
    destruct (existsb (String.eqb e) h1 || existsb (String.eqb e) h2); simpl.
    + exact IH.
    + destruct (isMissingKey def e); [f_equal|]; exact IH.
Qed.

Lemma extraColumns_app (def : Definition_) (expected h1 h2 : list string) :
  extraColumns def expected (h1 ++ h2) =
  extraColumns def expected h1 ++ extraColumns def expected h2.
Proof. unfold extraColumns. apply filter_app. Qed.

(** ** The result of a reconciliation *)

Lemma reconcile_hasErrors (csn : Csn) (def : Definition_) (n p : string)
    (headers : list string) (t : nat) :
  hasErrors (snd (reconcile csn def n p headers t)) = reconcileErrors csn def headers.
Proof.
  unfold reconcile, reconcileErrors.
  destruct (extraColumns def (expectedColumns csn def) headers);
    destruct (missingKeyColumns def (missingColumns (expectedColumns csn def) headers));
    destruct (missingNonKeyColumns _ _); destruct (1 <=? t)%nat; reflexivity.
Qed.

Lemma reconcile_hasWarnings (csn : Csn) (def : Definition_) (n p : string)
    (headers : list string) (t : nat) :
  hasWarnings (snd (reconcile csn def n p headers t)) =
  reconcileWarnings csn def headers t.
Proof.
  unfold reconcile, reconcileWarnings.
  destruct (extraColumns def (expectedColumns csn def) headers);
    destruct (missingKeyColumns def (missingColumns (expectedColumns csn def) headers));
    destruct (missingNonKeyColumns _ _); destruct (1 <=? t)%nat; reflexivity.
Qed.

(** The error flag does not depend on the trace level. *)
Lemma reconcile_hasErrors_traceLevel (csn : Csn) (def : Definition_) (n p : string)
    (headers : list string) (t t' : nat) :
  hasErrors (snd (reconcile csn def n p headers t)) =
  hasErrors (snd (reconcile csn def n p headers t')).
Proof. now rewrite !reconcile_hasErrors. Qed.

(** The records one reconciliation writes: each names the entity and the
    file and lists one of the three column lists. *)
Lemma reconcile_events (csn : Csn) (def : Definition_) (n p : string)
    (headers : list string) (t : nat) (e : Event) :
  In e (fst (reconcile csn def n p headers t)) ->
  let expected := expectedColumns csn def in
  let missing := missingColumns expected headers in
  e = HeaderErrorExtra n p (extraColumns def expected headers)
  \/ e = HeaderErrorMissingKeys n p (missingKeyColumns def missing)
  \/ e = HeaderWarning n p
          (missingNonKeyColumns missing (missingKeyColumns def missing))
  \/ e = HeaderOk n p.
Proof.
  unfold reconcile.
  destruct (extraColumns def (expectedColumns csn def) headers);
    destruct (missingKeyColumns def (missingColumns (expectedColumns csn def) headers));
    destruct (missingNonKeyColumns _ _); destruct t as [|[|t]]; simpl;
    intuition (subst; auto).
Qed.

(** ** Composite foreign keys, managed fields, underscores *)

(** C5: a column [name_k] derived from a to-one association [name] and a
    key [k] of its target is never among the missing key columns, whatever
    the header row; when it is missing it is among the missing non-key
    columns; and a header row without it has an error only if the same row
    with it has one. *)
Theorem composite_fk_column_never_missing_key :
  forall (csn : Csn) (def tgt : Definition_) (name k : string) (el : Element),
    Js.get (elements def) name = Some el ->
    isAssociation el = true -> toMany el = false ->
    targetOf csn el = Some tgt -> In k (keysOf tgt) ->
    let c := (name ++ "_" ++ k)%string in
    let expected := expectedColumns csn def in
    (forall headers,
        ~ In c (missingKeyColumns def (missingColumns expected headers)))
    /\ (forall headers,
          In c (missingColumns expected headers) ->
          In c (missingNonKeyColumns (missingColumns expected headers)
                  (missingKeyColumns def (missingColumns expected headers))))
    /\ (forall h1 h2 n p t,
          hasErrors (snd (reconcile csn def n p (h1 ++ h2) t)) = true ->
          hasErrors (snd (reconcile csn def n p (h1 ++ c :: h2) t)) = true).
Proof.
  intros csn def tgt name k el _ _ _ _ _ c expected.
  assert (Hc : Js.includes c "_" = true) by apply includes_underscore.
  split; [|split].
  - intros headers. now apply underscore_not_missingKey.
  - intros headers Hmiss. apply missingNonKey_In. split; [assumption|].
    now apply underscore_not_missingKey.
  - intros h1 h2 n p t. rewrite !reconcile_hasErrors. unfold reconcileErrors.
    fold expected.
    rewrite <- (missingKeys_without_underscored def expected h1 h2 c Hc).
    rewrite !extraColumns_app.
    change (c :: h2) with ([c] ++ h2). rewrite extraColumns_app.
    destruct (extraColumns def expected h1) as [|x xs]; simpl; [|auto].
    destruct (isExtra def expected c); simpl; auto.
Qed.

Lemma composite_fk_column_never_missing_key_witness :
  let c := "customer_ID" in
  let expected := expectedColumns Sample.billingModel Sample.invoice in
  (forall headers,
      ~ In c (missingKeyColumns Sample.invoice (missingColumns expected headers)))
  /\ (forall headers,
        In c (missingColumns expected headers) ->
        In c (missingNonKeyColumns (missingColumns expected headers)
                (missingKeyColumns Sample.invoice (missingColumns expected headers))))
  /\ (forall h1 h2 n p t,
        hasErrors (snd (reconcile Sample.billingModel Sample.invoice n p (h1 ++ h2) t)) = true ->
        hasErrors (snd (reconcile Sample.billingModel Sample.invoice n p (h1 ++ c :: h2) t)) = true).
Proof.
  apply (@composite_fk_column_never_missing_key Sample.billingModel Sample.invoice
           Sample.customer "customer" "ID" (Sample.toOne "sales.Customer"));
    try reflexivity.
  simpl. now left.
Defined.

(** C6: the managed columns [createdAt], [createdBy], [modifiedAt] and
    [modifiedBy] are never expected, hence never missing, and never extra,
    whether the header row has them or not; no record that a
    reconciliation writes lists one of them. *)
Theorem managed_columns_never_missing_nor_extra :
  forall (csn : Csn) (def : Definition_) (headers : list string) (m : string),
    In m managedFields ->
    ~ In m (expectedColumns csn def)
    /\ ~ In m (missingColumns (expectedColumns csn def) headers)
    /\ ~ In m (extraColumns def (expectedColumns csn def) headers)
    /\ (forall n p t e,
          In e (fst (reconcile csn def n p headers t)) -> ~ In m (columnsOf e)).
Proof.
  intros csn def headers m Hm.
  assert (Hexp : ~ In m (expectedColumns csn def)).
  { intros H. destruct (expectedColumns_cases _ _ _ H) as [[_ Hn]|Hu].
    - apply arrayIncludes_not_In in Hn. contradiction.
    - rewrite (managed_no_underscore _ Hm) in Hu. discriminate. }
  assert (Hmiss : ~ In m (missingColumns (expectedColumns csn def) headers)).
  { rewrite missingColumns_In. tauto. }
  assert (Hext : ~ In m (extraColumns def (expectedColumns csn def) headers)).
  { unfold extraColumns, isExtra. rewrite filter_In. intros [_ H].
    apply arrayIncludes_In in Hm. rewrite Hm in H. discriminate. }
  repeat split; try assumption.
  intros n p t e He. apply reconcile_events in He.
  destruct He as [ -> | [ -> | [ -> | -> ] ] ]; simpl; auto.
  - unfold missingKeyColumns. rewrite filter_In. tauto.
  - rewrite missingNonKey_In. tauto.
Qed.

Lemma managed_columns_never_missing_nor_extra_witness :
  let expected := expectedColumns Sample.billingModel Sample.invoice in
  let headers := ["ID"; "createdAt"; "modifiedBy"] in
  ~ In "createdAt" expected
  /\ ~ In "createdAt" (missingColumns expected headers)
  /\ ~ In "createdAt" (extraColumns Sample.invoice expected headers)
  /\ (forall n p t e,
        In e (fst (reconcile Sample.billingModel Sample.invoice n p headers t)) ->
        ~ In "createdAt" (columnsOf e)).
Proof.
  apply (@managed_columns_never_missing_nor_extra Sample.billingModel Sample.invoice
           ["ID"; "createdAt"; "modifiedBy"] "createdAt").
  simpl. now left.
Defined.

(** C9: a key field that is a plain property and whose own name contains
    an underscore, when absent from the header row, is among the missing
    non-key columns and not among the missing key columns, so that it
    raises the warning flag from trace level 1 on; any missing column with
    an underscore in its name is treated so. *)
Theorem underscored_key_field_is_warning :
  forall (csn : Csn) (def : Definition_) (name : string) (el : Element)
         (headers : list string),
    Js.get (elements def) name = Some el ->
    key el = true -> virtual el = false -> elementSkip el = false ->
    isAssociation el = false -> isComposition el = false ->
    Js.includes name "_" = true ->
    ~ In name headers ->
    let missing := missingColumns (expectedColumns csn def) headers in
    In name (missingNonKeyColumns missing (missingKeyColumns def missing))
    /\ ~ In name (missingKeyColumns def missing)
    /\ (forall n p t, 1 <= t ->
          hasWarnings (snd (reconcile csn def n p headers t)) = true)
    /\ (forall e, Js.includes e "_" = true -> In e missing ->
          In e (missingNonKeyColumns missing (missingKeyColumns def missing))).
Proof.
  intros csn def name el headers Hget Hkey Hv Hs Ha Hc Hu Habs missing.
  assert (Hall : forall e, Js.includes e "_" = true -> In e missing ->
            In e (missingNonKeyColumns missing (missingKeyColumns def missing))).
  { intros e He Hin. apply missingNonKey_In. split; [assumption|].
    now apply underscore_not_missingKey. }
  assert (Hmiss : In name missing).
  { apply missingColumns_In. split; [|assumption].
    apply scalar_expected with (el := el); try assumption.
    apply arrayIncludes_not_In. intros Hm.
    rewrite (managed_no_underscore _ Hm) in Hu. discriminate. }
  split; [now apply Hall|]. split; [now apply underscore_not_missingKey|].
  split; [|exact Hall].
  intros n p t Ht. rewrite reconcile_hasWarnings. unfold reconcileWarnings.
  fold missing. specialize (Hall name Hu Hmiss).
  destruct (missingNonKeyColumns missing (missingKeyColumns def missing));
    [contradiction|].
  apply Nat.leb_le. exact Ht.
Qed.

Lemma underscored_key_field_is_warning_witness :
  let missing :=
    missingColumns (expectedColumns Sample.billingModel Sample.invoice) ["ID"] in
  In "line_no" (missingNonKeyColumns missing (missingKeyColumns Sample.invoice missing))
  /\ ~ In "line_no" (missingKeyColumns Sample.invoice missing)
  /\ (forall n p t, 1 <= t ->
        hasWarnings (snd (reconcile Sample.billingModel Sample.invoice n p ["ID"] t)) = true)
  /\ (forall e, Js.includes e "_" = true -> In e missing ->
        In e (missingNonKeyColumns missing (missingKeyColumns Sample.invoice missing))).
Proof.
  apply (@underscored_key_field_is_warning Sample.billingModel Sample.invoice
           "line_no" (Sample.scalar true) ["ID"]); try reflexivity.
  simpl. intros [H|[]]. discriminate H.
Defined.

(** ** Runs of the header validator *)

Lemma missingColumns_nil (expected : list string) :
  missingColumns expected [] = expected.
Proof.
  unfold missingColumns. induction expected as [|e l IH]; [reflexivity|].
  cbn [filter]. unfold Js.arrayIncludes at 1. cbn [existsb negb]. now rewrite IH.
Qed.

(** Once the folders are listed, the header validator returns; with at
    least one CSV file it returns the two counters. *)
Lemma validateCsvHeaders_returns (t : nat) (csn : Csn) (fs : Fs)
    (diskFiles : list DiskFile) :
  gatherDiskFiles fs dataFolders [] = Some diskFiles ->
  diskFiles <> [] ->
  exists out e w, validateCsvHeaders t csn fs = (out, Some (Some (e, w))).
Proof.
  intros Hg Hne. unfold validateCsvHeaders, gather. rewrite Hg.
  destruct diskFiles as [|f r]; [congruence|].
  simpl. eauto.
Qed.

(** C1, as the code has it: the warning counter of the header validator
    follows the trace level.  For [sales.Order] (key [ID], property
    [status]) and a [sales-Order.csv] whose header row is [ID], the run
    counts no warning at trace level 0 and one warning at trace levels 1
    and 2; the error counter is 0 at all three. *)
Theorem header_warning_count_follows_traceLevel :
  snd (validateCsvHeaders 0 Sample.salesModel (Sample.orderDisk "ID")) = Some (Some (0, 0))
  /\ snd (validateCsvHeaders 1 Sample.salesModel (Sample.orderDisk "ID")) = Some (Some (0, 1))
  /\ snd (validateCsvHeaders 2 Sample.salesModel (Sample.orderDisk "ID")) = Some (Some (0, 1)).
Proof. repeat split; vm_compute; reflexivity. Qed.

(** C2, as stated, fails: with the header row [id,status] the run of the
    header validator does not end with zero errors and zero warnings. *)
Lemma scenarioA_lowercase_header_has_error :
  snd (validateCsvHeaders 1 Sample.salesModel (Sample.orderDisk "id,status"))
  <> Some (Some (0, 0)).
Proof. vm_compute. discriminate. Qed.

(** C2, amended: for [sales.Order] with the key [ID] and the property
    [status] and the file [sales-Order.csv], the header row [ID,status]
    gives zero errors and zero warnings at every trace level; the header
    row [id,status] gives one error, for the missing key column [ID], and
    no warning, and its column [id] is not counted as extra. *)
Theorem scenarioA_exact_case_header_is_clean :
  forall t : nat,
    snd (validateCsvHeaders t Sample.salesModel (Sample.orderDisk "ID,status"))
      = Some (Some (0, 0))
    /\ snd (validateCsvHeaders t Sample.salesModel (Sample.orderDisk "id,status"))
      = Some (Some (1, 0))
    /\ getCsvHeaders (Sample.orderDisk "id,status") Sample.orderPath = ["id"; "status"]
    /\ missingKeyColumns Sample.order
         (missingColumns (expectedColumns Sample.salesModel Sample.order) ["id"; "status"])
       = ["ID"]
    /\ extraColumns Sample.order (expectedColumns Sample.salesModel Sample.order)
         ["id"; "status"] = [].
Proof.
  intros t. destruct t as [|[|t]]; repeat split; vm_compute; reflexivity.
Qed.

(** C3, as stated, fails: a [sales-Order.csv] that cannot be read is still
    reconciled.  The run writes a missing-key error and a missing-column
    warning for it and counts one error and one warning; nothing it writes
    reports the failure to read. *)
Lemma unreadable_file_still_reconciled :
  validateCsvHeaders 1 Sample.salesModel Sample.unreadableDisk =
    ([LoadingModel Headers; FoundCsvFiles Headers 1;
      HeaderErrorMissingKeys "sales.Order" Sample.orderPath ["ID"];
      HeaderWarning "sales.Order" Sample.orderPath ["status"];
      Separator; Findings Headers 1 1],
     Some (Some (1, 1)))
  /\ snd (validateCsvHeaders 1 Sample.salesModel Sample.unreadableDisk)
     <> Some (Some (0, 0)).
Proof. split; vm_compute; [reflexivity | discriminate]. Qed.

(** C3, amended: a file whose content cannot be read is reconciled with an
    empty header row, exactly as a file that is empty: no column is extra
    and every expected column is missing; the failure to read is not
    reported.  The run is not aborted by it: once the folders are listed
    and hold at least one CSV file, the run ends with its two counters. *)
Theorem unreadable_file_reconciled_as_empty :
  forall (fs : Fs) (csn : Csn) (t : nat) (p name : string) (def : Definition_),
    readFileSync fs p = None ->
    Js.get (definitions csn) name = Some def ->
    let expected := expectedColumns csn def in
    validateHeaderRow fs p name csn t =
      (fst (reconcile csn def name p [] t), Some (snd (reconcile csn def name p [] t)))
    /\ extraColumns def expected [] = []
    /\ missingColumns expected [] = expected
    /\ (forall fs', readFileSync fs' p = Some EmptyString ->
          validateHeaderRow fs' p name csn t = validateHeaderRow fs p name csn t)
    /\ (forall diskFiles,
          gatherDiskFiles fs dataFolders [] = Some diskFiles ->
          diskFiles <> [] ->
          exists out e w, validateCsvHeaders t csn fs = (out, Some (Some (e, w)))).
Proof.
  intros fs csn t p name def Hread Hdef expected.
  split; [|split; [|split; [|split]]].
  - unfold validateHeaderRow, getCsvHeaders. rewrite Hdef, Hread.
    now destruct (reconcile csn def name p [] t).
  - reflexivity.
  - apply missingColumns_nil.
  - intros fs' Hempty. unfold validateHeaderRow, getCsvHeaders.
    rewrite Hdef, Hread, Hempty. reflexivity.
  - intros diskFiles. apply validateCsvHeaders_returns.
Qed.

Lemma unreadable_file_reconciled_as_empty_witness :
  let expected := expectedColumns Sample.salesModel Sample.order in
  validateHeaderRow Sample.unreadableDisk Sample.orderPath "sales.Order"
                    Sample.salesModel 1 =
    (fst (reconcile Sample.salesModel Sample.order "sales.Order" Sample.orderPath [] 1),
     Some (snd (reconcile Sample.salesModel Sample.order "sales.Order"
                          Sample.orderPath [] 1)))
  /\ extraColumns Sample.order expected [] = []
  /\ missingColumns expected [] = expected
  /\ (forall fs', readFileSync fs' Sample.orderPath = Some EmptyString ->
        validateHeaderRow fs' Sample.orderPath "sales.Order" Sample.salesModel 1 =
        validateHeaderRow Sample.unreadableDisk Sample.orderPath "sales.Order"
                          Sample.salesModel 1)
  /\ (forall diskFiles,
        gatherDiskFiles Sample.unreadableDisk dataFolders [] = Some diskFiles ->
        diskFiles <> [] ->
        exists out e w,
          validateCsvHeaders 1 Sample.salesModel Sample.unreadableDisk
          = (out, Some (Some (e, w)))).
Proof.
  apply (unreadable_file_reconciled_as_empty Sample.unreadableDisk Sample.salesModel 1
           Sample.orderPath "sales.Order" Sample.order); reflexivity.
Defined.

(** ** Which files the header validator reconciles *)

Lemma validateHeaderRow_events (fs : Fs) (p n : string) (csn : Csn) (t : nat)
    (e : Event) :
  In e (fst (validateHeaderRow fs p n csn t)) -> headerEventOf e = Some (n, p).
Proof.
  unfold validateHeaderRow.
  destruct (Js.get (definitions csn) n) as [def|]; [|contradiction].
  destruct (reconcile csn def n p (getCsvHeaders fs p) t) as [out r] eqn:E.
  simpl. intros He.
  assert (He' : In e (fst (reconcile csn def n p (getCsvHeaders fs p) t)))
    by now rewrite E.
  apply reconcile_events in He'.
  destruct He' as [ -> | [ -> | [ -> | -> ] ] ]; reflexivity.
Qed.

Lemma findActual_Some (diskFiles : list DiskFile) (n : string) (f : DiskFile) :
  findActual diskFiles n = Some f -> In f diskFiles /\ actualName f = n.
Proof.
  unfold findActual. intros H. apply find_some in H. destruct H as [Hin Heq].
  apply String.eqb_eq in Heq. now split.
Qed.

(** What one turn of the loop adds to the console. *)
Lemma headersStep_console (fs : Fs) (csn : Csn) (t : nat) (diskFiles : list DiskFile)
    (st : Counters) (name : string) (e : Event) :
  In e (console (headersStep fs csn t diskFiles st name)) ->
  In e (console st)
  \/ exists f, In f diskFiles /\ actualName f = strictNameOf name
               /\ headerEventOf e = Some (name, pathJoin (folder f) (strictNameOf name)).
Proof.
  unfold headersStep.
  destruct (findActual diskFiles (strictNameOf name)) as [f|] eqn:Hf; [|now left].
  apply findActual_Some in Hf. destruct Hf as [Hin Hname].
  destruct (validateHeaderRow fs (pathJoin (folder f) (actualName f)) name csn t)
    as [out r] eqn:E.
  intros He.
  assert (Hc : In e (console st ++ out)).
  { destruct (resultHasErrors r); destruct (resultHasWarnings r); exact He. }
  apply in_app_or in Hc. destruct Hc as [Hc|Hc]; [now left|right].
  exists f. repeat split; try assumption.
  rewrite <- Hname. apply validateHeaderRow_events with (fs := fs) (csn := csn) (t := t).
  now rewrite E.
Qed.

Lemma headersLoop_console (fs : Fs) (csn : Csn) (t : nat) (diskFiles : list DiskFile)
    (entities : list string) (e : Event) :
  forall st,
    In e (console (headersLoop fs csn t diskFiles entities st)) ->
    In e (console st)
    \/ exists n f, In n entities /\ In f diskFiles /\ actualName f = strictNameOf n
                   /\ headerEventOf e = Some (n, pathJoin (folder f) (strictNameOf n)).
Proof.
  unfold headersLoop. induction entities as [|name rest IH]; intros st He.
  - now left.
  - simpl in He. apply IH in He. destruct He as [He|[n [f [Hn H]]]].
    + apply headersStep_console in He. destruct He as [He|[f H]]; [now left|].
      right. exists name, f. split; [now left|exact H].
    + right. exists n, f. split; [now right|exact H].
Qed.

Lemma findActual_drop (l1 l2 : list DiskFile) (f : DiskFile) (n : string) :
  actualName f <> n ->
  findActual (l1 ++ f :: l2) n = findActual (l1 ++ l2) n.
Proof.
  intros Hne. unfold findActual. induction l1 as [|g l1 IH]; simpl.
  - apply String.eqb_neq in Hne. now rewrite Hne.
  - now rewrite IH.
Qed.

Lemma headersLoop_drop (fs : Fs) (csn : Csn) (t : nat) (l1 l2 : list DiskFile)
    (f : DiskFile) (entities : list string) :
  (forall n, In n entities -> actualName f <> strictNameOf n) ->
  forall st,
    headersLoop fs csn t (l1 ++ f :: l2) entities st =
    headersLoop fs csn t (l1 ++ l2) entities st.
Proof.
  unfold headersLoop. induction entities as [|name rest IH]; intros Hno st.
  - reflexivity.
  - simpl. rewrite IH by (intros n Hn; apply Hno; now right).
    f_equal. unfold headersStep.
    rewrite findActual_drop by (apply Hno; now left). reflexivity.
Qed.

(** The loop over the entities writes records only about an entity and a
    file that bears its strict name, and a file that bears the strict name
    of no entity can be left out. *)
Lemma headersLoop_exact_only (fs : Fs) (csn : Csn) (t : nat)
    (diskFiles : list DiskFile) (entities : list string) :
  (forall e n p,
      In e (console (headersLoop fs csn t diskFiles entities start)) ->
      headerEventOf e = Some (n, p) ->
      In n entities
      /\ exists f, In f diskFiles /\ actualName f = strictNameOf n
                   /\ p = pathJoin (folder f) (strictNameOf n))
  /\ (forall l1 f l2,
        diskFiles = l1 ++ f :: l2 ->
        (forall n, In n entities -> actualName f <> strictNameOf n) ->
        headersLoop fs csn t diskFiles entities start =
        headersLoop fs csn t (l1 ++ l2) entities start).
Proof.
  split.
  - intros e n p He Hev. apply headersLoop_console in He.
    destruct He as [[]|[n' [f [Hn [Hf [Hname Hev']]]]]].
    rewrite Hev in Hev'. injection Hev' as -> ->.
    split; [assumption|]. now exists f.
  - intros l1 f l2 -> Hno. now apply headersLoop_drop.
Qed.

(** The run of the header validator in terms of its loop. *)
Lemma validateCsvHeaders_run (t : nat) (csn : Csn) (fs : Fs) :
  validateCsvHeaders t csn fs =
  match gatherDiskFiles fs dataFolders [] with
  | None => ([LoadingModel Headers], None)
  | Some [] => ([LoadingModel Headers; NoCsvFilesFound], Some None)
  | Some diskFiles =>
      let st := headersLoop fs csn t diskFiles (entitiesOf csn) start in
      (LoadingModel Headers :: FoundCsvFiles Headers (List.length diskFiles)
         :: console st ++ summary Headers st,
       Some (Some (errors st, warnings st)))
  end.
Proof.
  unfold validateCsvHeaders, gather.
  destruct (gatherDiskFiles fs dataFolders []) as [[|f r]|]; reflexivity.
Qed.

(** C10: the header validator reconciles an entity only with a file whose
    actual name is, character for character, the strict name of the entity
    (dots turned into hyphens, [.csv] appended).  Every header record of a
    run is about an entity of the model and the path of a discovered file
    that bears the strict name of that entity; and a discovered file that
    bears the strict name of no entity, be it equal up to letter case or
    short of the namespace prefix, adds nothing: the loop over the entities
    ends with the same console and the same counters without it. *)
Theorem header_reconciliation_only_for_exact_filename :
  forall (fs : Fs) (csn : Csn) (t : nat),
    (forall e n p,
        In e (fst (validateCsvHeaders t csn fs)) ->
        headerEventOf e = Some (n, p) ->
        In n (entitiesOf csn)
        /\ exists diskFiles f,
             gatherDiskFiles fs dataFolders [] = Some diskFiles
             /\ In f diskFiles /\ actualName f = strictNameOf n
             /\ p = pathJoin (folder f) (strictNameOf n))
    /\ (forall l1 f l2,
          (forall n, In n (entitiesOf csn) -> actualName f <> strictNameOf n) ->
          headersLoop fs csn t (l1 ++ f :: l2) (entitiesOf csn) start =
          headersLoop fs csn t (l1 ++ l2) (entitiesOf csn) start).
Proof.
  intros fs csn t. split.
  - intros e n p. rewrite validateCsvHeaders_run.
    destruct (gatherDiskFiles fs dataFolders []) as [[|f r]|] eqn:Hg.
    + simpl. intros [<-|[<-|[]]]; discriminate.
    + cbv zeta. cbn [fst]. intros He Hev.
      destruct He as [<-|[<-|He]]; try discriminate.
      apply in_app_or in He. destruct He as [He|He].
      * destruct (headersLoop_exact_only fs csn t (f :: r) (entitiesOf csn)) as [HA _].
        destruct (HA e n p He Hev) as [Hn [g [Hg1 [Hg2 Hg3]]]].
        split; [assumption|]. exists (f :: r), g. auto.
      * unfold summary in He. simpl in He.
        destruct He as [<-|[<-|[]]]; [discriminate|].
        destruct (_ || _); discriminate.
    + simpl. intros [<-|[]]; discriminate.
  - intros l1 f l2 Hno.
    destruct (headersLoop_exact_only fs csn t (l1 ++ f :: l2) (entitiesOf csn)) as [_ HB].
    now apply (HB l1 f l2).
Qed.

Lemma header_reconciliation_only_for_exact_filename_witness :
  headersLoop (Sample.orderDisk "bogus") Sample.salesModel 2
    ([diskFileOf "db/data" "sales-Order.csv"] ++
     diskFileOf "db/data" "sales-order.csv" :: [diskFileOf "db/data" "Order.csv"])
    (entitiesOf Sample.salesModel) start =
  headersLoop (Sample.orderDisk "bogus") Sample.salesModel 2
    ([diskFileOf "db/data" "sales-Order.csv"] ++ [diskFileOf "db/data" "Order.csv"])
    (entitiesOf Sample.salesModel) start.
Proof.
  apply (proj2 (header_reconciliation_only_for_exact_filename
                  (Sample.orderDisk "bogus") Sample.salesModel 2)).
  intros n [<-|[]]. vm_compute. discriminate.
Defined.

(** ** Filenames, walking the discovered files *)

Lemma length_append (a b : string) :
  String.length (a ++ b) = String.length a + String.length b.
Proof. induction a as [|c a IH]; simpl; [reflexivity | now rewrite IH]. Qed.

Lemma length_toLowerCase (s : string) :
  String.length (Js.toLowerCase s) = String.length s.
Proof. induction s as [|c s IH]; simpl; [reflexivity | now rewrite IH]. Qed.

(** Stripping the extension from a strict name gives back its stem. *)
Lemma stripCsvExt_strict (s : string) : Js.stripCsvExt (s ++ ".csv") = s.
Proof.
  induction s as [|c s IH]; [reflexivity|].
  change ((String c s ++ ".csv")%string) with (String c (s ++ ".csv")).
  cbn [Js.stripCsvExt]. rewrite IH.
  destruct (Js.toLowerCase (String c (s ++ ".csv")) =? ".csv") eqn:E; [|reflexivity].
  apply String.eqb_eq in E. apply (f_equal String.length) in E.
  rewrite length_toLowerCase in E. cbn [String.length] in E.
  rewrite length_append in E. simpl in E. lia.
Qed.

(** Turning the dots of a name into hyphens and all hyphens back into
    dots changes the name only where it had a hyphen, and then also its
    lower-case form. *)
Lemma undo_hyphens_char (c : ascii) :
  let g := if Ascii.eqb c "."%char then "-"%char else c in
  let f := if Ascii.eqb g "-"%char then "."%char else g in
  Js.lowerChar f = Js.lowerChar c -> f = c.
Proof.
  cbv zeta. destruct (Ascii.eqb c ".") eqn:Edot.
  - apply Ascii.eqb_eq in Edot. subst c. reflexivity.
  - destruct (Ascii.eqb c "-") eqn:Ehy; [|reflexivity].
    apply Ascii.eqb_eq in Ehy. subst c. vm_compute. discriminate.
Qed.

Lemma undo_hyphens (c : string) :
  let x := Js.replaceChar "-"%char "."%char (Js.replaceChar "."%char "-"%char c) in
  Js.toLowerCase x = Js.toLowerCase c -> x = c.
Proof.
  cbv zeta. induction c as [|a c IH]; [reflexivity|].
  cbn [Js.replaceChar Js.toLowerCase]. intros H. injection H as Hc Hr.
  f_equal; [now apply undo_hyphens_char | now apply IH].
Qed.

Lemma get_In {A} (o : Js.Obj A) (k : string) (v : A) :
  Js.get o k = Some v -> In (k, v) o.
Proof.
  induction o as [|[k' v'] o IH]; simpl; [discriminate|].
  destruct (k' =? k) eqn:E.
  - apply String.eqb_eq in E. intros [= ->]. subst. now left.
  - intros H. right. now apply IH.
Qed.

Lemma set_In {A} (o : Js.Obj A) (k0 : string) (v0 : A) (k : string) (v : A) :
  In (k, v) (Js.set o k0 v0) -> (k, v) = (k0, v0) \/ In (k, v) o.
Proof.
  induction o as [|[k' v'] o IH]; simpl.
  - intros [H|[]]. now left.
  - destruct (k' =? k0) eqn:E; simpl.
    + apply String.eqb_eq in E. subst k'. intros [H|H]; [now left | now right; right].
    + intros [H|H]; [now right; left|].
      destruct (IH H) as [H'|H']; [now left | now right; right].
Qed.

(** Every entry of the lookup table leads from the lower-case form of an
    entity name to that name. *)
Lemma entityLookup_entries (entities : list string) :
  forall (o : Js.Obj string) (k v : string),
    In (k, v) (fold_left (fun o name => ByFile.assign o (Js.toLowerCase name) name)
                         entities o) ->
    In (k, v) o \/ (k = Js.toLowerCase v /\ In v entities).
Proof.
  induction entities as [|name rest IH]; intros o k v H; [now left|].
  simpl in H. apply IH in H. destruct H as [H|[Hk Hv]].
  - unfold ByFile.assign in H.
    destruct (Js.toLowerCase name =? "__proto__"); [now left|].
    apply set_In in H. destruct H as [[= -> ->]|H]; [right|now left].
    split; [reflexivity | now left].
  - right. split; [assumption | now right].
Qed.

Lemma correctEntityNameOf_sound (entities : list string) (k c : string) :
  ByFile.correctEntityNameOf (ByFile.entityLookupOf entities) k
    = ByFile.EntityName c ->
  In c entities /\ Js.toLowerCase c = k.
Proof.
  unfold ByFile.correctEntityNameOf, ByFile.entityLookupOf.
  destruct (Js.get _ k) as [n|] eqn:E;
    [|destruct (Js.arrayIncludes _ k); discriminate].
  destruct (n =? EmptyString); [discriminate|]. intros [= ->].
  apply get_In, entityLookup_entries in E. destruct E as [[]|[-> Hin]]. now split.
Qed.

(** A file that bears the strict name of the entity it is matched to
    spells the entity name as the model does. *)
Lemma strict_name_spells_entity (entities : list string) (a c : string) :
  ByFile.correctEntityNameOf (ByFile.entityLookupOf entities)
    (Js.toLowerCase (Js.replaceChar "-"%char "."%char (Js.stripCsvExt a)))
    = ByFile.EntityName c ->
  a = strictNameOf c ->
  Js.replaceChar "-"%char "."%char (Js.stripCsvExt a) = c.
Proof.
  intros Hlook ->. apply correctEntityNameOf_sound in Hlook. destruct Hlook as [_ Hlow].
  unfold strictNameOf in *. rewrite stripCsvExt_strict in *.
  apply undo_hyphens. now symmetry.
Qed.

(** C4: for a discovered file that is matched to an entity (its base name
    has no dot and, with hyphens turned into dots, is an entity name up to
    letter case): if that translated base name is not the name of the
    entity as the model spells it, the turn of the loop counts one error
    and writes the entity-case error; if it is that name and only the
    actual filename is not the strict filename, the turn counts one warning
    (written from trace level 1 on) and no error. *)
Theorem entity_case_error_filename_case_warning :
  forall (t : nat) (entities : list string) (st : Counters) (diskFile : DiskFile)
         (correctEntityName : string),
    let fileBaseName := Js.stripCsvExt (actualName diskFile) in
    let entityNameFromFile := Js.replaceChar "-"%char "."%char fileBaseName in
    Js.includes fileBaseName "." = false ->
    ByFile.correctEntityNameOf (ByFile.entityLookupOf entities)
      (Js.toLowerCase entityNameFromFile) = ByFile.EntityName correctEntityName ->
    exists st',
      ByFile.fileStep t (ByFile.entityLookupOf entities) st diskFile = Some st'
      /\ (In correctEntityName entities
          /\ Js.toLowerCase correctEntityName = Js.toLowerCase entityNameFromFile)
      /\ (entityNameFromFile <> correctEntityName ->
          errors st' = S (errors st) /\ warnings st' = warnings st
          /\ console st' =
             console st ++ [EntityCaseError (actualName diskFile) entityNameFromFile
                              correctEntityName (strictNameOf correctEntityName)])
      /\ (entityNameFromFile = correctEntityName ->
          actualName diskFile <> strictNameOf correctEntityName ->
          errors st' = errors st /\ warnings st' = S (warnings st)
          /\ console st' =
             console st ++ when (1 <=? t)%nat
                             [CaseMismatch correctEntityName
                                (strictNameOf correctEntityName) (actualName diskFile)]).
Proof.
  intros t entities st diskFile c fileBaseName entityNameFromFile Hdot Hlook.
  pose proof (correctEntityNameOf_sound _ _ _ Hlook) as Hsound.
  unfold ByFile.fileStep. fold fileBaseName. rewrite Hdot.
  fold entityNameFromFile. rewrite Hlook.
  destruct (actualName diskFile =? strictNameOf c) eqn:Estrict.
  - apply String.eqb_eq in Estrict.
    assert (Hsame : entityNameFromFile = c)
      by now apply strict_name_spells_entity with (entities := entities).
    eexists. split; [reflexivity|]. split; [assumption|]. split.
    + intros Hne. now exfalso.
    + intros _ Hne. now exfalso.
  - destruct (entityNameFromFile =? c) eqn:Ename; cbn [negb].
    + apply String.eqb_eq in Ename.
      eexists. split; [reflexivity|]. split; [assumption|]. split.
      * intros Hne. now exfalso.
      * intros _ _. simpl. auto.
    + apply String.eqb_neq in Ename.
      eexists. split; [reflexivity|]. split; [assumption|]. split.
      * intros _. simpl. auto.
      * intros Heq. now exfalso.
Qed.

Lemma entity_case_error_filename_case_warning_witness :
  let lookup := ByFile.entityLookupOf (entitiesOf Sample.salesModel) in
  (exists st',
      ByFile.fileStep 1 lookup start (diskFileOf "db/data" "sales-order.csv") = Some st'
      /\ errors st' = 1)
  /\ (exists st',
        ByFile.fileStep 1 lookup start (diskFileOf "db/data" "sales-Order.CSV") = Some st'
        /\ warnings st' = 1).
Proof.
  split.
  - destruct (entity_case_error_filename_case_warning 1
                (entitiesOf Sample.salesModel) start
                (diskFileOf "db/data" "sales-order.csv") "sales.Order"
                eq_refl eq_refl) as [st' [Hstep [_ [Herr _]]]].
    exists st'. split; [exact Hstep|].
    apply Herr. vm_compute. discriminate.
  - destruct (entity_case_error_filename_case_warning 1
                (entitiesOf Sample.salesModel) start
                (diskFileOf "db/data" "sales-Order.CSV") "sales.Order"
                eq_refl eq_refl) as [st' [Hstep [_ [_ Hwarn]]]].
    exists st'. split; [exact Hstep|].
    apply Hwarn; [reflexivity|]. vm_compute. discriminate.
Defined.

(** ** Entities without a file *)

Lemma insert_perm (x : string) (l : list string) :
  Permutation (Js.insert x l) (x :: l).
Proof.
  induction l as [|y l IH]; simpl; [reflexivity|].
  destruct (x <=? y)%string; [reflexivity|].
  rewrite IH. apply perm_swap.
Qed.

Lemma sort_perm (l : list string) : Permutation (Js.sort l) l.
Proof.
  induction l as [|x l IH]; simpl; [reflexivity|].
  rewrite insert_perm. now apply perm_skip.
Qed.

(** The names of a model are pairwise different, and so are its entities. *)
Lemma entitiesOf_NoDup (csn : Csn) :
  NoDup (Js.keys (definitions csn)) -> NoDup (entitiesOf csn).
Proof.
  intros H. unfold entitiesOf.
  apply Permutation_NoDup with (l := filter (isValidatedEntity csn) (Js.keys (definitions csn))).
  - symmetry. apply sort_perm.
  - now apply NoDup_filter.
Qed.

(** The loop over the files writes no such note. *)
Lemma fileStep_no_NoCsv (t : nat) (lookup : Js.Obj string) (n : string)
    (st st' : Counters) (f : DiskFile) :
  ByFile.fileStep t lookup st f = Some st' ->
  filter (isNoCsvFor n) (console st') = filter (isNoCsvFor n) (console st).
Proof.
  unfold ByFile.fileStep.
  destruct (Js.includes _ "."); [|destruct (ByFile.correctEntityNameOf _ _);
    [destruct (_ =? _); [|destruct (negb _)]| |]];
    try (destruct (_ <=? t)%nat); intros [= <-];
    cbn [say addError addWarning console]; rewrite ?filter_app;
    simpl; now rewrite ?app_nil_r.
Qed.

Lemma fileLoop_no_NoCsv (t : nat) (lookup : Js.Obj string) (n : string)
    (diskFiles : list DiskFile) :
  forall st,
    filter (isNoCsvFor n)
      (console (ByFile.stateOf (ByFile.fileLoop t lookup diskFiles st))) =
    filter (isNoCsvFor n) (console st).
Proof.
  induction diskFiles as [|f r IH]; intros st; [reflexivity|].
  simpl. destruct (ByFile.fileStep t lookup st f) as [st'|] eqn:E; [|reflexivity].
  rewrite IH. now apply fileStep_no_NoCsv with (t := t) (lookup := lookup) (f := f).
Qed.

(** The loop over the entities leaves the counters alone. *)
Lemma missingLoop_counters (t : nat) (diskFiles : list DiskFile) (entities : list string) :
  forall st,
    let st' := fold_left (ByFile.missingStep t diskFiles) entities st in
    errors st' = errors st /\ warnings st' = warnings st.
Proof.
  induction entities as [|e r IH]; intros st; [now split|].
  simpl. destruct (IH (ByFile.missingStep t diskFiles st e)) as [He Hw].
  rewrite He, Hw. unfold ByFile.missingStep.
  destruct (negb _ && _); now split.
Qed.

Lemma no_file_hasFile (diskFiles : list DiskFile) (s : string) :
  (forall f, In f diskFiles -> actualName f <> s) ->
  existsb (fun f => actualName f =? s) diskFiles = false.
Proof.
  intros H. induction diskFiles as [|f r IH]; [reflexivity|].
  simpl. rewrite IH by (intros g Hg; apply H; now right).
  assert (Hf : actualName f <> s) by (apply H; now left).
  apply String.eqb_neq in Hf. now rewrite Hf.
Qed.

(** The notes about entity [n] that the loop over the entities adds: one
    for each time [n] comes up, when [n] has no file and the trace level
    is 2 or more. *)
Lemma missingLoop_notes (t : nat) (diskFiles : list DiskFile) (n : string)
    (entities : list string) :
  (forall f, In f diskFiles -> actualName f <> strictNameOf n) ->
  forall st,
    List.length (filter (isNoCsvFor n)
                   (console (fold_left (ByFile.missingStep t diskFiles) entities st))) =
    List.length (filter (isNoCsvFor n) (console st))
    + (if (2 <=? t)%nat then count_occ string_dec entities n else 0).
Proof.
  intros Hno. induction entities as [|e r IH]; intros st.
  - cbn [fold_left count_occ]. destruct (2 <=? t)%nat; lia.
  - cbn [fold_left]. rewrite IH. unfold ByFile.missingStep.
    cbn [count_occ]. destruct (string_dec e n) as [->|Hne].
    + rewrite (no_file_hasFile _ _ Hno). cbn [negb andb].
      destruct (2 <=? t)%nat; cbv iota; [|lia].
      cbn [say console]. rewrite filter_app, length_app. simpl.
      rewrite String.eqb_refl. simpl. lia.
    + destruct (negb _ && (2 <=? t)%nat) eqn:E.
      * cbn [say console]. rewrite filter_app, length_app. simpl.
        apply String.eqb_neq in Hne. rewrite Hne. simpl.
        destruct (2 <=? t)%nat; lia.
      * destruct (2 <=? t)%nat; lia.
Qed.

(** A note names the strict filename of its entity. *)
Lemma missingLoop_note_shape (t : nat) (diskFiles : list DiskFile) (n g : string)
    (entities : list string) :
  forall st,
    In (NoCsv n g) (console (fold_left (ByFile.missingStep t diskFiles) entities st)) ->
    In (NoCsv n g) (console st) \/ g = strictNameOf n.
Proof.
  induction entities as [|e r IH]; intros st H; [now left|].
  simpl in H. apply IH in H. destruct H as [H|H]; [|now right].
  unfold ByFile.missingStep in H. destruct (negb _ && _); [|now left].
  simpl in H. apply in_app_or in H. destruct H as [H|[H|[]]]; [now left|].
  injection H as -> ->. now right.
Qed.

Lemma fileLoop_note_free (t : nat) (lookup : Js.Obj string) (n g : string)
    (diskFiles : list DiskFile) :
  ~ In (NoCsv n g)
       (console (ByFile.stateOf (ByFile.fileLoop t lookup diskFiles start))).
Proof.
  intros H.
  assert (Hf : In (NoCsv n g)
                 (filter (isNoCsvFor n)
                    (console (ByFile.stateOf
                                (ByFile.fileLoop t lookup diskFiles start))))).
  { apply filter_In. split; [assumption|]. simpl. apply String.eqb_refl. }
  rewrite fileLoop_no_NoCsv in Hf. destruct Hf.
Qed.

(** The run of the filename validator in terms of its loops. *)
Lemma validateCsvFilenames_run (t : nat) (csn : Csn) (fs : Fs) :
  ByFile.validateCsvFilenames t csn fs =
  match gatherDiskFiles fs dataFolders [] with
  | None => ([LoadingModel Filenames], None)
  | Some [] => ([LoadingModel Filenames; NoCsvFilesFound], Some None)
  | Some diskFiles =>
      match ByFile.fileLoop t (ByFile.entityLookupOf (entitiesOf csn))
              diskFiles start with
      | ByFile.TypeError st1 =>
          (LoadingModel Filenames :: FoundCsvFiles Filenames (List.length diskFiles)
             :: console st1,
           None)
      | ByFile.Completed st1 =>
          let st := fold_left (ByFile.missingStep t diskFiles) (entitiesOf csn) st1 in
          (LoadingModel Filenames :: FoundCsvFiles Filenames (List.length diskFiles)
             :: console st ++ summary Filenames st,
           Some (Some (errors st, warnings st)))
      end
  end.
Proof.
  unfold ByFile.validateCsvFilenames, gather.
  destruct (gatherDiskFiles fs dataFolders []) as [[|f r]|]; try reflexivity.
  cbn -[ByFile.fileLoop ByFile.entityLookupOf entitiesOf summary].
  destruct (ByFile.fileLoop _ _ _ _); reflexivity.
Qed.

(** A file called [constructor.csv] ends the run in the loop over the
    files: the name is found among the inherited members of the lookup
    table, and the strict name cannot be built from it. *)
Lemma inherited_member_name_ends_run :
  ByFile.validateCsvFilenames 2 Sample.billingModel
    (Sample.disk [("sales-Invoice.csv", None); ("constructor.csv", None)]) =
  ([LoadingModel Filenames; FoundCsvFiles Filenames 2;
    FilenameOk "sales.Invoice" "sales-Invoice.csv"],
   None).
Proof. vm_compute. reflexivity. Qed.

(** C7, as stated, fails: when no CSV file is found at all the run stops
    after its message; at trace level 2 the entity [sales.Order] has no
    file and yet no note is written about it. *)
Lemma no_note_when_no_csv_file_found :
  In "sales.Order" (entitiesOf Sample.salesModel)
  /\ ByFile.validateCsvFilenames 2 Sample.salesModel Sample.noDisk
     = ([LoadingModel Filenames; NoCsvFilesFound], Some None)
  /\ List.length (filter (isNoCsvFor "sales.Order")
       (fst (ByFile.validateCsvFilenames 2 Sample.salesModel Sample.noDisk))) <> 1.
Proof. repeat split; vm_compute; [now left | discriminate]. Qed.

(** C7, amended: in a run that found at least one CSV file and whose
    loop over the files came to its end, for every entity with no file of
    its strict name the console holds exactly one note about it at trace
    level 2 and above and none below; the note is written with
    [console.log], and the counters of the run are those the loop over the
    files left, whatever the trace level. *)
Theorem entity_without_file_one_note_at_level_2 :
  forall (t : nat) (csn : Csn) (fs : Fs) (diskFiles : list DiskFile) (n : string)
         (afterFiles : Counters),
    NoDup (Js.keys (definitions csn)) ->
    gatherDiskFiles fs dataFolders [] = Some diskFiles ->
    diskFiles <> [] ->
    ByFile.fileLoop t (ByFile.entityLookupOf (entitiesOf csn)) diskFiles start
      = ByFile.Completed afterFiles ->
    In n (entitiesOf csn) ->
    (forall f, In f diskFiles -> actualName f <> strictNameOf n) ->
    let run := ByFile.validateCsvFilenames t csn fs in
    List.length (filter (isNoCsvFor n) (fst run)) = (if (2 <=? t)%nat then 1 else 0)
    /\ (forall e, In e (fst run) -> isNoCsvFor n e = true ->
          e = NoCsv n (strictNameOf n) /\ stream e = ConsoleLog)
    /\ snd run = Some (Some (errors afterFiles, warnings afterFiles)).
Proof.
  intros t csn fs diskFiles n afterFiles Hnodup Hg Hne Hloop Hn Hno run.
  subst run. rewrite validateCsvFilenames_run, Hg.
  destruct diskFiles as [|f0 r0]; [congruence|].
  rewrite Hloop. cbv zeta. cbn [fst snd].
  pose proof (fileLoop_no_NoCsv t (ByFile.entityLookupOf (entitiesOf csn)) n
                (f0 :: r0) start) as Hfree.
  pose proof (fun g => fileLoop_note_free t (ByFile.entityLookupOf (entitiesOf csn)) n g
                (f0 :: r0)) as Hnone.
  rewrite Hloop in Hfree, Hnone. cbn [ByFile.stateOf] in Hfree, Hnone.
  set (st := fold_left (ByFile.missingStep t (f0 :: r0)) (entitiesOf csn) afterFiles).
  assert (Hlen : List.length (filter (isNoCsvFor n) (console st))
                 = if (2 <=? t)%nat then 1 else 0).
  { subst st. rewrite missingLoop_notes by assumption.
    rewrite Hfree.
    cbn [start console filter List.length Nat.add].
    destruct (2 <=? t)%nat; [|reflexivity].
    apply NoDup_count_occ'; [now apply entitiesOf_NoDup | assumption]. }
  split; [|split].
  - cbn [filter isNoCsvFor]. rewrite filter_app, length_app, Hlen.
    unfold summary. cbn [filter isNoCsvFor].
    destruct (_ || _); simpl; lia.
  - intros e He Hnote. destruct e; try discriminate.
    simpl in Hnote. apply String.eqb_eq in Hnote. subst entityName.
    split; [|reflexivity]. f_equal.
    destruct He as [He|[He|He]]; try discriminate.
    apply in_app_or in He. destruct He as [He|He].
    + subst st. apply missingLoop_note_shape in He.
      destruct He as [He|He]; [|assumption].
      now apply Hnone in He.
    + unfold summary in He. simpl in He.
      destruct He as [He|[He|[]]]; [discriminate|].
      destruct (_ || _); discriminate.
  - f_equal. f_equal. subst st.
    destruct (missingLoop_counters t (f0 :: r0) (entitiesOf csn) afterFiles) as [-> ->].
    reflexivity.
Qed.

Lemma entity_without_file_one_note_at_level_2_witness :
  let fs := Sample.disk [("sales-Invoice.csv", None)] in
  let run := ByFile.validateCsvFilenames 2 Sample.billingModel fs in
  List.length (filter (isNoCsvFor "sales.Customer") (fst run)) = 1
  /\ (forall e, In e (fst run) -> isNoCsvFor "sales.Customer" e = true ->
        e = NoCsv "sales.Customer" (strictNameOf "sales.Customer")
        /\ stream e = ConsoleLog)
  /\ snd run = Some (Some (0, 0)).
Proof.
  apply (entity_without_file_one_note_at_level_2 2 Sample.billingModel
           (Sample.disk [("sales-Invoice.csv", None)])
           [diskFileOf "db/data" "sales-Invoice.csv"] "sales.Customer"
           (say start [FilenameOk "sales.Invoice" "sales-Invoice.csv"])).
  - repeat constructor; simpl; intuition discriminate.
  - reflexivity.
  - discriminate.
  - reflexivity.
  - vm_compute. now left.
  - intros f [<-|[]]. vm_compute. discriminate.
Defined.

(** ** Filenames, walking the entities *)

(** The copy that walks the entities counts a file that spells the entity
    name in another letter case as a warning. *)
Lemma byEntity_entity_case_is_warning :
  ByEntity.validateCsvFilenames 1 Sample.salesModel
    (Sample.disk [("sales-order.csv", None)]) =
  ([LoadingModel Filenames; FoundCsvFiles Filenames 1;
    CaseMismatch "sales.Order" "sales-Order.csv" "sales-order.csv";
    Separator; Findings Filenames 0 1],
   Some (Some (0, 1))).
Proof. vm_compute. reflexivity. Qed.

(** That copy writes nothing about an entity without a file. *)
Lemma byEntity_no_note_for_entity_without_file :
  ByEntity.validateCsvFilenames 2 Sample.billingModel
    (Sample.disk [("sales-Invoice.csv", None)]) =
  ([LoadingModel Filenames; FoundCsvFiles Filenames 1;
    FilenameOk "sales.Invoice" "sales-Invoice.csv";
    Separator; Perfect Filenames],
   Some (Some (0, 0))).
Proof. vm_compute. reflexivity. Qed.

(** ** The counters of the header validator and the trace level *)

Lemma validateHeaderRow_hasErrors (fs : Fs) (p n : string) (csn : Csn) (t : nat) :
  resultHasErrors (snd (validateHeaderRow fs p n csn t)) =
  match Js.get (definitions csn) n with
  | Some def => reconcileErrors csn def (getCsvHeaders fs p)
  | None => false
  end.
Proof.
  unfold validateHeaderRow. destruct (Js.get (definitions csn) n) as [def|]; [|reflexivity].
  rewrite <- (reconcile_hasErrors csn def n p (getCsvHeaders fs p) t).
  now destruct (reconcile csn def n p (getCsvHeaders fs p) t).
Qed.

Lemma headersStep_errors (fs : Fs) (csn : Csn) (t t' : nat) (diskFiles : list DiskFile)
    (st st' : Counters) (name : string) :
  errors st = errors st' ->
  errors (headersStep fs csn t diskFiles st name) =
  errors (headersStep fs csn t' diskFiles st' name).
Proof.
  intros H. unfold headersStep.
  destruct (findActual diskFiles (strictNameOf name)) as [f|]; [|exact H].
  pose proof (validateHeaderRow_hasErrors fs (pathJoin (folder f) (actualName f))
                name csn t) as E1.
  pose proof (validateHeaderRow_hasErrors fs (pathJoin (folder f) (actualName f))
                name csn t') as E2.
  destruct (validateHeaderRow fs _ name csn t) as [o1 r1].
  destruct (validateHeaderRow fs _ name csn t') as [o2 r2].
  simpl in E1, E2. rewrite E1, E2.
  destruct (match Js.get (definitions csn) name with
            | Some def => reconcileErrors csn def _
            | None => false
            end);
    destruct (resultHasWarnings r1); destruct (resultHasWarnings r2);
    simpl; congruence.
Qed.

(** The error counter of the header validator is the same at every trace
    level. *)
Lemma headersLoop_errors_traceLevel (fs : Fs) (csn : Csn) (t t' : nat)
    (diskFiles : list DiskFile) (entities : list string) :
  forall st st',
    errors st = errors st' ->
    errors (headersLoop fs csn t diskFiles entities st) =
    errors (headersLoop fs csn t' diskFiles entities st').
Proof.
  unfold headersLoop. induction entities as [|e r IH]; intros st st' H; [exact H|].
  simpl. apply IH. now apply headersStep_errors.
Qed.

(** ** The order in which the model lists its definitions *)

(** [sort] orders by code units; the order is transitive, so the sorted
    array depends only on what the array holds. *)
Lemma ascii_compare_lt_trans (x y z : ascii) :
  Ascii.compare x y = Lt -> Ascii.compare y z = Lt -> Ascii.compare x z = Lt.
Proof.
  unfold Ascii.compare. rewrite !N.compare_lt_iff. apply N.lt_trans.
Qed.

Lemma string_leb_trans (a : string) :
  forall b c, (a <=? b)%string = true -> (b <=? c)%string = true ->
              (a <=? c)%string = true.
Proof.
  unfold String.leb.
  induction a as [|x a IH]; intros b c Hab Hbc.
  - now destruct c.
  - destruct b as [|y b]; [simpl in Hab; discriminate|].
    destruct c as [|z c]; [simpl in Hbc; discriminate|].
    simpl in *.
    destruct (Ascii.compare x y) eqn:Exy; try discriminate;
      destruct (Ascii.compare y z) eqn:Eyz; try discriminate.
    + apply Ascii.compare_eq_iff in Exy. subst y. rewrite Eyz. now apply IH with (b := b).
    + apply Ascii.compare_eq_iff in Exy. subst y. now rewrite Eyz.
    + apply Ascii.compare_eq_iff in Eyz. subst z. now rewrite Exy.
    + now rewrite (ascii_compare_lt_trans _ _ _ Exy Eyz).
Qed.

Lemma string_leb_false (x y : string) :
  (x <=? y)%string = false -> (y <=? x)%string = true.
Proof. intros H. destruct (String.leb_total x y) as [H'|H']; congruence. Qed.

Lemma insert_comm (x y : string) (s : list string) :
  Js.insert x (Js.insert y s) = Js.insert y (Js.insert x s).
Proof.
  induction s as [|z s IH]; simpl.
  - destruct (x <=? y)%string eqn:Exy; destruct (y <=? x)%string eqn:Eyx; try reflexivity.
    + now rewrite (String.leb_antisym _ _ Exy Eyx).
    + apply string_leb_false in Exy. congruence.
  - destruct (y <=? z)%string eqn:Eyz; destruct (x <=? z)%string eqn:Exz; simpl.
    + destruct (x <=? y)%string eqn:Exy; destruct (y <=? x)%string eqn:Eyx;
        rewrite ?Exz, ?Eyz; try reflexivity.
      * now rewrite (String.leb_antisym _ _ Exy Eyx).
      * apply string_leb_false in Exy. congruence.
    + rewrite Eyz.
      destruct (x <=? y)%string eqn:Exy.
      * rewrite (string_leb_trans _ _ _ Exy Eyz) in Exz. discriminate.
      * now rewrite Exz.
    + rewrite Exz.
      destruct (y <=? x)%string eqn:Eyx.
      * rewrite (string_leb_trans _ _ _ Eyx Exz) in Eyz. discriminate.
      * now rewrite Eyz.
    + rewrite Exz, Eyz. now rewrite IH.
Qed.

Lemma sort_permutation_eq (l l' : list string) :
  Permutation l l' -> Js.sort l = Js.sort l'.
Proof.
  induction 1; simpl.
  - reflexivity.
  - now f_equal.
  - apply insert_comm.
  - congruence.
Qed.

Lemma get_not_in {A} (o : Js.Obj A) (k : string) :
  ~ In k (Js.keys o) -> Js.get o k = None.
Proof.
  intros H. destruct (Js.get o k) as [v|] eqn:E; [|reflexivity].
  exfalso. apply H. eapply get_Some_In_keys. eassumption.
Qed.

Lemma get_permutation {A} (o o' : Js.Obj A) :
  Permutation o o' -> NoDup (Js.keys o) -> forall k, Js.get o k = Js.get o' k.
Proof.
  induction 1 as [|[k1 v1] o o' Hp IH|[k1 v1] [k2 v2] o|o1 o2 o3 H12 IH12 H23 IH23];
    intros Hnd k.
  - reflexivity.
  - simpl. inversion Hnd; subst. now rewrite IH.
  - simpl. destruct (k2 =? k) eqn:E2; destruct (k1 =? k) eqn:E1; try reflexivity.
    apply String.eqb_eq in E1, E2. subst.
    simpl in Hnd. inversion Hnd as [|? ? Hnotin _]; subst.
    exfalso. apply Hnotin. now left.
  - rewrite IH12 by assumption. apply IH23.
    unfold Js.keys in *. eapply Permutation_NoDup; [|exact Hnd].
    now apply Permutation_map.
Qed.

Section SameModel.

Variables csn csn' : Csn.
Hypothesis same : forall k, Js.get (definitions csn) k = Js.get (definitions csn') k.

Lemma expectedColumns_same (def : Definition_) :
  expectedColumns csn def = expectedColumns csn' def.
Proof.
  unfold expectedColumns. apply flat_map_ext. intros name.
  unfold expectedFor.
  destruct (Js.get (elements def) name) as [el|]; [|reflexivity].
  unfold targetOf. now rewrite same.
Qed.

Lemma reconcile_same (def : Definition_) (n p : string) (headers : list string) (t : nat) :
  reconcile csn def n p headers t = reconcile csn' def n p headers t.
Proof. unfold reconcile. now rewrite expectedColumns_same. Qed.

Lemma validateHeaderRow_same (fs : Fs) (p n : string) (t : nat) :
  validateHeaderRow fs p n csn t = validateHeaderRow fs p n csn' t.
Proof.
  unfold validateHeaderRow. rewrite same.
  destruct (Js.get (definitions csn') n) as [def|]; [|reflexivity].
  now rewrite reconcile_same.
Qed.

Lemma headersLoop_same (fs : Fs) (t : nat) (diskFiles : list DiskFile)
    (entities : list string) :
  forall st,
    headersLoop fs csn t diskFiles entities st =
    headersLoop fs csn' t diskFiles entities st.
Proof.
  unfold headersLoop. induction entities as [|e r IH]; intros st; [reflexivity|].
  simpl. rewrite IH. f_equal. unfold headersStep.
  destruct (findActual diskFiles (strictNameOf e)); [|reflexivity].
  now rewrite validateHeaderRow_same.
Qed.

Lemma isValidatedEntity_same (name : string) :
  isValidatedEntity csn name = isValidatedEntity csn' name.
Proof. unfold isValidatedEntity. now rewrite same. Qed.

End SameModel.

Lemma filter_permutation {A} (f : A -> bool) (l l' : list A) :
  Permutation l l' -> Permutation (filter f l) (filter f l').
Proof.
  induction 1 as [|x l l' Hp IH|x y l|l1 l2 l3 H12 IH12 H23 IH23]; simpl.
  - reflexivity.
  - destruct (f x); [now apply perm_skip | assumption].
  - destruct (f x); destruct (f y); try reflexivity. apply perm_swap.
  - now transitivity (filter f l2).
Qed.

(** The entities are walked in sorted order, in whatever order the model
    lists its definitions. *)
Lemma entitiesOf_permutation (csn csn' : Csn) :
  Permutation (definitions csn) (definitions csn') ->
  NoDup (Js.keys (definitions csn)) ->
  entitiesOf csn = entitiesOf csn'.
Proof.
  intros Hp Hnd. unfold entitiesOf. apply sort_permutation_eq.
  rewrite (filter_ext _ _ (isValidatedEntity_same csn csn' (get_permutation _ _ Hp Hnd))).
  apply filter_permutation. unfold Js.keys. now apply Permutation_map.
Qed.

(** X24: both validators write the same console and return the same
    counters for two models that list the same definitions in different
    orders. *)
Lemma runs_independent_of_definition_order (t : nat) (csn csn' : Csn) (fs : Fs) :
  Permutation (definitions csn) (definitions csn') ->
  NoDup (Js.keys (definitions csn)) ->
  validateCsvHeaders t csn fs = validateCsvHeaders t csn' fs
  /\ ByFile.validateCsvFilenames t csn fs = ByFile.validateCsvFilenames t csn' fs
  /\ ByEntity.validateCsvFilenames t csn fs = ByEntity.validateCsvFilenames t csn' fs.
Proof.
  intros Hp Hnd.
  pose proof (entitiesOf_permutation csn csn' Hp Hnd) as He.
  pose proof (get_permutation _ _ Hp Hnd) as Hsame.
  split; [|split].
  - rewrite !validateCsvHeaders_run.
    destruct (gatherDiskFiles fs dataFolders []) as [[|f r]|]; try reflexivity.
    cbv zeta. rewrite <- He. now rewrite (headersLoop_same csn csn' Hsame).
  - rewrite !validateCsvFilenames_run. now rewrite He.
  - unfold ByEntity.validateCsvFilenames. now rewrite He.
Qed.

(** ** Repeated runs *)

Lemma exec_twice {A} (m : Csn -> Fs -> Run A) (w : World) :
  let '(w1, r1) := exec m w in
  let '(w2, r2) := exec m w1 in
  r1 = r2
  /\ model w1 = model w /\ disk w1 = disk w
  /\ exists out, screen w1 = screen w ++ out /\ screen w2 = screen w1 ++ out.
Proof.
  unfold exec. destruct (m (model w) (disk w)) as [out r] eqn:E.
  cbn [model disk screen]. rewrite E.
  repeat split. now exists out.
Qed.

(** C8: a run reads the model and the file system and changes neither, so
    a second run on the same inputs at the same trace level returns the
    same counters and writes the same records, in the same order, to the
    console.  This holds for the filename validator (both copies), for the
    header validator and for the two run one after the other. *)
Theorem reconciler_runs_are_repeatable :
  forall (t : nat) (w : World),
    (let '(w1, r1) := exec (ByFile.validateCsvs t) w in
     let '(w2, r2) := exec (ByFile.validateCsvs t) w1 in
     r1 = r2 /\ model w1 = model w /\ disk w1 = disk w
     /\ exists out, screen w1 = screen w ++ out /\ screen w2 = screen w1 ++ out)
    /\ (let '(w1, r1) := exec (ByFile.validateCsvFilenames t) w in
        let '(w2, r2) := exec (ByFile.validateCsvFilenames t) w1 in
        r1 = r2 /\ model w1 = model w /\ disk w1 = disk w
        /\ exists out, screen w1 = screen w ++ out /\ screen w2 = screen w1 ++ out)
    /\ (let '(w1, r1) := exec (ByEntity.validateCsvFilenames t) w in
        let '(w2, r2) := exec (ByEntity.validateCsvFilenames t) w1 in
        r1 = r2 /\ model w1 = model w /\ disk w1 = disk w
        /\ exists out, screen w1 = screen w ++ out /\ screen w2 = screen w1 ++ out)
    /\ (let '(w1, r1) := exec (validateCsvHeaders t) w in
        let '(w2, r2) := exec (validateCsvHeaders t) w1 in
        r1 = r2 /\ model w1 = model w /\ disk w1 = disk w
        /\ exists out, screen w1 = screen w ++ out /\ screen w2 = screen w1 ++ out).
Proof.
  intros t w. repeat split.
  - apply (exec_twice (ByFile.validateCsvs t) w).
  - apply (exec_twice (ByFile.validateCsvFilenames t) w).
  - apply (exec_twice (ByEntity.validateCsvFilenames t) w).
  - apply (exec_twice (validateCsvHeaders t) w).
Qed.

(** * Further properties *)

(** ** Characters of a string *)

Lemma includes_hasChar (s : string) (c : ascii) :
  Js.includes s (String c EmptyString) = hasChar c s.
Proof.
  induction s as [|a r IH]; [reflexivity|].
  cbn [Js.includes hasChar String.prefix]. rewrite IH.
  destruct (ascii_dec c a) as [->|Hne].
  - rewrite Ascii.eqb_refl. now destruct r.
  - assert (E : Ascii.eqb a c = false) by (apply Ascii.eqb_neq; congruence).
    now rewrite E.
Qed.

Lemma hasChar_app (c : ascii) (a b : string) :
  hasChar c (a ++ b) = hasChar c a || hasChar c b.
Proof.
  induction a as [|x a IH]; [reflexivity|].
  simpl. rewrite IH. apply orb_assoc.
Qed.

Lemma split_no_sep (c : ascii) (s : string) :
  hasChar c s = false -> Js.split c s = [s].
Proof.
  induction s as [|a r IH]; [reflexivity|].
  simpl. intros H. apply orb_false_iff in H. destruct H as [Ha Hr].
  rewrite Ha, (IH Hr). reflexivity.
Qed.

Lemma split_app (c : ascii) (a b : string) :
  hasChar c a = false ->
  Js.split c (a ++ String c b) = a :: Js.split c b.
Proof.
  induction a as [|x a IH]; simpl.
  - intros _. now rewrite Ascii.eqb_refl.
  - intros H. apply orb_false_iff in H. destruct H as [Hx Ha].
    rewrite Hx, (IH Ha). reflexivity.
Qed.

Lemma split_pieces (c : ascii) (s x : string) :
  In x (Js.split c s) -> hasChar c x = false.
Proof.
  revert x. induction s as [|a r IH]; intros x.
  - simpl. intros [<-|[]]. reflexivity.
  - simpl. destruct (Ascii.eqb a c) eqn:E.
    + intros [<-|H]; [reflexivity | now apply IH].
    + destruct (Js.split c r) as [|h t] eqn:Es.
      * intros [<-|[]]. simpl. now rewrite E.
      * intros [<-|H].
        -- simpl. rewrite E. apply IH. now left.
        -- apply IH. now right.
Qed.

Lemma split_length (c : ascii) (s : string) :
  List.length (Js.split c s) =
  S (List.length (filter (Ascii.eqb c) (list_ascii_of_string s))).
Proof.
  induction s as [|a r IH]; [reflexivity|].
  simpl. rewrite (Ascii.eqb_sym c a).
  destruct (Ascii.eqb a c); simpl.
  - now rewrite IH.
  - destruct (Js.split c r); simpl in *; [discriminate | assumption].
Qed.

Lemma split_join (c : ascii) (names : list string) :
  names <> [] ->
  Forall (fun n => hasChar c n = false) names ->
  Js.split c (joinWith c names) = names.
Proof.
  unfold joinWith. induction names as [|n rest IH]; [congruence|].
  intros _ Hall. inversion Hall as [|? ? Hn Hrest]; subst.
  destruct rest as [|m rest].
  - simpl. now apply split_no_sep.
  - change (String.concat (String c EmptyString) (n :: m :: rest))
      with (n ++ String c (String.concat (String c EmptyString) (m :: rest)))%string.
    rewrite split_app by assumption. f_equal. apply IH; [discriminate | assumption].
Qed.

Lemma hasChar_join (c sep : ascii) (names : list string) :
  Ascii.eqb sep c = false ->
  Forall (fun n => hasChar c n = false) names ->
  hasChar c (joinWith sep names) = false.
Proof.
  unfold joinWith. intros Hsep. induction names as [|n rest IH]; [reflexivity|].
  intros Hall. inversion Hall as [|? ? Hn Hrest]; subst.
  destruct rest as [|m rest]; [exact Hn|].
  change (String.concat (String sep EmptyString) (n :: m :: rest))
    with (n ++ String sep (String.concat (String sep EmptyString) (m :: rest)))%string.
  rewrite hasChar_app, Hn. cbn [hasChar orb]. rewrite Hsep. now apply IH.
Qed.

(** ** The first line of a file *)

Lemma prefix_LF_hasChar (r : string) :
  String.prefix (String Js.LF EmptyString) r = true -> hasChar Js.LF r = true.
Proof.
  destruct r as [|a r]; [discriminate|]. cbn [String.prefix hasChar].
  destruct (ascii_dec Js.LF a) as [<-|]; [|discriminate].
  intros _. now rewrite Ascii.eqb_refl.
Qed.

Lemma firstLine_without_LF (s : string) :
  hasChar Js.LF s = false -> Js.firstLine s = s.
Proof.
  induction s as [|a r IH]; [reflexivity|].
  cbn [hasChar Js.firstLine]. intros H. apply orb_false_iff in H.
  destruct H as [Ha Hr]. rewrite Ha.
  destruct (String.prefix (String Js.LF EmptyString) r) eqn:E.
  - apply prefix_LF_hasChar in E. congruence.
  - rewrite andb_false_r. now rewrite IH.
Qed.

Lemma firstLine_app_LF (h rest : string) :
  hasChar Js.LF h = false -> hasChar Js.CR h = false ->
  Js.firstLine (h ++ String Js.LF rest) = h.
Proof.
  induction h as [|a r IH]; [reflexivity|].
  cbn [hasChar]. intros H1 H2.
  apply orb_false_iff in H1. destruct H1 as [Ha1 Hr1].
  apply orb_false_iff in H2. destruct H2 as [Ha2 Hr2].
  change ((String a r ++ String Js.LF rest)%string)
    with (String a (r ++ String Js.LF rest)).
  cbn [Js.firstLine]. rewrite Ha1, Ha2. cbn [andb]. now rewrite IH.
Qed.

Lemma firstLine_app_CRLF (h rest : string) :
  hasChar Js.LF h = false -> hasChar Js.CR h = false ->
  Js.firstLine (h ++ String Js.CR (String Js.LF rest)) = h.
Proof.
  induction h as [|a r IH].
  { intros _ _. cbn [String.append Js.firstLine].
    change (Ascii.eqb Js.CR Js.LF) with false.
    rewrite Ascii.eqb_refl.
    pose proof (prefix_app (String Js.LF EmptyString) rest) as E.
    cbn [String.append] in E. now rewrite E. }
  cbn [hasChar]. intros H1 H2.
  apply orb_false_iff in H1. destruct H1 as [Ha1 Hr1].
  apply orb_false_iff in H2. destruct H2 as [Ha2 Hr2].
  change ((String a r ++ String Js.CR (String Js.LF rest))%string)
    with (String a (r ++ String Js.CR (String Js.LF rest))).
  cbn [Js.firstLine]. rewrite Ha1, Ha2. cbn [andb]. now rewrite IH.
Qed.

Lemma firstLine_no_LF (s : string) : hasChar Js.LF (Js.firstLine s) = false.
Proof.
  induction s as [|a r IH]; [reflexivity|].
  cbn [Js.firstLine]. destruct (Ascii.eqb a Js.LF) eqn:E; [reflexivity|].
  destruct (Ascii.eqb a Js.CR && _); [reflexivity|].
  cbn [hasChar]. now rewrite E, IH.
Qed.

(** ** Trimming and quote stripping *)

Lemma trimStart_chars (c : ascii) (s : string) :
  hasChar c s = false -> hasChar c (Js.trimStart s) = false.
Proof.
  induction s as [|a r IH]; [reflexivity|].
  cbn [Js.trimStart]. destruct (Js.isWhite a); [|auto].
  cbn [hasChar]. intros H. apply orb_false_iff in H. now apply IH.
Qed.

Lemma trimEnd_chars (c : ascii) (s : string) :
  hasChar c s = false -> hasChar c (Js.trimEnd s) = false.
Proof.
  induction s as [|a r IH]; [reflexivity|].
  cbn [Js.trimEnd hasChar]. intros H. apply orb_false_iff in H.
  destruct H as [Ha Hr]. specialize (IH Hr).
  destruct (Js.trimEnd r) as [|x y].
  - destruct (Js.isWhite a); [reflexivity|]. cbn [hasChar]. now rewrite Ha.
  - cbn [hasChar] in *. now rewrite Ha.
Qed.

Lemma dropLastQuote_chars (c : ascii) (s : string) :
  hasChar c s = false -> hasChar c (Js.dropLastQuote s) = false.
Proof.
  induction s as [|a r IH]; [reflexivity|].
  cbn [hasChar]. intros H. apply orb_false_iff in H. destruct H as [Ha Hr].
  destruct r as [|b r'].
  - cbn [Js.dropLastQuote]. destruct (Ascii.eqb a Js.QUOTE); [reflexivity|].
    cbn [hasChar]. now rewrite Ha.
  - change (Js.dropLastQuote (String a (String b r')))
      with (String a (Js.dropLastQuote (String b r'))).
    cbn [hasChar]. rewrite Ha. now apply IH.
Qed.

Lemma stripQuotes_chars (c : ascii) (s : string) :
  hasChar c s = false -> hasChar c (Js.stripQuotes s) = false.
Proof.
  destruct s as [|a r]; [reflexivity|].
  unfold Js.stripQuotes. destruct (Ascii.eqb a Js.QUOTE).
  - cbn [hasChar]. intros H. apply orb_false_iff in H.
    now apply dropLastQuote_chars.
  - apply dropLastQuote_chars.
Qed.

Lemma cell_chars (c : ascii) (s : string) :
  hasChar c s = false -> hasChar c (Js.stripQuotes (Js.trim s)) = false.
Proof.
  intros H. unfold Js.trim.
  now apply stripQuotes_chars, trimEnd_chars, trimStart_chars.
Qed.

Lemma trimEnd_snoc (s : string) (c : ascii) :
  Js.isWhite c = false ->
  Js.trimEnd (s ++ String c EmptyString) = (s ++ String c EmptyString)%string.
Proof.
  intros Hc. induction s as [|a r IH].
  - cbn [String.append Js.trimEnd]. now rewrite Hc.
  - change ((String a r ++ String c EmptyString)%string)
      with (String a (r ++ String c EmptyString)).
    cbn [Js.trimEnd]. rewrite IH.
    now destruct r.
Qed.

Lemma trim_quoted (n : string) : Js.trim (quoted n) = quoted n.
Proof.
  unfold Js.trim, quoted. cbn [Js.trimStart].
  change (Js.isWhite Js.QUOTE) with false. cbv iota.
  change (String Js.QUOTE (n ++ String Js.QUOTE EmptyString))
    with ((String Js.QUOTE n ++ String Js.QUOTE EmptyString)%string).
  now apply trimEnd_snoc.
Qed.

Lemma dropLastQuote_snoc (n : string) :
  Js.dropLastQuote (n ++ String Js.QUOTE EmptyString) = n.
Proof.
  induction n as [|a r IH]; [reflexivity|].
  change ((String a r ++ String Js.QUOTE EmptyString)%string)
    with (String a (r ++ String Js.QUOTE EmptyString)).
  destruct r as [|b r'].
  - reflexivity.
  - change (Js.dropLastQuote (String a (String b r' ++ String Js.QUOTE EmptyString)))
      with (String a (Js.dropLastQuote (String b r' ++ String Js.QUOTE EmptyString))).
    now rewrite IH.
Qed.

Lemma stripQuotes_quoted (n : string) : Js.stripQuotes (quoted n) = n.
Proof.
  unfold quoted, Js.stripQuotes. rewrite Ascii.eqb_refl. apply dropLastQuote_snoc.
Qed.

Lemma isColumnName_spec (n : string) :
  isColumnName n = true ->
  n <> EmptyString /\ hasChar ","%char n = false /\ hasChar ";"%char n = false
  /\ hasChar Js.LF n = false /\ hasChar Js.CR n = false
  /\ Js.trim n = n /\ Js.stripQuotes n = n.
Proof.
  unfold isColumnName. rewrite !andb_true_iff, !negb_true_iff, !String.eqb_eq.
  intros [[[[[[H1 H2] H3] H4] H5] H6] H7].
  apply String.eqb_neq in H1. tauto.
Qed.

(** ** Reading a header row back *)

Lemma hasChar_quoted (c : ascii) (n : string) :
  Ascii.eqb Js.QUOTE c = false -> hasChar c (quoted n) = hasChar c n.
Proof.
  intros H. unfold quoted. cbn [hasChar]. rewrite H, hasChar_app.
  cbn [hasChar orb]. rewrite H. now rewrite !orb_false_r.
Qed.

Lemma cell_of_encoded (q : bool) (n : string) :
  isColumnName n = true ->
  Js.stripQuotes (Js.trim ((if q then quoted else fun x => x) n)) = n.
Proof.
  intros H. apply isColumnName_spec in H.
  destruct H as (_ & _ & _ & _ & _ & Ht & Hq).
  destruct q.
  - rewrite trim_quoted. apply stripQuotes_quoted.
  - now rewrite Ht, Hq.
Qed.

Lemma encoded_chars (q : bool) (c : ascii) (names : list string) :
  Ascii.eqb Js.QUOTE c = false ->
  Forall (fun n => hasChar c n = false) names ->
  Forall (fun n => hasChar c n = false) (map (if q then quoted else fun x => x) names).
Proof.
  intros Hq Hall. apply Forall_map. eapply Forall_impl; [|exact Hall].
  intros n Hn. destruct q; [now rewrite hasChar_quoted | assumption].
Qed.

Lemma join_not_empty (sep : ascii) (x : string) (rest : list string) :
  x <> EmptyString -> joinWith sep (x :: rest) <> EmptyString.
Proof.
  unfold joinWith. intros Hx. destruct rest as [|y rest]; [exact Hx|].
  change (String.concat (String sep EmptyString) (x :: y :: rest))
    with (x ++ String sep (String.concat (String sep EmptyString) (y :: rest)))%string.
  destruct x; [congruence | discriminate].
Qed.

(** X1: a header row written from column names, joined by commas or by
    semicolons, each name bare or between double quotes, is read back by
    [getCsvHeaders] as exactly those names. *)
Theorem header_row_round_trip :
  forall (fs : Fs) (p : string) (names : list string) (sep : ascii) (q : bool),
    sep = ","%char \/ sep = ";"%char ->
    names <> [] ->
    Forall (fun n => isColumnName n = true) names ->
    readFileSync fs p =
      Some (joinWith sep (map (if q then quoted else fun x => x) names)) ->
    getCsvHeaders fs p = names.
Proof.
  intros fs p names sep q Hsep Hne Hall Hread.
  set (enc := if q then quoted else fun x : string => x) in *.
  assert (Hcomma : Forall (fun n => hasChar ","%char n = false) names).
  { eapply Forall_impl; [|exact Hall]. intros n Hn.
    now apply isColumnName_spec in Hn. }
  assert (Hsemi : Forall (fun n => hasChar ";"%char n = false) names).
  { eapply Forall_impl; [|exact Hall]. intros n Hn.
    now apply isColumnName_spec in Hn. }
  assert (Hlf : Forall (fun n => hasChar Js.LF n = false) names).
  { eapply Forall_impl; [|exact Hall]. intros n Hn.
    now apply isColumnName_spec in Hn. }
  assert (Hcells : map (fun h => Js.stripQuotes (Js.trim h)) (map enc names) = names).
  { rewrite map_map. clear -Hall. induction Hall as [|n l Hn _ IH]; [reflexivity|].
    simpl. rewrite IH. f_equal. now apply cell_of_encoded. }
  assert (Hline : Js.firstLine (joinWith sep (map enc names))
                  = joinWith sep (map enc names)).
  { apply firstLine_without_LF. apply hasChar_join.
    - destruct Hsep as [-> | ->]; reflexivity.
    - now apply encoded_chars. }
  assert (Hnonempty : (joinWith sep (map enc names) =? EmptyString) = false).
  { apply String.eqb_neq. destruct names as [|n rest]; [congruence|].
    cbn [map]. apply join_not_empty.
    inversion Hall as [|? ? Hn _]; subst. apply isColumnName_spec in Hn.
    subst enc. destruct q; [discriminate | tauto]. }
  unfold getCsvHeaders. rewrite Hread. cbv zeta. rewrite Hline, Hnonempty.
  rewrite includes_hasChar. unfold splitHeaderLine.
  destruct Hsep as [-> | ->].
  - rewrite hasChar_join; [|reflexivity | now apply encoded_chars].
    rewrite split_join; [exact Hcells | | now apply encoded_chars].
    destruct names; [congruence | discriminate].
  - destruct names as [|n [|m rest]]; [congruence| |].
    + cbn [map joinWith String.concat] in *.
      inversion Hall as [|? ? Hn _]; subst.
      assert (H1 : hasChar ";"%char (enc n) = false).
      { inversion Hsemi; subst. subst enc.
        destruct q; [now rewrite hasChar_quoted | assumption]. }
      assert (H2 : hasChar ","%char (enc n) = false).
      { inversion Hcomma; subst. subst enc.
        destruct q; [now rewrite hasChar_quoted | assumption]. }
      rewrite H1, split_no_sep by assumption. exact Hcells.
    + assert (Hhas : hasChar ";"%char (joinWith ";"%char (map enc (n :: m :: rest))) = true).
      { cbn [map]. unfold joinWith.
        change (String.concat (String ";"%char EmptyString) (enc n :: enc m :: map enc rest))
          with (enc n ++ String ";"%char
                  (String.concat (String ";"%char EmptyString) (enc m :: map enc rest)))%string.
        rewrite hasChar_app. cbn [hasChar]. rewrite Ascii.eqb_refl.
        now rewrite orb_true_r. }
      rewrite Hhas.
      rewrite split_join; [exact Hcells | discriminate | now apply encoded_chars].
Qed.

Lemma header_row_round_trip_witness :
  getCsvHeaders
    {| existsSync := fun _ => true;
       readdirSync := fun _ => Some [];
       readFileSync := fun _ =>
         Some (joinWith ";"%char (map quoted ["ID"; "line_no"; "customer_ID"])) |}
    "db/data/sales-Invoice.csv"
  = ["ID"; "line_no"; "customer_ID"].
Proof.
  apply (header_row_round_trip _ "db/data/sales-Invoice.csv"
           ["ID"; "line_no"; "customer_ID"] ";"%char true).
  - now right.
  - discriminate.
  - repeat constructor.
  - reflexivity.
Defined.

(** X2: only the first line of a file counts.  A file whose first line
    has no carriage return in it and ends in a line feed, or in a carriage
    return and a line feed, has the headers of the file that holds that
    line alone, whatever rows follow. *)
Theorem headers_ignore_data_rows :
  forall (fs fs' : Fs) (p p' : string) (h rest : string) (crlf : bool),
    hasChar Js.LF h = false -> hasChar Js.CR h = false ->
    readFileSync fs p =
      Some (h ++ (if crlf then String Js.CR (String Js.LF rest)
                  else String Js.LF rest))%string ->
    readFileSync fs' p' = Some h ->
    getCsvHeaders fs p = getCsvHeaders fs' p'.
Proof.
  intros fs fs' p p' h rest crlf Hlf Hcr Hread Hread'.
  unfold getCsvHeaders. rewrite Hread, Hread'.
  rewrite (firstLine_without_LF h Hlf).
  destruct crlf.
  - now rewrite firstLine_app_CRLF.
  - now rewrite firstLine_app_LF.
Qed.

Lemma headers_ignore_data_rows_witness :
  getCsvHeaders (Sample.orderDisk "ID,status") Sample.orderPath =
  getCsvHeaders
    {| existsSync := fun _ => true;
       readdirSync := fun _ => Some [];
       readFileSync := fun _ => Some "ID,status" |}
    Sample.orderPath.
Proof.
  apply (headers_ignore_data_rows (Sample.orderDisk "ID,status") _
           Sample.orderPath Sample.orderPath "ID,status" "1,open" false);
    reflexivity.
Defined.

(** X3: quotes do not protect a separator.  When the first line is not
    empty, [getCsvHeaders] returns one cell more than the line has
    separators (semicolons if it has any, commas otherwise), and no cell
    holds that separator or a line feed. *)
Theorem header_cells_split_at_every_separator :
  forall (fs : Fs) (p content : string),
    readFileSync fs p = Some content ->
    Js.firstLine content <> EmptyString ->
    let line := Js.firstLine content in
    let sep := if hasChar ";"%char line then ";"%char else ","%char in
    List.length (getCsvHeaders fs p) =
      S (List.length (filter (Ascii.eqb sep) (list_ascii_of_string line)))
    /\ (forall h, In h (getCsvHeaders fs p) ->
          hasChar sep h = false /\ hasChar Js.LF h = false).
Proof.
  intros fs p content Hread Hne line sep.
  assert (Hget : getCsvHeaders fs p = splitHeaderLine sep line).
  { unfold getCsvHeaders. rewrite Hread. cbv zeta. fold line.
    apply String.eqb_neq in Hne. fold line in Hne. rewrite Hne.
    rewrite includes_hasChar. subst sep. now destruct (hasChar ";"%char line). }
  rewrite Hget. unfold splitHeaderLine. split.
  - rewrite length_map. apply split_length.
  - intros h Hin. apply in_map_iff in Hin. destruct Hin as [x [<- Hx]].
    split.
    + apply cell_chars. eapply split_pieces. eassumption.
    + apply cell_chars.
      assert (Hline : hasChar Js.LF line = false) by apply firstLine_no_LF.
      clear -Hx Hline. revert x Hx. generalize sep. intros c.
      induction line as [|a r IH]; intros x.
      * simpl. intros [<-|[]]. reflexivity.
      * cbn [hasChar] in Hline. apply orb_false_iff in Hline.
        destruct Hline as [Ha Hr]. simpl.
        destruct (Ascii.eqb a c).
        -- intros [<-|H]; [reflexivity | now apply IH].
        -- destruct (Js.split c r) as [|y t] eqn:Es.
           ++ intros [<-|[]]. simpl. now rewrite Ha.
           ++ intros [<-|H].
              ** simpl. rewrite Ha. apply IH; [assumption | now left].
              ** apply IH; [assumption | now right].
Qed.

Lemma header_cells_split_at_every_separator_witness :
  let fs := {| existsSync := fun _ => true;
               readdirSync := fun _ => Some [];
               readFileSync := fun _ => Some "ID;name,first" |} in
  List.length (getCsvHeaders fs "f.csv") = 2
  /\ (forall h, In h (getCsvHeaders fs "f.csv") ->
        hasChar ";"%char h = false /\ hasChar Js.LF h = false).
Proof.
  apply (header_cells_split_at_every_separator
           {| existsSync := fun _ => true;
              readdirSync := fun _ => Some [];
              readFileSync := fun _ => Some "ID;name,first" |}
           "f.csv" "ID;name,first").
  - reflexivity.
  - discriminate.
Defined.

(** ** The verdict on a header row *)

Lemma reconcile_result (csn : Csn) (def : Definition_) (n p : string)
    (headers : list string) (t : nat) :
  snd (reconcile csn def n p headers t) =
  {| hasErrors := reconcileErrors csn def headers;
     hasWarnings := reconcileWarnings csn def headers t |}.
Proof.
  unfold reconcile, reconcileErrors, reconcileWarnings.
  destruct (extraColumns def (expectedColumns csn def) headers);
    destruct (missingKeyColumns def (missingColumns (expectedColumns csn def) headers));
    destruct (missingNonKeyColumns _ _); destruct (1 <=? t)%nat; reflexivity.
Qed.

Lemma arrayIncludes_permutation (l l' : list string) (x : string) :
  Permutation l l' -> Js.arrayIncludes l x = Js.arrayIncludes l' x.
Proof.
  intros Hp. destruct (Js.arrayIncludes l' x) eqn:E.
  - apply arrayIncludes_In. apply arrayIncludes_In in E.
    eapply Permutation_in; [symmetry|]; eassumption.
  - apply arrayIncludes_not_In. apply arrayIncludes_not_In in E.
    intros H. apply E. eapply Permutation_in; eassumption.
Qed.

(** X4: the order of the columns in a header row does not matter.  Two
    header rows with the same cells in another order miss the same
    columns, have the same extra columns up to order, and get the same
    error and warning flags. *)
Theorem column_order_is_irrelevant :
  forall (csn : Csn) (def : Definition_) (n p : string)
         (headers headers' : list string) (t : nat),
    Permutation headers headers' ->
    let expected := expectedColumns csn def in
    missingColumns expected headers = missingColumns expected headers'
    /\ Permutation (extraColumns def expected headers)
                   (extraColumns def expected headers')
    /\ snd (reconcile csn def n p headers t) = snd (reconcile csn def n p headers' t).
Proof.
  intros csn def n p headers headers' t Hp expected.
  assert (Hmiss : missingColumns expected headers = missingColumns expected headers').
  { unfold missingColumns. apply filter_ext. intros e.
    now rewrite (arrayIncludes_permutation _ _ e Hp). }
  assert (Hextra : Permutation (extraColumns def expected headers)
                               (extraColumns def expected headers')).
  { unfold extraColumns. now apply filter_permutation. }
  split; [assumption|]. split; [assumption|].
  rewrite !reconcile_result. unfold reconcileErrors, reconcileWarnings.
  fold expected. rewrite Hmiss. f_equal.
  destruct (extraColumns def expected headers) as [|x xs].
  - apply Permutation_nil in Hextra. now rewrite Hextra.
  - destruct (extraColumns def expected headers') as [|y ys]; [|reflexivity].
    symmetry in Hextra. apply Permutation_nil in Hextra. discriminate.
Qed.

Lemma column_order_is_irrelevant_witness :
  let expected := expectedColumns Sample.salesModel Sample.order in
  missingColumns expected ["status"; "extra"; "ID"] =
  missingColumns expected ["ID"; "status"; "extra"]
  /\ Permutation (extraColumns Sample.order expected ["status"; "extra"; "ID"])
                 (extraColumns Sample.order expected ["ID"; "status"; "extra"])
  /\ snd (reconcile Sample.salesModel Sample.order "sales.Order" Sample.orderPath
            ["status"; "extra"; "ID"] 1)
     = snd (reconcile Sample.salesModel Sample.order "sales.Order" Sample.orderPath
              ["ID"; "status"; "extra"] 1).
Proof.
  apply (column_order_is_irrelevant Sample.salesModel Sample.order "sales.Order"
           Sample.orderPath ["status"; "extra"; "ID"] ["ID"; "status"; "extra"] 1).
  apply Permutation_sym.
  apply (Permutation_cons_app ["status"; "extra"] [] "ID"). simpl. reflexivity.
Defined.

Lemma missingNonKey_nil (missing : list string) :
  missingNonKeyColumns missing [] = missing.
Proof.
  unfold missingNonKeyColumns. induction missing as [|e l IH]; [reflexivity|].
  cbn [filter]. unfold Js.arrayIncludes at 1. cbn [existsb negb]. now rewrite IH.
Qed.

(** X5: from trace level 1 on, a header row gets neither flag exactly
    when it carries every expected column and no extra column: a missing
    column is never passed over in silence. *)
Theorem clean_header_row_iff :
  forall (csn : Csn) (def : Definition_) (n p : string) (headers : list string)
         (t : nat),
    1 <= t ->
    let expected := expectedColumns csn def in
    let r := snd (reconcile csn def n p headers t) in
    (hasErrors r = false /\ hasWarnings r = false)
    <-> ((forall e, In e expected -> In e headers)
         /\ extraColumns def expected headers = []).
Proof.
  intros csn def n p headers t Ht expected r. subst r.
  rewrite reconcile_result. cbn [hasErrors hasWarnings].
  unfold reconcileErrors, reconcileWarnings. fold expected.
  apply Nat.leb_le in Ht. rewrite Ht.
  split.
  - intros [He Hw].
    destruct (extraColumns def expected headers) as [|x xs]; [|discriminate].
    destruct (missingKeyColumns def (missingColumns expected headers)) as [|k ks];
      [|discriminate].
    rewrite missingNonKey_nil in Hw.
    destruct (missingColumns expected headers) as [|m ms] eqn:Em; [|discriminate].
    split; [|reflexivity].
    intros e Hin. destruct (Js.arrayIncludes headers e) eqn:E.
    + now apply arrayIncludes_In.
    + apply arrayIncludes_not_In in E.
      assert (Hm : In e (missingColumns expected headers))
        by (apply missingColumns_In; now split).
      rewrite Em in Hm. destruct Hm.
  - intros [Hall Hextra]. rewrite Hextra.
    assert (Em : missingColumns expected headers = []).
    { destruct (missingColumns expected headers) as [|m ms] eqn:Em; [reflexivity|].
      assert (Hm : In m (missingColumns expected headers)) by (rewrite Em; now left).
      apply missingColumns_In in Hm. destruct Hm as [Hin Hout].
      exfalso. apply Hout. now apply Hall. }
    rewrite Em. now split.
Qed.

Lemma clean_header_row_iff_witness :
  let expected := expectedColumns Sample.billingModel Sample.invoice in
  let r := snd (reconcile Sample.billingModel Sample.invoice "sales.Invoice"
                  "db/data/sales-Invoice.csv" ["ID"; "line_no"] 1) in
  (hasErrors r = false /\ hasWarnings r = false)
  <-> ((forall e, In e expected -> In e ["ID"; "line_no"])
       /\ extraColumns Sample.invoice expected ["ID"; "line_no"] = []).
Proof.
  apply (clean_header_row_iff Sample.billingModel Sample.invoice "sales.Invoice"
           "db/data/sales-Invoice.csv" ["ID"; "line_no"] 1).
  lia.
Defined.

(** X6: a column that is not a managed field, has no underscore in its
    name and is the name of no field of the entity in any letter case is
    listed as an extra column and raises the error flag at every trace
    level; the record of the extra columns is written. *)
Theorem unknown_column_is_error :
  forall (csn : Csn) (def : Definition_) (n p : string) (headers : list string)
         (t : nat) (h : string),
    In h headers ->
    ~ In h managedFields ->
    hasChar "_"%char h = false ->
    (forall name, In name (Js.keys (elements def)) ->
                  Js.toLowerCase name <> Js.toLowerCase h) ->
    let extra := extraColumns def (expectedColumns csn def) headers in
    In h extra
    /\ hasErrors (snd (reconcile csn def n p headers t)) = true
    /\ In (HeaderErrorExtra n p extra) (fst (reconcile csn def n p headers t)).
Proof.
  intros csn def n p headers t h Hin Hman Hus Hcase extra.
  assert (Hextra : In h extra).
  { subst extra. unfold extraColumns. apply filter_In. split; [assumption|].
    unfold isExtra.
    apply arrayIncludes_not_In in Hman. rewrite Hman.
    assert (Hexp : Js.arrayIncludes (expectedColumns csn def) h = false).
    { apply arrayIncludes_not_In. intros H.
      destruct (expectedColumns_cases _ _ _ H) as [[Hk _]|Hu].
      - now apply (Hcase h Hk).
      - rewrite includes_hasChar in Hu. congruence. }
    rewrite Hexp. unfold isForeignKeyPattern. rewrite includes_hasChar, Hus.
    cbn [andb]. unfold isCaseMismatch.
    destruct (existsb _ (Js.keys (elements def))) eqn:E; [|reflexivity].
    apply existsb_exists in E. destruct E as [name [Hname Heq]].
    apply String.eqb_eq in Heq. exfalso. now apply (Hcase name Hname). }
  split; [assumption|].
  fold extra in Hextra. rewrite reconcile_hasErrors.
  unfold reconcileErrors, reconcile. fold extra.
  destruct extra as [|x xs]; [destruct Hextra|].
  split; [reflexivity|].
  destruct (missingKeyColumns def _); destruct (missingNonKeyColumns _ _);
    destruct t as [|[|t]]; simpl; auto.
Qed.

Lemma unknown_column_is_error_witness :
  let extra := extraColumns Sample.order
                 (expectedColumns Sample.salesModel Sample.order)
                 ["ID"; "status"; "randomCol"] in
  In "randomCol" extra
  /\ hasErrors (snd (reconcile Sample.salesModel Sample.order "sales.Order"
                       Sample.orderPath ["ID"; "status"; "randomCol"] 0)) = true
  /\ In (HeaderErrorExtra "sales.Order" Sample.orderPath extra)
        (fst (reconcile Sample.salesModel Sample.order "sales.Order"
                Sample.orderPath ["ID"; "status"; "randomCol"] 0)).
Proof.
  apply (unknown_column_is_error Sample.salesModel Sample.order "sales.Order"
           Sample.orderPath ["ID"; "status"; "randomCol"] 0 "randomCol").
  - simpl. tauto.
  - simpl. intuition discriminate.
  - reflexivity.
  - simpl. intros name [<-|[<-|[]]]; vm_compute; discriminate.
Defined.

Lemma baseNameOf_app (base suffix : string) :
  hasChar "_"%char base = false ->
  baseNameOf (base ++ "_" ++ suffix) = base.
Proof.
  intros H. unfold baseNameOf.
  change ((base ++ "_" ++ suffix)%string) with ((base ++ String "_"%char suffix)%string).
  now rewrite split_app.
Qed.

(** X7: a column named after a field, an underscore and any suffix is
    never an extra column when the field (whose own name has no
    underscore) is an association or a composition that is not to-many,
    whether or not the target has such a key, and for a composition too,
    which contributes no expected column. *)
Theorem foreign_key_like_column_is_not_extra :
  forall (csn : Csn) (def : Definition_) (headers : list string)
         (base suffix : string) (el : Element),
    hasChar "_"%char base = false ->
    Js.get (elements def) base = Some el ->
    isAssociation el || isComposition el = true ->
    toMany el = false ->
    ~ In (base ++ "_" ++ suffix)%string
         (extraColumns def (expectedColumns csn def) headers).
Proof.
  intros csn def headers base suffix el Hbase Hget Hkind Hmany.
  unfold extraColumns. rewrite filter_In. intros [_ H].
  unfold isExtra in H.
  destruct (Js.arrayIncludes managedFields _); [discriminate|].
  destruct (Js.arrayIncludes (expectedColumns csn def) _); [discriminate|].
  assert (Hfk : isForeignKeyPattern def (base ++ "_" ++ suffix) = true).
  { unfold isForeignKeyPattern. rewrite includes_underscore.
    rewrite baseNameOf_app by assumption. rewrite Hget, Hkind.
    unfold toMany in Hmany. destruct (cardinality el) as [[m]|]; [|reflexivity].
    cbn [max]. now destruct m. }
  rewrite Hfk in H. discriminate.
Qed.

Lemma foreign_key_like_column_is_not_extra_witness :
  ~ In "customer_code"
       (extraColumns Sample.invoice
          (expectedColumns Sample.billingModel Sample.invoice)
          ["ID"; "customer_code"]).
Proof.
  apply (foreign_key_like_column_is_not_extra Sample.billingModel Sample.invoice
           ["ID"; "customer_code"] "customer" "code" (Sample.toOne "sales.Customer"));
    reflexivity.
Defined.

(** X8: letter case matters for an expected column and not for an extra
    one.  When the header row spells a plain field of the entity in
    another letter case only, the field is reported missing and the cell
    that spells it is not reported as extra; for a key field without
    underscore in its name the error flag is raised. *)
Theorem case_only_mismatch_is_missing_not_extra :
  forall (csn : Csn) (def : Definition_) (headers : list string)
         (name h : string) (el : Element),
    Js.get (elements def) name = Some el ->
    virtual el = false -> elementSkip el = false ->
    isAssociation el = false -> isComposition el = false ->
    ~ In name managedFields ->
    Js.toLowerCase h = Js.toLowerCase name ->
    ~ In name headers ->
    let expected := expectedColumns csn def in
    In name (missingColumns expected headers)
    /\ ~ In h (extraColumns def expected headers)
    /\ (key el = true -> hasChar "_"%char name = false ->
        forall n p t, hasErrors (snd (reconcile csn def n p headers t)) = true).
Proof.
  intros csn def headers name h el Hget Hv Hs Ha Hc Hman Hlow Habs expected.
  assert (Hmiss : In name (missingColumns expected headers)).
  { apply missingColumns_In. split; [|assumption].
    apply scalar_expected with (el := el); try assumption.
    now apply arrayIncludes_not_In. }
  split; [assumption|]. split.
  - unfold extraColumns. rewrite filter_In. intros [_ H]. unfold isExtra in H.
    destruct (Js.arrayIncludes managedFields h); [discriminate|].
    destruct (Js.arrayIncludes expected h); [discriminate|].
    destruct (isForeignKeyPattern def h); [discriminate|].
    assert (E : isCaseMismatch def h = true).
    { unfold isCaseMismatch. apply existsb_exists. exists name.
      split; [eapply get_Some_In_keys; eassumption|].
      apply String.eqb_eq. now symmetry. }
    rewrite E in H. discriminate.
  - intros Hkey Hus n p t. rewrite reconcile_hasErrors. unfold reconcileErrors.
    fold expected.
    assert (Hk : In name (missingKeyColumns def (missingColumns expected headers))).
    { unfold missingKeyColumns. apply filter_In. split; [assumption|].
      unfold isMissingKey. rewrite includes_hasChar, Hus, Hget. exact Hkey. }
    destruct (missingKeyColumns def (missingColumns expected headers));
      [destruct Hk|].
    now destruct (extraColumns def expected headers).
Qed.

Lemma case_only_mismatch_is_missing_not_extra_witness :
  let expected := expectedColumns Sample.salesModel Sample.order in
  In "ID" (missingColumns expected ["Id"; "status"])
  /\ ~ In "Id" (extraColumns Sample.order expected ["Id"; "status"])
  /\ (key (Sample.scalar true) = true -> hasChar "_"%char "ID" = false ->
      forall n p t,
        hasErrors (snd (reconcile Sample.salesModel Sample.order n p
                          ["Id"; "status"] t)) = true).
Proof.
  apply (case_only_mismatch_is_missing_not_extra Sample.salesModel Sample.order
           ["Id"; "status"] "ID" "Id" (Sample.scalar true)); try reflexivity.
  - simpl. intuition discriminate.
  - simpl. intuition discriminate.
Defined.

(** ** The trace level *)

Lemma reconcile_error_events (csn : Csn) (def : Definition_) (n p : string)
    (headers : list string) (t t' : nat) :
  filter isErrorEvent (fst (reconcile csn def n p headers t)) =
  filter isErrorEvent (fst (reconcile csn def n p headers t')).
Proof.
  unfold reconcile.
  destruct (extraColumns def (expectedColumns csn def) headers);
    destruct (missingKeyColumns def (missingColumns (expectedColumns csn def) headers));
    destruct (missingNonKeyColumns _ _);
    destruct t as [|[|t]]; destruct t' as [|[|t']]; reflexivity.
Qed.

Lemma validateHeaderRow_error_events (fs : Fs) (p n : string) (csn : Csn) (t t' : nat) :
  filter isErrorEvent (fst (validateHeaderRow fs p n csn t)) =
  filter isErrorEvent (fst (validateHeaderRow fs p n csn t')).
Proof.
  unfold validateHeaderRow.
  destruct (Js.get (definitions csn) n) as [def|]; [|reflexivity].
  pose proof (reconcile_error_events csn def n p (getCsvHeaders fs p) t t') as E.
  destruct (reconcile csn def n p (getCsvHeaders fs p) t);
    destruct (reconcile csn def n p (getCsvHeaders fs p) t'). exact E.
Qed.

Lemma headersStep_sameErrors (fs : Fs) (csn : Csn) (t t' : nat)
    (diskFiles : list DiskFile) (st st' : Counters) (name : string) :
  sameErrors st st' ->
  sameErrors (headersStep fs csn t diskFiles st name)
             (headersStep fs csn t' diskFiles st' name).
Proof.
  intros [He Hc]. split; [now apply headersStep_errors|].
  unfold headersStep.
  destruct (findActual diskFiles (strictNameOf name)) as [f|]; [|exact Hc].
  pose proof (validateHeaderRow_error_events fs (pathJoin (folder f) (actualName f))
                name csn t t') as E.
  destruct (validateHeaderRow fs _ name csn t) as [o1 r1].
  destruct (validateHeaderRow fs _ name csn t') as [o2 r2].
  cbn [fst] in E.
  destruct (resultHasErrors r1); destruct (resultHasWarnings r1);
    destruct (resultHasErrors r2); destruct (resultHasWarnings r2);
    cbn [say addError addWarning console]; rewrite !filter_app; congruence.
Qed.

Lemma headersLoop_sameErrors (fs : Fs) (csn : Csn) (t t' : nat)
    (diskFiles : list DiskFile) (entities : list string) :
  forall st st',
    sameErrors st st' ->
    sameErrors (headersLoop fs csn t diskFiles entities st)
               (headersLoop fs csn t' diskFiles entities st').
Proof.
  unfold headersLoop. induction entities as [|e r IH]; intros st st' H; [exact H|].
  simpl. apply IH. now apply headersStep_sameErrors.
Qed.

Lemma summary_no_error_event (ph : Phase) (st : Counters) :
  filter isErrorEvent (summary ph st) = [].
Proof. unfold summary. now destruct (_ || _). Qed.

(** X9: the trace level never hides an error of the header validator.
    At every two trace levels a run writes the same error records, in the
    same order, and ends with the same error counter. *)
Theorem header_errors_at_every_traceLevel :
  forall (t t' : nat) (csn : Csn) (fs : Fs),
    filter isErrorEvent (fst (validateCsvHeaders t csn fs)) =
    filter isErrorEvent (fst (validateCsvHeaders t' csn fs))
    /\ errorCount (snd (validateCsvHeaders t csn fs)) =
       errorCount (snd (validateCsvHeaders t' csn fs)).
Proof.
  intros t t' csn fs. rewrite !validateCsvHeaders_run.
  destruct (gatherDiskFiles fs dataFolders []) as [[|f r]|]; try (split; reflexivity).
  cbv zeta. cbn [fst snd errorCount].
  destruct (headersLoop_sameErrors fs csn t t' (f :: r) (entitiesOf csn) start start)
    as [He Hc]; [now split|].
  split; [|now rewrite He].
  cbn [filter isErrorEvent stream]. rewrite !filter_app, !summary_no_error_event.
  now rewrite Hc.
Qed.

Lemma fileStep_sameFindings (t t' : nat) (lookup : Js.Obj string)
    (st st' : Counters) (f : DiskFile) :
  sameFindings st st' ->
  match ByFile.fileStep t lookup st f, ByFile.fileStep t' lookup st' f with
  | Some a, Some b => sameFindings a b
  | None, None => True
  | _, _ => False
  end.
Proof.
  intros [[He Hc] Hw]. unfold ByFile.fileStep.
  destruct (Js.includes _ "."); [|destruct (ByFile.correctEntityNameOf _ _);
    [destruct (_ =? _); [|destruct (negb _)]| |exact I]];
    unfold sameFindings, sameErrors;
    cbn [say addError addWarning console errors warnings];
    rewrite !filter_app, He, Hc, Hw;
    destruct t as [|[|t]]; destruct t' as [|[|t']]; cbn; rewrite ?app_nil_r; auto.
Qed.

(** The loop over the files ends the same way at every trace level. *)
Lemma fileLoop_sameFindings (t t' : nat) (lookup : Js.Obj string)
    (diskFiles : list DiskFile) :
  forall st st',
    sameFindings st st' ->
    match ByFile.fileLoop t lookup diskFiles st,
          ByFile.fileLoop t' lookup diskFiles st' with
    | ByFile.Completed a, ByFile.Completed b => sameFindings a b
    | ByFile.TypeError a, ByFile.TypeError b => sameFindings a b
    | _, _ => False
    end.
Proof.
  induction diskFiles as [|f r IH]; intros st st' H; [exact H|].
  cbn [ByFile.fileLoop].
  pose proof (fileStep_sameFindings t t' lookup st st' f H) as Hstep.
  destruct (ByFile.fileStep t lookup st f) as [a|];
    destruct (ByFile.fileStep t' lookup st' f) as [b|]; try contradiction.
  - now apply IH.
  - exact H.
Qed.

Lemma missingStep_sameFindings (t t' : nat) (diskFiles : list DiskFile)
    (st st' : Counters) (n : string) :
  sameFindings st st' ->
  sameFindings (ByFile.missingStep t diskFiles st n)
               (ByFile.missingStep t' diskFiles st' n).
Proof.
  intros [[He Hc] Hw]. unfold ByFile.missingStep, sameFindings, sameErrors.
  destruct (negb _); destruct t as [|[|t]]; destruct t' as [|[|t']];
    cbn [andb Nat.leb say console errors warnings];
    rewrite ?filter_app, ?He, ?Hc, ?Hw; cbn; rewrite ?app_nil_r; auto.
Qed.

Lemma entityStep_sameFindings (t t' : nat) (diskFiles : list DiskFile)
    (st st' : Counters) (n : string) :
  sameFindings st st' ->
  sameFindings (ByEntity.entityStep t diskFiles st n)
               (ByEntity.entityStep t' diskFiles st' n).
Proof.
  intros [[He Hc] Hw]. unfold ByEntity.entityStep, sameFindings, sameErrors.
  destruct (findLower diskFiles (Js.toLowerCase (strictNameOf n)));
    destruct (findActual diskFiles (strictNameOf n));
    destruct (findLower diskFiles (Js.toLowerCase (Js.afterLastDot n ++ ".csv")));
    cbn [say addError addWarning console errors warnings];
    rewrite ?filter_app, ?He, ?Hc, ?Hw;
    destruct t as [|[|t]]; destruct t' as [|[|t']]; cbn; rewrite ?app_nil_r; auto.
Qed.

Lemma fold_sameFindings {A} (step step' : Counters -> A -> Counters) (l : list A) :
  (forall st st' a, sameFindings st st' -> sameFindings (step st a) (step' st' a)) ->
  forall st st',
    sameFindings st st' -> sameFindings (fold_left step l st) (fold_left step' l st').
Proof.
  intros Hstep. induction l as [|a l IH]; intros st st' H; [exact H|].
  simpl. apply IH. now apply Hstep.
Qed.

(** X10: the filename validator counts the same at every trace level.  In
    both copies a run returns the same error and warning counters and
    writes the same error records at every two trace levels; the level
    only decides which warnings and notes are written. *)
Theorem filename_findings_at_every_traceLevel :
  forall (t t' : nat) (csn : Csn) (fs : Fs),
    (snd (ByFile.validateCsvFilenames t csn fs) =
     snd (ByFile.validateCsvFilenames t' csn fs)
     /\ filter isErrorEvent (fst (ByFile.validateCsvFilenames t csn fs)) =
        filter isErrorEvent (fst (ByFile.validateCsvFilenames t' csn fs)))
    /\ (snd (ByEntity.validateCsvFilenames t csn fs) =
        snd (ByEntity.validateCsvFilenames t' csn fs)
        /\ filter isErrorEvent (fst (ByEntity.validateCsvFilenames t csn fs)) =
           filter isErrorEvent (fst (ByEntity.validateCsvFilenames t' csn fs))).
Proof.
  intros t t' csn fs.
  assert (Hstart : sameFindings start start) by (repeat split).
  split.
  - rewrite !validateCsvFilenames_run.
    destruct (gatherDiskFiles fs dataFolders []) as [[|f r]|]; try (split; reflexivity).
    pose proof (fileLoop_sameFindings t t' (ByFile.entityLookupOf (entitiesOf csn))
                  (f :: r) start start Hstart) as Hloop.
    destruct (ByFile.fileLoop t _ _ _) as [a|a];
      destruct (ByFile.fileLoop t' _ _ _) as [b|b]; try contradiction.
    + cbv zeta. cbn [fst snd].
      assert (H : sameFindings
                    (fold_left (ByFile.missingStep t (f :: r)) (entitiesOf csn) a)
                    (fold_left (ByFile.missingStep t' (f :: r)) (entitiesOf csn) b)).
      { apply fold_sameFindings; [intros; now apply missingStep_sameFindings|].
        exact Hloop. }
      destruct H as [[He Hc] Hw]. rewrite He, Hw. split; [reflexivity|].
      cbn [filter isErrorEvent stream]. rewrite !filter_app, !summary_no_error_event.
      now rewrite Hc.
    + cbn [fst snd]. split; [reflexivity|].
      destruct Hloop as [[_ Hc] _].
      cbn [filter isErrorEvent stream]. now rewrite Hc.
  - unfold ByEntity.validateCsvFilenames, gather.
    destruct (gatherDiskFiles fs dataFolders []) as [[|f r]|]; try (split; reflexivity).
    assert (H : sameFindings
                  (fold_left (ByEntity.entityStep t (f :: r)) (entitiesOf csn) start)
                  (fold_left (ByEntity.entityStep t' (f :: r)) (entitiesOf csn) start)).
    { apply fold_sameFindings; [intros; now apply entityStep_sameFindings|].
      exact Hstart. }
    destruct H as [[He Hc] Hw].
    cbn [log bind ret fst snd app]. rewrite He, Hw. split; [reflexivity|].
    cbn [filter isErrorEvent stream]. rewrite !filter_app, !summary_no_error_event.
    now rewrite Hc.
Qed.

(** ** Counters and records of the filename validator *)

Lemma fold_invariant {A} (P : Counters -> Prop) (step : Counters -> A -> Counters)
    (l : list A) :
  (forall st a, P st -> P (step st a)) ->
  forall st, P st -> P (fold_left step l st).
Proof.
  intros Hstep. induction l as [|a l IH]; intros st H; [exact H|].
  simpl. apply IH. now apply Hstep.
Qed.

Lemma fileStep_countsRecords (t : nat) (lookup : Js.Obj string)
    (st st' : Counters) (f : DiskFile) :
  countsRecords t st -> ByFile.fileStep t lookup st f = Some st' ->
  countsRecords t st'.
Proof.
  intros [He Hw]. unfold ByFile.fileStep, countsRecords.
  destruct (Js.includes _ "."); [|destruct (ByFile.correctEntityNameOf _ _);
    [destruct (_ =? _); [|destruct (negb _)]| |]];
    intros [= <-];
    cbn [say addError addWarning console errors warnings];
    rewrite !filter_app, !length_app, He;
    (split; [|intros H1; rewrite (Hw H1)]);
    destruct t as [|[|t]]; cbn; lia.
Qed.

Lemma fileLoop_countsRecords (t : nat) (lookup : Js.Obj string)
    (diskFiles : list DiskFile) :
  forall st,
    countsRecords t st ->
    countsRecords t (ByFile.stateOf (ByFile.fileLoop t lookup diskFiles st)).
Proof.
  induction diskFiles as [|f r IH]; intros st H; [exact H|].
  cbn [ByFile.fileLoop].
  destruct (ByFile.fileStep t lookup st f) as [st'|] eqn:E; [|exact H].
  apply IH. now apply fileStep_countsRecords with (lookup := lookup) (st := st) (f := f).
Qed.

Lemma missingStep_countsRecords (t : nat) (diskFiles : list DiskFile)
    (st : Counters) (n : string) :
  countsRecords t st -> countsRecords t (ByFile.missingStep t diskFiles st n).
Proof.
  intros [He Hw]. unfold ByFile.missingStep, countsRecords.
  destruct (negb _ && _); [|now split].
  cbn [say console errors warnings]. rewrite !filter_app, !length_app, He.
  split; [|intros H1; rewrite (Hw H1)]; cbn; lia.
Qed.

Lemma entityStep_countsRecords (t : nat) (diskFiles : list DiskFile)
    (st : Counters) (n : string) :
  countsRecords t st -> countsRecords t (ByEntity.entityStep t diskFiles st n).
Proof.
  intros [He Hw]. unfold ByEntity.entityStep, countsRecords.
  destruct (findLower diskFiles (Js.toLowerCase (strictNameOf n)));
    destruct (findActual diskFiles (strictNameOf n));
    destruct (findLower diskFiles (Js.toLowerCase (Js.afterLastDot n ++ ".csv")));
    cbn [say addError addWarning console errors warnings];
    rewrite ?filter_app, ?length_app, ?He;
    (split; [|intros H1; rewrite (Hw H1)]);
    destruct t as [|[|t]]; cbn; lia.
Qed.

Lemma recordedFiles_app (a b : list Event) :
  recordedFiles (a ++ b) = recordedFiles a ++ recordedFiles b.
Proof. apply flat_map_app. Qed.

(** From trace level 2 on a turn of the loop writes one record, about its
    file. *)
Lemma fileStep_recordedFiles (t : nat) (lookup : Js.Obj string)
    (st st' : Counters) (f : DiskFile) :
  2 <= t -> ByFile.fileStep t lookup st f = Some st' ->
  recordedFiles (console st') = recordedFiles (console st) ++ [actualName f].
Proof.
  intros Ht. unfold ByFile.fileStep.
  destruct t as [|[|t]]; [lia | lia |].
  destruct (Js.includes _ "."); [|destruct (ByFile.correctEntityNameOf _ _);
    [destruct (_ =? _); [|destruct (negb _)]| |]];
    intros [= <-];
    cbn [say addError addWarning console Nat.leb when];
    now rewrite recordedFiles_app.
Qed.

Lemma fileLoop_recordedFiles (t : nat) (lookup : Js.Obj string)
    (diskFiles : list DiskFile) :
  2 <= t ->
  forall st st',
    ByFile.fileLoop t lookup diskFiles st = ByFile.Completed st' ->
    recordedFiles (console st') =
    recordedFiles (console st) ++ map actualName diskFiles.
Proof.
  intros Ht. induction diskFiles as [|f r IH]; intros st st' H.
  - injection H as <-. now rewrite app_nil_r.
  - cbn [ByFile.fileLoop] in H.
    destruct (ByFile.fileStep t lookup st f) as [st1|] eqn:E; [|discriminate].
    rewrite (IH _ _ H), (fileStep_recordedFiles _ _ _ _ _ Ht E).
    now rewrite <- app_assoc.
Qed.

Lemma missingLoop_recordedFiles (t : nat) (diskFiles : list DiskFile)
    (entities : list string) :
  forall st,
    recordedFiles (console (fold_left (ByFile.missingStep t diskFiles) entities st)) =
    recordedFiles (console st).
Proof.
  induction entities as [|e r IH]; intros st; [reflexivity|].
  cbn [fold_left]. rewrite IH. unfold ByFile.missingStep.
  destruct (negb _ && _); [|reflexivity].
  cbn [say console]. rewrite recordedFiles_app. apply app_nil_r.
Qed.

Lemma summary_recordedFiles (ph : Phase) (st : Counters) :
  recordedFiles (summary ph st) = [].
Proof. unfold summary. now destruct (_ || _). Qed.

Lemma fileStep_at_most_one (t : nat) (lookup : Js.Obj string)
    (st st' : Counters) (f : DiskFile) :
  ByFile.fileStep t lookup st f = Some st' ->
  errors st' + warnings st' <= errors st + warnings st + 1.
Proof.
  unfold ByFile.fileStep.
  destruct (Js.includes _ "."); [|destruct (ByFile.correctEntityNameOf _ _);
    [destruct (_ =? _); [|destruct (negb _)]| |]];
    intros [= <-]; cbn [say addError addWarning errors warnings]; lia.
Qed.

Lemma fileLoop_at_most_one (t : nat) (lookup : Js.Obj string)
    (diskFiles : list DiskFile) :
  forall st,
    errors (ByFile.stateOf (ByFile.fileLoop t lookup diskFiles st))
    + warnings (ByFile.stateOf (ByFile.fileLoop t lookup diskFiles st))
    <= errors st + warnings st + List.length diskFiles.
Proof.
  induction diskFiles as [|f r IH]; intros st; [simpl; lia|].
  cbn [ByFile.fileLoop List.length].
  destruct (ByFile.fileStep t lookup st f) as [st'|] eqn:E.
  - specialize (IH st'). apply fileStep_at_most_one in E. lia.
  - cbn [ByFile.stateOf]. lia.
Qed.

Lemma summary_counts (ph : Phase) (st : Counters) :
  filter isWarningEvent (summary ph st) = []
  /\ filter isFileRecord (summary ph st) = [].
Proof. unfold summary. now destruct (_ || _). Qed.

(** X11: in a run of the file-walking filename validator that found CSV
    files and whose loop over the files came to its end, the error counter
    is the number of error records written; from trace level 1 on the
    warning counter is the number of warning records written; from trace
    level 2 on the records about files are in step with the discovered
    files: read record by record, the files they are about are the
    discovered files, each once and in the order of discovery; and at
    every trace level errors and warnings together never exceed the number
    of files. *)
Theorem filename_counters_count_records :
  forall (t : nat) (csn : Csn) (fs : Fs) (diskFiles : list DiskFile)
         (afterFiles : Counters),
    gatherDiskFiles fs dataFolders [] = Some diskFiles ->
    diskFiles <> [] ->
    ByFile.fileLoop t (ByFile.entityLookupOf (entitiesOf csn)) diskFiles start
      = ByFile.Completed afterFiles ->
    let run := ByFile.validateCsvFilenames t csn fs in
    exists e w,
      snd run = Some (Some (e, w))
      /\ e = List.length (filter isErrorEvent (fst run))
      /\ (1 <= t -> w = List.length (filter isWarningEvent (fst run)))
      /\ (2 <= t -> recordedFiles (fst run) = map actualName diskFiles)
      /\ e + w <= List.length diskFiles.
Proof.
  intros t csn fs diskFiles st1 Hg Hne Hloop run. subst run.
  rewrite validateCsvFilenames_run, Hg.
  destruct diskFiles as [|f0 r0]; [congruence|].
  rewrite Hloop. cbv zeta. cbn [fst snd].
  set (lookup := ByFile.entityLookupOf (entitiesOf csn)) in *.
  set (st := fold_left (ByFile.missingStep t (f0 :: r0)) (entitiesOf csn) st1).
  assert (H1 : countsRecords t st1).
  { pose proof (fileLoop_countsRecords t lookup (f0 :: r0) start) as Hc.
    rewrite Hloop in Hc. apply Hc.
    split; [reflexivity | intros _; reflexivity]. }
  assert (H : countsRecords t st).
  { subst st. apply fold_invariant; [intros; now apply missingStep_countsRecords|].
    exact H1. }
  destruct H as [He Hw].
  destruct (summary_counts Filenames st) as [Hsw _].
  exists (errors st), (warnings st). split; [reflexivity|].
  split; [|split; [|split]].
  - cbn [filter isErrorEvent stream].
    rewrite filter_app, length_app, summary_no_error_event. simpl. lia.
  - intros Ht. cbn [filter isWarningEvent stream].
    rewrite filter_app, length_app, Hsw. simpl. specialize (Hw Ht). lia.
  - intros Ht.
    change (recordedFiles (console st ++ summary Filenames st)
            = map actualName (f0 :: r0)).
    rewrite recordedFiles_app, summary_recordedFiles, app_nil_r.
    subst st. rewrite missingLoop_recordedFiles.
    now rewrite (fileLoop_recordedFiles t lookup (f0 :: r0) Ht start st1 Hloop).
  - subst st. destruct (missingLoop_counters t (f0 :: r0) (entitiesOf csn) st1) as [-> ->].
    pose proof (fileLoop_at_most_one t lookup (f0 :: r0) start) as Hb.
    rewrite Hloop in Hb. cbn [ByFile.stateOf start errors warnings] in Hb. lia.
Qed.

Lemma filename_counters_count_records_witness :
  let fs := Sample.disk [("sales-order.csv", None); ("Order.csv", None);
                         ("sales-Order.csv", None)] in
  let run := ByFile.validateCsvFilenames 2 Sample.salesModel fs in
  exists e w,
    snd run = Some (Some (e, w))
    /\ e = List.length (filter isErrorEvent (fst run))
    /\ (1 <= 2 -> w = List.length (filter isWarningEvent (fst run)))
    /\ (2 <= 2 ->
        recordedFiles (fst run) = ["sales-order.csv"; "Order.csv"; "sales-Order.csv"])
    /\ e + w <= 3.
Proof.
  apply (filename_counters_count_records 2 Sample.salesModel
           (Sample.disk [("sales-order.csv", None); ("Order.csv", None);
                         ("sales-Order.csv", None)])
           [diskFileOf "db/data" "sales-order.csv"; diskFileOf "db/data" "Order.csv";
            diskFileOf "db/data" "sales-Order.csv"]
           (ByFile.stateOf
              (ByFile.fileLoop 2 (ByFile.entityLookupOf (entitiesOf Sample.salesModel))
                 [diskFileOf "db/data" "sales-order.csv";
                  diskFileOf "db/data" "Order.csv";
                  diskFileOf "db/data" "sales-Order.csv"] start))).
  - reflexivity.
  - discriminate.
  - reflexivity.
Defined.

(** ** Counters and records of the header validator *)

Lemma reconcile_records (csn : Csn) (def : Definition_) (n p : string)
    (headers : list string) (t : nat) :
  let out := fst (reconcile csn def n p headers t) in
  let r := snd (reconcile csn def n p headers t) in
  List.length (filter isErrorEvent out) <= 2
  /\ (hasErrors r = true -> 1 <= List.length (filter isErrorEvent out))
  /\ (hasErrors r = false -> List.length (filter isErrorEvent out) = 0)
  /\ List.length (filter isWarningEvent out) = (if hasWarnings r then 1 else 0).
Proof.
  unfold reconcile.
  destruct (extraColumns def (expectedColumns csn def) headers);
    destruct (missingKeyColumns def (missingColumns (expectedColumns csn def) headers));
    destruct (missingNonKeyColumns _ _); destruct t as [|[|t]];
    cbn; repeat split; intros; try lia; try discriminate.
Qed.

Lemma headersStep_countsEntities (fs : Fs) (csn : Csn) (t : nat)
    (diskFiles : list DiskFile) (st : Counters) (name : string) :
  countsEntities st -> countsEntities (headersStep fs csn t diskFiles st name).
Proof.
  intros (H1 & H2 & H3). unfold headersStep.
  destruct (findActual diskFiles (strictNameOf name)) as [f|]; [|now repeat split].
  unfold validateHeaderRow.
  destruct (Js.get (definitions csn) name) as [def|].
  - pose proof (reconcile_records csn def name (pathJoin (folder f) (actualName f))
                  (getCsvHeaders fs (pathJoin (folder f) (actualName f))) t) as R.
    cbv zeta in R.
    destruct (reconcile csn def name _ _ t) as [out r]. cbn [fst snd] in R.
    destruct R as (R1 & R2 & R3 & R4).
    unfold countsEntities. cbn [resultHasErrors resultHasWarnings].
    destruct (hasErrors r); destruct (hasWarnings r);
      cbn [say addError addWarning console errors warnings];
      rewrite !filter_app, !length_app, R4;
      try specialize (R2 eq_refl); try specialize (R3 eq_refl); lia.
  - unfold countsEntities. cbn [resultHasErrors resultHasWarnings say console errors warnings].
    rewrite !app_nil_r. now repeat split.
Qed.

Lemma headersLoop_at_most_one (fs : Fs) (csn : Csn) (t : nat)
    (diskFiles : list DiskFile) (entities : list string) :
  forall st,
    errors (headersLoop fs csn t diskFiles entities st)
      <= errors st + List.length entities
    /\ warnings (headersLoop fs csn t diskFiles entities st)
      <= warnings st + List.length entities.
Proof.
  unfold headersLoop. induction entities as [|e r IH]; intros st; [simpl; lia|].
  cbn [fold_left List.length].
  destruct (IH (headersStep fs csn t diskFiles st e)) as [IH1 IH2].
  assert (Hstep : errors (headersStep fs csn t diskFiles st e) <= errors st + 1
                  /\ warnings (headersStep fs csn t diskFiles st e) <= warnings st + 1).
  { unfold headersStep.
    destruct (findActual diskFiles (strictNameOf e)) as [f|]; [|lia].
    destruct (validateHeaderRow fs _ e csn t) as [out res].
    destruct (resultHasErrors res); destruct (resultHasWarnings res);
      cbn [say addError addWarning errors warnings]; lia. }
  lia.
Qed.

(** X12: the header validator counts entities, not problems.  In a run
    that found CSV files the error counter is at most the number of error
    records written and at least half of it (an entity with extra columns
    and missing key columns has two records and counts once); the warning
    counter is the number of warning records written; and neither counter
    exceeds the number of entities of the model. *)
Theorem header_counters_count_entities :
  forall (t : nat) (csn : Csn) (fs : Fs) (diskFiles : list DiskFile),
    gatherDiskFiles fs dataFolders [] = Some diskFiles ->
    diskFiles <> [] ->
    let run := validateCsvHeaders t csn fs in
    exists e w,
      snd run = Some (Some (e, w))
      /\ e <= List.length (filter isErrorEvent (fst run))
      /\ List.length (filter isErrorEvent (fst run)) <= 2 * e
      /\ w = List.length (filter isWarningEvent (fst run))
      /\ e <= List.length (entitiesOf csn)
      /\ w <= List.length (entitiesOf csn).
Proof.
  intros t csn fs diskFiles Hg Hne run. subst run.
  rewrite validateCsvHeaders_run, Hg.
  destruct diskFiles as [|f0 r0]; [congruence|].
  cbv zeta. cbn [fst snd].
  set (st := headersLoop fs csn t (f0 :: r0) (entitiesOf csn) start).
  assert (H : countsEntities st).
  { subst st. unfold headersLoop.
    apply fold_invariant; [intros; now apply headersStep_countsEntities|].
    repeat split; simpl; lia. }
  destruct H as (H1 & H2 & H3).
  destruct (headersLoop_at_most_one fs csn t (f0 :: r0) (entitiesOf csn) start)
    as [B1 B2].
  fold st in B1, B2. cbn [start errors warnings] in B1, B2.
  destruct (summary_counts Headers st) as [Hsw _].
  exists (errors st), (warnings st). split; [reflexivity|].
  cbn [filter isErrorEvent isWarningEvent stream].
  rewrite !filter_app, !length_app, summary_no_error_event, Hsw. simpl.
  repeat split; lia.
Qed.

Lemma header_counters_count_entities_witness :
  let run := validateCsvHeaders 1 Sample.salesModel (Sample.orderDisk "bogus") in
  exists e w,
    snd run = Some (Some (e, w))
    /\ e <= List.length (filter isErrorEvent (fst run))
    /\ List.length (filter isErrorEvent (fst run)) <= 2 * e
    /\ w = List.length (filter isWarningEvent (fst run))
    /\ e <= List.length (entitiesOf Sample.salesModel)
    /\ w <= List.length (entitiesOf Sample.salesModel).
Proof.
  apply (header_counters_count_entities 1 Sample.salesModel (Sample.orderDisk "bogus")
           [diskFileOf "db/data" "sales-Order.csv"]).
  - reflexivity.
  - discriminate.
Defined.

(** ** Files of unknown and of known entities *)

(** The lookup table has no entry of its own for a name that is no
    entity name in lower case. *)
Lemma entityLookup_no_entry (entities : list string) (k : string) :
  (forall n, In n entities -> Js.toLowerCase n <> k) ->
  Js.get (ByFile.entityLookupOf entities) k = None.
Proof.
  intros Hnone.
  destruct (Js.get (ByFile.entityLookupOf entities) k) as [c|] eqn:E; [|reflexivity].
  apply get_In in E. unfold ByFile.entityLookupOf in E.
  apply entityLookup_entries in E. destruct E as [[]|[Hk Hin]].
  exfalso. now apply (Hnone c Hin).
Qed.

(** X13: take a discovered file whose base name has no dot and, with
    hyphens turned into dots, is the name of no entity in any letter case.
    When that name in lower case is none of the members the lookup table
    inherits from [Object.prototype], the file counts as one error at
    every trace level, with the entity-not-found record.  When it is one
    of them ([constructor], [__proto__]), the turn of the loop ends in a
    [TypeError] instead and writes nothing. *)
Theorem file_of_unknown_entity_is_error :
  forall (t : nat) (entities : list string) (st : Counters) (f : DiskFile),
    let fileBaseName := Js.stripCsvExt (actualName f) in
    let entityNameFromFile := Js.replaceChar "-"%char "."%char fileBaseName in
    hasChar "."%char fileBaseName = false ->
    (forall n, In n entities ->
               Js.toLowerCase n <> Js.toLowerCase entityNameFromFile) ->
    (~ In (Js.toLowerCase entityNameFromFile) ByFile.objectPrototypeKeys ->
     ByFile.fileStep t (ByFile.entityLookupOf entities) st f =
     Some (addError (say st [EntityNotFound (actualName f) entityNameFromFile])))
    /\ (In (Js.toLowerCase entityNameFromFile) ByFile.objectPrototypeKeys ->
        ByFile.fileStep t (ByFile.entityLookupOf entities) st f = None).
Proof.
  intros t entities st f fileBaseName entityNameFromFile Hdot Hnone.
  unfold ByFile.fileStep. fold fileBaseName.
  rewrite includes_hasChar, Hdot. fold entityNameFromFile.
  unfold ByFile.correctEntityNameOf.
  rewrite (entityLookup_no_entry _ _ Hnone).
  split; intros H.
  - apply arrayIncludes_not_In in H. now rewrite H.
  - apply arrayIncludes_In in H. now rewrite H.
Qed.

Lemma file_of_unknown_entity_is_error_witness :
  ByFile.fileStep 0 (ByFile.entityLookupOf (entitiesOf Sample.salesModel)) start
    (diskFileOf "db/data" "Order.csv") =
  Some (addError (say start [EntityNotFound "Order.csv" "Order"]))
  /\ ByFile.fileStep 0 (ByFile.entityLookupOf (entitiesOf Sample.salesModel)) start
       (diskFileOf "db/data" "constructor.csv") = None.
Proof.
  split.
  - apply (file_of_unknown_entity_is_error 0 (entitiesOf Sample.salesModel) start
             (diskFileOf "db/data" "Order.csv")).
    + reflexivity.
    + intros n [<-|[]]. vm_compute. discriminate.
    + vm_compute. intuition discriminate.
  - apply (file_of_unknown_entity_is_error 0 (entitiesOf Sample.salesModel) start
             (diskFileOf "db/data" "constructor.csv")).
    + reflexivity.
    + intros n [<-|[]]. vm_compute. discriminate.
    + vm_compute. tauto.
Defined.

Lemma get_set {A} (o : Js.Obj A) (k k' : string) (v : A) :
  Js.get (Js.set o k v) k' = if k =? k' then Some v else Js.get o k'.
Proof.
  induction o as [|[k0 v0] o IH]; simpl.
  - reflexivity.
  - destruct (k0 =? k) eqn:E0; simpl.
    + apply String.eqb_eq in E0. subst k0. now destruct (k =? k').
    + rewrite IH. destruct (k0 =? k') eqn:E1; [|reflexivity].
      apply String.eqb_eq in E1. subst k0.
      rewrite String.eqb_sym in E0. now rewrite E0.
Qed.

Lemma entityLookup_keeps (entities : list string) :
  forall (o : Js.Obj string) (k v : string),
    Js.get o k = Some v ->
    exists v', Js.get (fold_left (fun o name => ByFile.assign o (Js.toLowerCase name) name)
                                 entities o) k = Some v'.
Proof.
  induction entities as [|n rest IH]; intros o k v H; [now exists v|].
  simpl. unfold ByFile.assign at 2.
  destruct (Js.toLowerCase n =? "__proto__"); [now apply (IH _ k v)|].
  destruct (Js.toLowerCase n =? k) eqn:E.
  - apply (IH _ k n). now rewrite get_set, E.
  - apply (IH _ k v). now rewrite get_set, E.
Qed.

(** An entity has an entry of its own under its name in lower case, but
    for [__proto__], which is never entered. *)
Lemma entityLookup_complete (entities : list string) (n : string) :
  In n entities ->
  Js.toLowerCase n <> "__proto__" ->
  exists m, Js.get (ByFile.entityLookupOf entities) (Js.toLowerCase n) = Some m.
Proof.
  intros Hin Hproto. revert Hin.
  unfold ByFile.entityLookupOf. generalize (@nil (string * string)).
  induction entities as [|e rest IH]; intros o Hin; [destruct Hin|].
  simpl. destruct Hin as [->|Hin].
  - apply (entityLookup_keeps rest _ _ n). unfold ByFile.assign.
    apply String.eqb_neq in Hproto. rewrite Hproto.
    now rewrite get_set, String.eqb_refl.
  - now apply IH.
Qed.

Lemma hyphenated_no_dot (n : string) :
  hasChar "."%char (Js.replaceChar "."%char "-"%char n) = false.
Proof.
  induction n as [|a r IH]; [reflexivity|].
  cbn [Js.replaceChar hasChar]. rewrite IH.
  destruct (Ascii.eqb a ".") eqn:E; [reflexivity|]. now rewrite E.
Qed.

Lemma undo_hyphens_exact (n : string) :
  hasChar "-"%char n = false ->
  Js.replaceChar "-"%char "."%char (Js.replaceChar "."%char "-"%char n) = n.
Proof.
  induction n as [|a r IH]; [reflexivity|].
  cbn [hasChar Js.replaceChar]. intros H. apply orb_false_iff in H.
  destruct H as [Ha Hr]. rewrite (IH Hr). f_equal.
  destruct (Ascii.eqb a ".") eqn:E.
  - apply Ascii.eqb_eq in E. now subst a.
  - now rewrite Ha.
Qed.

(** X14: a discovered file that bears the strict name of an entity is
    accepted by the file-walking filename validator: the turn of the loop
    changes no counter and writes only the filename-ok record, at trace
    level 2.  This needs the entity name to be free of hyphens, to be the
    only entity name with its lower-case form, and not to read
    [__proto__] in lower case, a name the lookup table never enters. *)
Theorem file_with_strict_name_is_accepted :
  forall (t : nat) (entities : list string) (st : Counters) (f : DiskFile)
         (n : string),
    In n entities ->
    n <> EmptyString ->
    hasChar "-"%char n = false ->
    Js.toLowerCase n <> "__proto__" ->
    (forall m, In m entities -> Js.toLowerCase m = Js.toLowerCase n -> m = n) ->
    actualName f = strictNameOf n ->
    ByFile.fileStep t (ByFile.entityLookupOf entities) st f =
    Some (say st (when (2 <=? t)%nat [FilenameOk n (actualName f)])).
Proof.
  intros t entities st f n Hin Hne Hhy Hproto Huniq Hname.
  assert (Hbase : Js.stripCsvExt (strictNameOf n)
                  = Js.replaceChar "."%char "-"%char n)
    by (unfold strictNameOf; apply stripCsvExt_strict).
  unfold ByFile.fileStep. rewrite Hname, !Hbase.
  rewrite includes_hasChar, hyphenated_no_dot.
  rewrite !undo_hyphens_exact by assumption.
  destruct (entityLookup_complete entities n Hin Hproto) as [m Hm].
  assert (Hc : ByFile.correctEntityNameOf (ByFile.entityLookupOf entities)
                 (Js.toLowerCase n) = ByFile.EntityName n).
  { destruct (ByFile.correctEntityNameOf (ByFile.entityLookupOf entities)
                (Js.toLowerCase n)) as [c| |] eqn:E.
    - apply correctEntityNameOf_sound in E. destruct E as [Hc Hlow].
      f_equal. now apply Huniq.
    - unfold ByFile.correctEntityNameOf in E. rewrite Hm in E.
      destruct (m =? EmptyString) eqn:Em; [|discriminate].
      apply String.eqb_eq in Em. subst m.
      apply get_In in Hm. unfold ByFile.entityLookupOf in Hm.
      apply entityLookup_entries in Hm.
      destruct Hm as [[]|[Hlow _]].
      destruct n; [congruence | discriminate].
    - unfold ByFile.correctEntityNameOf in E. rewrite Hm in E.
      destruct (m =? EmptyString); discriminate. }
  rewrite Hc. now rewrite String.eqb_refl.
Qed.

Lemma file_with_strict_name_is_accepted_witness :
  ByFile.fileStep 2 (ByFile.entityLookupOf (entitiesOf Sample.billingModel)) start
    (diskFileOf "db/data" "sales-Invoice.csv") =
  Some (say start (when (2 <=? 2)%nat [FilenameOk "sales.Invoice" "sales-Invoice.csv"])).
Proof.
  apply (file_with_strict_name_is_accepted 2 (entitiesOf Sample.billingModel) start
           (diskFileOf "db/data" "sales-Invoice.csv") "sales.Invoice").
  - vm_compute. tauto.
  - discriminate.
  - reflexivity.
  - vm_compute. discriminate.
  - intros m [<-|[<-|[]]]; vm_compute; [discriminate | reflexivity].
  - reflexivity.
Defined.

(** Without the condition on the lower-case form the file of an entity can
    be refused: with the entities [a.B] and [a.b] the file [a-B.csv] is an
    entity-case error. *)
Lemma strict_name_refused_among_case_variants :
  ByFile.fileStep 0 (ByFile.entityLookupOf (Js.sort ["a.b"; "a.B"])) start
    (diskFileOf "db/data" "a-B.csv") =
  Some (addError (say start [EntityCaseError "a-B.csv" "a.B" "a.b" "a-b.csv"])).
Proof. vm_compute. reflexivity. Qed.

(** Without the condition on [__proto__] the turn ends in a [TypeError]:
    the assignment to the table is dropped by the inherited setter, and
    the lookup finds the prototype object. *)
Lemma strict_name_of_proto_entity_throws :
  ByFile.fileStep 2 (ByFile.entityLookupOf ["__proto__"]) start
    (diskFileOf "db/data" "__proto__.csv") = None.
Proof. vm_compute. reflexivity. Qed.

(** ** The copy that walks the entities *)

Lemma replaceChar_absent (x y : ascii) (s : string) :
  hasChar x s = false -> Js.replaceChar x y s = s.
Proof.
  induction s as [|a r IH]; [reflexivity|].
  cbn [hasChar Js.replaceChar]. intros H. apply orb_false_iff in H.
  destruct H as [Ha Hr]. now rewrite Ha, IH.
Qed.

Lemma afterLastDot_absent (s : string) :
  hasChar "."%char s = false -> Js.afterLastDot s = s.
Proof. intros H. unfold Js.afterLastDot. now rewrite split_no_sep. Qed.

(** X15: for an entity whose name has no dot, so no namespace, the
    entity-walking filename validator never reports a namespace error: the
    short filename is the strict filename, and the turn of the loop leaves
    the error counter as it was and writes no error record. *)
Theorem no_namespace_error_without_namespace :
  forall (t : nat) (diskFiles : list DiskFile) (st : Counters) (n : string),
    hasChar "."%char n = false ->
    let st' := ByEntity.entityStep t diskFiles st n in
    errors st' = errors st
    /\ filter isErrorEvent (console st') = filter isErrorEvent (console st).
Proof.
  intros t diskFiles st n Hdot st'. subst st'. unfold ByEntity.entityStep.
  rewrite afterLastDot_absent by assumption.
  unfold strictNameOf. rewrite replaceChar_absent by assumption.
  destruct (findLower diskFiles (Js.toLowerCase (n ++ ".csv")));
    destruct (findActual diskFiles (n ++ ".csv"));
    cbn [say addError addWarning console errors];
    rewrite ?filter_app; destruct t as [|[|t]]; cbn; rewrite ?app_nil_r; auto.
Qed.

Lemma no_namespace_error_without_namespace_witness :
  let st' := ByEntity.entityStep 1 [diskFileOf "db/data" "books.CSV"] start "Books" in
  errors st' = errors start
  /\ filter isErrorEvent (console st') = filter isErrorEvent (console start).
Proof.
  apply (no_namespace_error_without_namespace 1 [diskFileOf "db/data" "books.CSV"]
           start "Books").
  reflexivity.
Defined.

Lemma findLower_drop (l1 l2 : list DiskFile) (f : DiskFile) (n : string) :
  lowerName f <> n ->
  findLower (l1 ++ f :: l2) n = findLower (l1 ++ l2) n.
Proof.
  intros Hne. unfold findLower. induction l1 as [|g l1 IH]; simpl.
  - apply String.eqb_neq in Hne. now rewrite Hne.
  - now rewrite IH.
Qed.

(** X16: the entity-walking filename validator says nothing about a file
    that belongs to no entity.  A discovered file whose lower-case name is
    neither the lower-case strict filename nor the lower-case short
    filename of any entity can be left out: the loop ends in the same
    console and the same counters. *)
Theorem orphan_file_is_ignored_by_entity_walk :
  forall (t : nat) (l1 l2 : list DiskFile) (f : DiskFile) (entities : list string)
         (st : Counters),
    lowerName f = Js.toLowerCase (actualName f) ->
    (forall n, In n entities ->
       lowerName f <> Js.toLowerCase (strictNameOf n)
       /\ lowerName f <> Js.toLowerCase (Js.afterLastDot n ++ ".csv")) ->
    fold_left (ByEntity.entityStep t (l1 ++ f :: l2)) entities st =
    fold_left (ByEntity.entityStep t (l1 ++ l2)) entities st.
Proof.
  intros t l1 l2 f entities st Hlow. revert st.
  induction entities as [|e r IH]; intros st Hno; [reflexivity|].
  simpl. rewrite IH by (intros n Hn; apply Hno; now right).
  f_equal. destruct (Hno e (or_introl eq_refl)) as [H1 H2].
  unfold ByEntity.entityStep.
  rewrite !findLower_drop by assumption.
  rewrite findActual_drop; [reflexivity|].
  intros Heq. apply H1. now rewrite Hlow, Heq.
Qed.

Lemma orphan_file_is_ignored_by_entity_walk_witness :
  fold_left (ByEntity.entityStep 2
               ([diskFileOf "db/data" "sales-Order.csv"] ++
                diskFileOf "db/data" "stray.csv" :: []))
            (entitiesOf Sample.salesModel) start =
  fold_left (ByEntity.entityStep 2 ([diskFileOf "db/data" "sales-Order.csv"] ++ []))
            (entitiesOf Sample.salesModel) start.
Proof.
  apply (orphan_file_is_ignored_by_entity_walk 2
           [diskFileOf "db/data" "sales-Order.csv"] []
           (diskFileOf "db/data" "stray.csv") (entitiesOf Sample.salesModel) start).
  - reflexivity.
  - intros n [<-|[]]. split; vm_compute; discriminate.
Defined.

(** ** The discovered files *)

Lemma gatherDiskFiles_spec (fs : Fs) (folders : list string) :
  forall acc diskFiles,
    gatherDiskFiles fs folders acc = Some diskFiles ->
    diskFiles = acc ++ flat_map (listingOf fs) folders.
Proof.
  induction folders as [|folder rest IH]; intros acc diskFiles H.
  - simpl in *. injection H as <-. now rewrite app_nil_r.
  - simpl in H. cbn [flat_map]. unfold listingOf at 1.
    destruct (existsSync fs folder).
    + destruct (readdirSync fs folder) as [entries|]; [|discriminate].
      apply IH in H. now rewrite H, app_assoc.
    + apply IH in H. now rewrite H.
Qed.

Lemma gatherDiskFiles_fails (fs : Fs) (folders : list string) :
  forall acc,
    gatherDiskFiles fs folders acc = None <->
    exists folder, In folder folders /\ existsSync fs folder = true
                   /\ readdirSync fs folder = None.
Proof.
  induction folders as [|folder rest IH]; intros acc.
  - simpl. split; [discriminate | intros [? [[] _]]].
  - simpl. destruct (existsSync fs folder) eqn:Ex.
    + destruct (readdirSync fs folder) as [entries|] eqn:Er.
      * rewrite IH. split.
        -- intros [g [Hg H]]. exists g. split; [now right | exact H].
        -- intros [g [[<-|Hg] [H1 H2]]]; [congruence|]. now exists g.
      * split; [|reflexivity]. intros _. exists folder. repeat split; auto.
    + rewrite IH. split.
      * intros [g [Hg H]]. exists g. split; [now right | exact H].
      * intros [g [[<-|Hg] [H1 H2]]]; [congruence|]. now exists g.
Qed.

Lemma stripCsvExt_split (a : string) :
  isCsvName a = true ->
  exists ext, a = (Js.stripCsvExt a ++ ext)%string /\ Js.toLowerCase ext = ".csv".
Proof.
  unfold isCsvName. induction a as [|c r IH]; [discriminate|].
  cbn [Js.toLowerCase Js.endsWith Js.stripCsvExt].
  destruct (String (Js.lowerChar c) (Js.toLowerCase r) =? ".csv") eqn:E.
  - intros _. exists (String c r). split; [reflexivity|].
    now apply String.eqb_eq in E.
  - cbn [orb]. intros H. destruct (IH H) as [ext [Hr Hext]].
    exists ext. split; [|assumption]. cbn [String.append]. now rewrite <- Hr.
Qed.

(** X17: what the scan of the data folders yields.  The discovered files
    are the listings of [db/data], [db/csv] and [db/src/csv], in this
    order, of the folders that exist; each file has a name that ends in
    [.csv] in some letter case, so that its base name is the name without
    these four characters, carries that name in lower case beside it, and
    lies in a folder that exists; the scan fails only when a folder that
    exists cannot be listed. *)
Theorem discovered_files_are_the_csv_listings :
  forall (fs : Fs),
    (forall diskFiles,
        gatherDiskFiles fs dataFolders [] = Some diskFiles ->
        diskFiles = listingOf fs "db/data" ++ listingOf fs "db/csv"
                    ++ listingOf fs "db/src/csv"
        /\ Forall (fun f =>
                     (exists ext,
                         actualName f = (Js.stripCsvExt (actualName f) ++ ext)%string
                         /\ Js.toLowerCase ext = ".csv")
                     /\ lowerName f = Js.toLowerCase (actualName f)
                     /\ In (folder f) dataFolders
                     /\ existsSync fs (folder f) = true)
                  diskFiles)
    /\ (gatherDiskFiles fs dataFolders [] = None <->
        exists folder, In folder dataFolders /\ existsSync fs folder = true
                       /\ readdirSync fs folder = None).
Proof.
  intros fs. split; [|apply gatherDiskFiles_fails].
  intros diskFiles H. apply gatherDiskFiles_spec in H.
  cbn [dataFolders flat_map app] in H. rewrite app_nil_r in H. subst diskFiles.
  split; [reflexivity|].
  rewrite !Forall_app.
  assert (Hone : forall dir, In dir dataFolders ->
            Forall (fun f => (exists ext,
                                 actualName f
                                 = (Js.stripCsvExt (actualName f) ++ ext)%string
                                 /\ Js.toLowerCase ext = ".csv")
                             /\ lowerName f = Js.toLowerCase (actualName f)
                             /\ In (folder f) dataFolders
                             /\ existsSync fs (folder f) = true)
                   (listingOf fs dir)).
  { intros dir Hin. unfold listingOf.
    destruct (existsSync fs dir) eqn:Ex; [|constructor].
    destruct (readdirSync fs dir) as [entries|]; [|constructor].
    apply Forall_map. apply Forall_forall. intros x Hx.
    apply filter_In in Hx. destruct Hx as [_ Hcsv].
    cbn [diskFileOf actualName lowerName folder].
    split; [now apply stripCsvExt_split | auto]. }
  repeat split; apply Hone; simpl; auto.
Qed.

(** ** The entities that are validated *)

Lemma insert_sorted (x : string) (l : list string) :
  Sorted stringLe l -> Sorted stringLe (Js.insert x l).
Proof.
  induction l as [|y r IH]; intros Hs.
  - simpl. constructor; constructor.
  - simpl. destruct (x <=? y)%string eqn:E.
    + constructor; [assumption|]. constructor. exact E.
    + inversion Hs as [|? ? Hr Hhd]; subst.
      constructor; [now apply IH|].
      apply string_leb_false in E.
      destruct r as [|z r'].
      * simpl. constructor. exact E.
      * simpl. inversion Hhd as [|? ? Hyz]; subst.
        destruct (x <=? z)%string; constructor; assumption.
Qed.

Lemma sort_sorted (l : list string) : Sorted stringLe (Js.sort l).
Proof.
  induction l as [|x r IH]; [constructor|]. simpl. now apply insert_sorted.
Qed.

(** X18: the entities a validator walks.  They are the names of the model
    whose definition is of kind [entity], is not skipped, and is not under
    [sap.common], and they come in ascending order of code units, each
    before all that follow it. *)
Theorem entities_are_filtered_and_sorted :
  forall (csn : Csn),
    StronglySorted stringLe (entitiesOf csn)
    /\ (forall n,
          In n (entitiesOf csn) <->
          exists def,
            Js.get (definitions csn) n = Some def
            /\ kind def = "entity"
            /\ Js.startsWith n "sap.common" = false
            /\ definitionSkip def = false).
Proof.
  intros csn. split.
  - apply Sorted_StronglySorted; [|apply sort_sorted].
    intros a b c. unfold stringLe. apply string_leb_trans.
  - intros n. unfold entitiesOf.
    split.
    + intros H. apply (Permutation_in _ (sort_perm _)) in H.
      apply filter_In in H. destruct H as [_ H]. unfold isValidatedEntity in H.
      destruct (Js.get (definitions csn) n) as [def|]; [|discriminate].
      exists def. rewrite !andb_true_iff, !negb_true_iff, String.eqb_eq in H.
      tauto.
    + intros [def (Hget & Hk & Hp & Hs)].
      apply (Permutation_in _ (Permutation_sym (sort_perm _))).
      apply filter_In. split; [eapply get_Some_In_keys; eassumption|].
      unfold isValidatedEntity. rewrite Hget, Hk, Hp, Hs. reflexivity.
Qed.

(** ** The command line *)

Lemma validLevel_le (z : option Z) (l : nat) :
  Cli.validLevel z = Some l -> l <= 2.
Proof.
  unfold Cli.validLevel. destruct z as [z|]; [|discriminate].
  destruct (Z.eqb_spec z 0) as [->|]; [intros [= <-]; simpl; lia|].
  destruct (Z.eqb_spec z 1) as [->|]; [intros [= <-]; simpl; lia|].
  destruct (Z.eqb_spec z 2) as [->|]; [intros [= <-]; simpl; lia|].
  discriminate.
Qed.

Lemma parseArgs_level (n : nat) :
  forall (args : list string) (o0 o : Cli.Options),
    List.length args <= n ->
    Cli.parseArgs args o0 = Cli.Options_ o ->
    Cli.traceLevel o0 <= 2 -> Cli.traceLevel o <= 2.
Proof.
  induction n as [|n IH]; intros args o0 o Hlen Hp H0.
  - destruct args; [|simpl in Hlen; lia]. simpl in Hp. now injection Hp as <-.
  - destruct args as [|a rest]; [simpl in Hp; now injection Hp as <-|].
    simpl in Hlen. cbn [Cli.parseArgs] in Hp.
    destruct (a =? "--tracelevel").
    + destruct rest as [|v rest']; [discriminate|].
      destruct (Cli.validLevel (Cli.parseInt v)) as [l|] eqn:El; [|discriminate].
      apply IH in Hp; [assumption | simpl in Hlen; lia |].
      cbn [Cli.traceLevel]. now apply validLevel_le in El.
    + destruct (a =? "--help"); [apply IH in Hp; auto; lia|].
      destruct (negb (Js.startsWith a "-")); apply IH in Hp; auto; lia.
Qed.

Lemma parseArgs_without_traceLevel (args : list string) :
  ~ In "--tracelevel" args ->
  forall o0, exists o,
    Cli.parseArgs args o0 = Cli.Options_ o /\ Cli.traceLevel o = Cli.traceLevel o0.
Proof.
  induction args as [|a rest IH]; intros Hno o0.
  - exists o0. now split.
  - cbn [Cli.parseArgs].
    assert (Ha : (a =? "--tracelevel") = false).
    { apply String.eqb_neq. intros ->. apply Hno. now left. }
    rewrite Ha.
    assert (Hrest : ~ In "--tracelevel" rest) by (intros H; apply Hno; now right).
    destruct (a =? "--help"); [|destruct (negb (Js.startsWith a "-"))];
      match goal with
      | |- exists o, Cli.parseArgs rest ?x = _ /\ _ =>
          destruct (IH Hrest x) as [o [Hp Hl]]; exists o; split; [exact Hp | exact Hl]
      end.
Qed.

(** X19: the trace level the script passes on is 0, 1 or 2.  Whenever the
    arguments are read to the end the trace level of the options is at
    most 2, and it is the default 1 when no argument is [--tracelevel]; in
    that case the arguments are always read to the end. *)
Theorem parsed_traceLevel_is_valid :
  forall (args : list string),
    (forall o, Cli.parseArgs args Cli.defaults = Cli.Options_ o ->
               Cli.traceLevel o <= 2)
    /\ (~ In "--tracelevel" args ->
        exists o, Cli.parseArgs args Cli.defaults = Cli.Options_ o
                  /\ Cli.traceLevel o = 1).
Proof.
  intros args. split.
  - intros o Hp. apply (parseArgs_level (List.length args) args Cli.defaults o);
      [lia | assumption | simpl; lia].
  - intros Hno. destruct (parseArgs_without_traceLevel args Hno Cli.defaults)
      as [o [Hp Hl]].
    exists o. split; [assumption|]. exact Hl.
Qed.

Lemma digits_stop (acc : option N) (s : string) :
  match s with String c _ => Cli.isDigit c = false | EmptyString => True end ->
  Cli.digits acc s = acc.
Proof. destruct s as [|c r]; [reflexivity|]. simpl. now intros ->. Qed.

(** X20: a trace level is read from the digits its value starts with; what
    follows them is ignored.  A value that starts with the digit 0, 1 or 2
    followed by no further digit sets that level, whatever else it holds,
    and a value that starts with no digit, sign or blank ends the script
    with code 1. *)
Theorem traceLevel_value_read_by_leading_digit :
  forall (l : nat) (suffix v : string) (rest : list string) (o : Cli.Options),
    l <= 2 ->
    match suffix with
    | String c _ => Cli.isDigit c = false
    | EmptyString => True
    end ->
    match v with
    | String c _ =>
        Cli.isDigit c = false /\ Js.isWhite c = false
        /\ c <> "-"%char /\ c <> "+"%char
    | EmptyString => True
    end ->
    Cli.parseArgs ("--tracelevel" :: String (ascii_of_nat (48 + l)) suffix :: rest) o =
    Cli.parseArgs rest {| Cli.traceLevel := l; Cli.command := Cli.command o;
                          Cli.showHelp := Cli.showHelp o |}
    /\ Cli.parseArgs ("--tracelevel" :: v :: rest) o = Cli.Exit1 Cli.InvalidTraceLevel.
Proof.
  intros l suffix v rest o Hl Hsuffix Hv. split.
  - assert (Hlevel : Cli.validLevel
                       (Cli.parseInt (String (ascii_of_nat (48 + l)) suffix)) = Some l).
    { destruct l as [|[|[|l]]]; [| | |lia];
        unfold Cli.parseInt; cbn [Js.trimStart];
        match goal with
        | |- context [Js.isWhite ?c] => change (Js.isWhite c) with false
        end; cbv iota;
        match goal with
        | |- context [Ascii.eqb ?c "-"%char] => change (Ascii.eqb c "-"%char) with false
        end;
        match goal with
        | |- context [Ascii.eqb ?c "+"%char] => change (Ascii.eqb c "+"%char) with false
        end; cbv iota; cbn [Cli.digits];
        match goal with
        | |- context [Cli.isDigit ?c] => change (Cli.isDigit c) with true
        end; cbv iota; rewrite digits_stop by assumption; reflexivity. }
    cbn [Cli.parseArgs]. change ("--tracelevel" =? "--tracelevel") with true.
    cbv iota. now rewrite Hlevel.
  - assert (Hnan : Cli.parseInt v = None).
    { unfold Cli.parseInt. destruct v as [|c r]; [reflexivity|].
      destruct Hv as (Hd & Hw & Hm & Hp).
      cbn [Js.trimStart]. rewrite Hw.
      apply Ascii.eqb_neq in Hm. apply Ascii.eqb_neq in Hp. rewrite Hm, Hp.
      cbn [Cli.digits]. now rewrite Hd. }
    cbn [Cli.parseArgs]. change ("--tracelevel" =? "--tracelevel") with true.
    cbv iota. now rewrite Hnan.
Qed.

Lemma traceLevel_value_read_by_leading_digit_witness :
  Cli.parseArgs ["--tracelevel"; "2x"; "validatecsv"] Cli.defaults =
  Cli.parseArgs ["validatecsv"]
    {| Cli.traceLevel := 2; Cli.command := None; Cli.showHelp := false |}
  /\ Cli.parseArgs ["--tracelevel"; "two"; "validatecsv"] Cli.defaults =
     Cli.Exit1 Cli.InvalidTraceLevel.
Proof.
  apply (traceLevel_value_read_by_leading_digit 2 "x" "two" ["validatecsv"] Cli.defaults).
  - lia.
  - reflexivity.
  - repeat split; discriminate.
Defined.

Lemma validateCsvHeaders_returned (t : nat) (csn : Csn) (fs : Fs) :
  snd (validateCsvHeaders t csn fs) = None <->
  gatherDiskFiles fs dataFolders [] = None.
Proof.
  rewrite validateCsvHeaders_run.
  destruct (gatherDiskFiles fs dataFolders []) as [[|f r]|]; simpl;
    split; congruence.
Qed.

Lemma byEntity_filenames_returned (t : nat) (csn : Csn) (fs : Fs) :
  snd (ByEntity.validateCsvFilenames t csn fs) = None <->
  gatherDiskFiles fs dataFolders [] = None.
Proof.
  unfold ByEntity.validateCsvFilenames, gather.
  destruct (gatherDiskFiles fs dataFolders []) as [[|f r]|]; simpl;
    split; congruence.
Qed.

Lemma byEntity_validateCsvs_returned (t : nat) (csn : Csn) (fs : Fs) :
  snd (ByEntity.validateCsvs t csn fs) = None <->
  gatherDiskFiles fs dataFolders [] = None.
Proof.
  unfold ByEntity.validateCsvs.
  pose proof (byEntity_filenames_returned t csn fs) as H1.
  pose proof (validateCsvHeaders_returned t csn fs) as H2.
  destruct (ByEntity.validateCsvFilenames t csn fs) as [o1 [r1|]];
    destruct (validateCsvHeaders t csn fs) as [o2 [r2|]];
    cbn [snd bind log ret] in *;
    destruct (gatherDiskFiles fs dataFolders []); split; intros H;
    try congruence; try (now apply H1 in H); try (now apply H2 in H);
    try (exfalso; destruct H1 as [H1 _]; now specialize (H1 eq_refl));
    try (exfalso; destruct H2 as [H2 _]; now specialize (H2 eq_refl)).
Qed.

(** X21: the exit status of the script says nothing about the findings.
    Run with one of the three validation commands, the script leaves with
    code 1 exactly when the scan of the data folders throws, and otherwise
    runs to its end, whatever numbers of errors and warnings the validator
    counted; in interactive mode it always runs to its end. *)
Theorem exit_status_ignores_findings :
  forall (OtherOutput : Type)
         (generateInserts : string -> nat -> list OtherOutput * option unit)
         (checkDeployConfig : nat -> list OtherOutput * option unit)
         (args : list string) (answers : Cli.Answers) (csn : Csn) (fs : Fs)
         (o : Cli.Options),
    Cli.parseArgs args Cli.defaults = Cli.Options_ o ->
    Cli.showHelp o = false ->
    let ending :=
      snd (Cli.main OtherOutput generateInserts checkDeployConfig args answers csn fs) in
    (forall c tool,
        Cli.command o = Some c ->
        Cli.toolOf c = Some tool ->
        tool = Cli.ValidateFilenames \/ tool = Cli.ValidateHeaders
        \/ tool = Cli.ValidateBoth ->
        ending = match gatherDiskFiles fs dataFolders [] with
                 | Some _ => Cli.EndOfScript
                 | None => Cli.Exit 1
                 end)
    /\ (Cli.command o = None -> ending = Cli.EndOfScript).
Proof.
  intros OtherOutput gi cdc args answers csn fs o Hp Hhelp ending. subst ending.
  unfold Cli.main. rewrite Hp, Hhelp. split.
  - intros c tool Hc Htool Hkind. rewrite Hc.
    destruct (c =? EmptyString) eqn:Ec.
    { apply String.eqb_eq in Ec. subst c. discriminate. }
    rewrite Htool.
    pose proof (byEntity_filenames_returned (Cli.traceLevel o) csn fs) as H1.
    pose proof (validateCsvHeaders_returned (Cli.traceLevel o) csn fs) as H2.
    pose proof (byEntity_validateCsvs_returned (Cli.traceLevel o) csn fs) as H3.
    destruct Hkind as [-> | [-> | ->]]; unfold Cli.runTool.
    + destruct (ByEntity.validateCsvFilenames _ csn fs) as [out [r|]];
        cbn [snd] in H1; destruct (gatherDiskFiles fs dataFolders []);
        try reflexivity.
      * destruct H1 as [_ H1]. now specialize (H1 eq_refl).
      * destruct H1 as [H1 _]. now specialize (H1 eq_refl).
    + destruct (validateCsvHeaders _ csn fs) as [out [r|]];
        cbn [snd] in H2; destruct (gatherDiskFiles fs dataFolders []);
        try reflexivity.
      * destruct H2 as [_ H2]. now specialize (H2 eq_refl).
      * destruct H2 as [H2 _]. now specialize (H2 eq_refl).
    + destruct (ByEntity.validateCsvs _ csn fs) as [out [r|]];
        cbn [snd] in H3; destruct (gatherDiskFiles fs dataFolders []);
        try reflexivity.
      * destruct H3 as [_ H3]. now specialize (H3 eq_refl).
      * destruct H3 as [H3 _]. now specialize (H3 eq_refl).
  - intros Hc. rewrite Hc.
    destruct (Cli.runTool OtherOutput gi cdc (Cli.toolOfAnswers answers)
                (Cli.traceLevel o) csn fs)
      as [out [|]]; reflexivity.
Qed.

Lemma exit_status_ignores_findings_witness :
  let quiet := fun (_ : string) (_ : nat) => (@nil unit, Some tt) in
  let answers := {| Cli.toolAnswer := Cli.AnswerCheck;
                    Cli.csvAnswer := Cli.AnswerBoth;
                    Cli.dbAnswer := Cli.AnswerHana |} in
  let ending := snd (Cli.main unit quiet (quiet EmptyString)
                       ["validatecsv"; "--tracelevel"; "0"] answers
                       Sample.salesModel (Sample.orderDisk "bogus")) in
  (forall c tool,
      Some "validatecsv" = Some c ->
      Cli.toolOf c = Some tool ->
      tool = Cli.ValidateFilenames \/ tool = Cli.ValidateHeaders
      \/ tool = Cli.ValidateBoth ->
      ending = match gatherDiskFiles (Sample.orderDisk "bogus") dataFolders [] with
               | Some _ => Cli.EndOfScript
               | None => Cli.Exit 1
               end)
  /\ (Some "validatecsv" = None -> ending = Cli.EndOfScript).
Proof.
  apply (exit_status_ignores_findings unit (fun _ _ => ([], Some tt))
           (fun _ => ([], Some tt)) ["validatecsv"; "--tracelevel"; "0"]
           {| Cli.toolAnswer := Cli.AnswerCheck; Cli.csvAnswer := Cli.AnswerBoth;
              Cli.dbAnswer := Cli.AnswerHana |}
           Sample.salesModel (Sample.orderDisk "bogus")
           {| Cli.traceLevel := 0; Cli.command := Some "validatecsv";
              Cli.showHelp := false |});
    reflexivity.
Defined.

(** ** A filename that lies in two data folders *)

Lemma findActual_shadow (l1 l2 : list DiskFile) (f g : DiskFile) (n : string) :
  In g l1 -> actualName g = actualName f ->
  findActual (l1 ++ f :: l2) n = findActual (l1 ++ l2) n.
Proof.
  intros Hin Hsame. destruct (actualName f =? n) eqn:E.
  - unfold findActual. induction l1 as [|h l1 IH]; [destruct Hin|].
    simpl. destruct (actualName h =? n) eqn:Eh; [reflexivity|].
    apply IH. destruct Hin as [->|Hin]; [|assumption].
    rewrite Hsame, E in Eh. discriminate.
  - apply findActual_drop. now apply String.eqb_neq.
Qed.

(** X22: when the same filename lies in two data folders, the header
    validator reconciles the one found first only: the later file can be
    left out, the loop over the entities ends in the same console and the
    same counters. *)
Theorem later_file_of_same_name_is_not_reconciled :
  forall (fs : Fs) (csn : Csn) (t : nat) (l1 l2 : list DiskFile) (f g : DiskFile)
         (entities : list string) (st : Counters),
    In g l1 -> actualName g = actualName f ->
    headersLoop fs csn t (l1 ++ f :: l2) entities st =
    headersLoop fs csn t (l1 ++ l2) entities st.
Proof.
  intros fs csn t l1 l2 f g entities st Hin Hsame. revert st.
  unfold headersLoop. induction entities as [|e r IH]; intros st; [reflexivity|].
  simpl. rewrite IH. f_equal. unfold headersStep.
  now rewrite (findActual_shadow l1 l2 f g (strictNameOf e) Hin Hsame).
Qed.

Lemma later_file_of_same_name_is_not_reconciled_witness :
  headersLoop (Sample.orderDisk "ID,status") Sample.salesModel 1
    ([diskFileOf "db/data" "sales-Order.csv"] ++
     diskFileOf "db/csv" "sales-Order.csv" :: [])
    (entitiesOf Sample.salesModel) start =
  headersLoop (Sample.orderDisk "ID,status") Sample.salesModel 1
    ([diskFileOf "db/data" "sales-Order.csv"] ++ [])
    (entitiesOf Sample.salesModel) start.
Proof.
  apply (later_file_of_same_name_is_not_reconciled (Sample.orderDisk "ID,status")
           Sample.salesModel 1 [diskFileOf "db/data" "sales-Order.csv"] []
           (diskFileOf "db/csv" "sales-Order.csv")
           (diskFileOf "db/data" "sales-Order.csv")).
  - now left.
  - reflexivity.
Defined.

(** ** Both validators in a row *)

(** X23: [validateCsvs] runs the filename validator, writes a blank line
    and runs the header validator.  When the filename validator throws,
    be it in the scan of the data folders or, in the file-walking copy, in
    the loop over the files, the run ends there: the console holds what
    the filename validator wrote, nothing of the header validator, and the
    exception escapes.  When the filename validator returns, the header
    validator returns as well, the console is the report of the one, a
    blank line and the report of the other, each as written when run
    alone, and both results are there.  This holds for both copies. *)
Theorem validateCsvs_is_filenames_then_headers :
  forall (t : nat) (csn : Csn) (fs : Fs),
    let headers := validateCsvHeaders t csn fs in
    (let names := ByFile.validateCsvFilenames t csn fs in
     (snd names = None -> ByFile.validateCsvs t csn fs = (fst names, None))
     /\ (forall n, snd names = Some n ->
           exists h, snd headers = Some h
                     /\ ByFile.validateCsvs t csn fs =
                        (fst names ++ BlankLine :: fst headers, Some (n, h))))
    /\ (let names := ByEntity.validateCsvFilenames t csn fs in
        (snd names = None -> ByEntity.validateCsvs t csn fs = (fst names, None))
        /\ (forall n, snd names = Some n ->
              exists h, snd headers = Some h
                        /\ ByEntity.validateCsvs t csn fs =
                           (fst names ++ BlankLine :: fst headers, Some (n, h)))).
Proof.
  intros t csn fs headers. subst headers. cbv zeta. split.
  - unfold ByFile.validateCsvs.
    rewrite validateCsvFilenames_run, validateCsvHeaders_run.
    destruct (gatherDiskFiles fs dataFolders []) as [[|f r]|].
    + split; [discriminate|]. intros n [= <-]. eexists. split; reflexivity.
    + destruct (ByFile.fileLoop _ _ _ _) as [a|a].
      * split; [discriminate|]. intros n [= <-]. eexists. split; [reflexivity|].
        cbn [bind log ret fst snd]. now rewrite app_nil_r.
      * split; [reflexivity | discriminate].
    + split; [reflexivity | discriminate].
  - unfold ByEntity.validateCsvs, ByEntity.validateCsvFilenames.
    rewrite validateCsvHeaders_run. unfold gather.
    destruct (gatherDiskFiles fs dataFolders []) as [[|f r]|].
    + split; [discriminate|]. intros n [= <-]. eexists. split; reflexivity.
    + split; [discriminate|]. intros n [= <-]. eexists. split; [reflexivity|].
      cbn [bind log ret fst snd]. now rewrite app_nil_r.
    + split; [reflexivity | discriminate].
Qed.

Lemma validateCsvs_is_filenames_then_headers_witness :
  let fs := Sample.disk [("sales-Invoice.csv", Some "ID"); ("constructor.csv", None)] in
  ByFile.validateCsvs 2 Sample.billingModel fs =
    ([LoadingModel Filenames; FoundCsvFiles Filenames 2;
      FilenameOk "sales.Invoice" "sales-Invoice.csv"],
     None)
  /\ exists h,
       snd (validateCsvHeaders 2 Sample.billingModel fs) = Some h
       /\ ByEntity.validateCsvs 2 Sample.billingModel fs =
          (fst (ByEntity.validateCsvFilenames 2 Sample.billingModel fs) ++ BlankLine
             :: fst (validateCsvHeaders 2 Sample.billingModel fs),
           Some (Some (0, 0), h)).
Proof.
  pose proof (validateCsvs_is_filenames_then_headers 2 Sample.billingModel
                (Sample.disk [("sales-Invoice.csv", Some "ID");
                              ("constructor.csv", None)])) as H.
  cbv zeta in H. destruct H as [[Hthrown _] [_ Hreturned]].
  split.
  - apply Hthrown. reflexivity.
  - apply Hreturned. reflexivity.
Defined.

(** ** The order of the definitions, on an example *)

Lemma runs_independent_of_definition_order_witness :
  let swapped :=
    {| definitions := [("sales.Customer", Sample.customer);
                       ("sales.Invoice", Sample.invoice)] |} in
  let fs := Sample.disk [("sales-Invoice.csv", Some "ID"); ("sales-customer.csv", None)] in
  validateCsvHeaders 2 Sample.billingModel fs = validateCsvHeaders 2 swapped fs
  /\ ByFile.validateCsvFilenames 2 Sample.billingModel fs =
     ByFile.validateCsvFilenames 2 swapped fs
  /\ ByEntity.validateCsvFilenames 2 Sample.billingModel fs =
     ByEntity.validateCsvFilenames 2 swapped fs.
Proof.
  apply (runs_independent_of_definition_order 2 Sample.billingModel
           {| definitions := [("sales.Customer", Sample.customer);
                              ("sales.Invoice", Sample.invoice)] |}
           (Sample.disk [("sales-Invoice.csv", Some "ID"); ("sales-customer.csv", None)])).
  - apply perm_swap.
  - repeat constructor; simpl; intuition discriminate.
Defined.
